(** * FitbitNonLocTcx: the PKCE handshake and the TCX timeline transformer

    A shallow embedding of [main.go]: the verifier and challenge generators,
    the authorization URL builder, the token-reception handler, the
    RFC 3339 timestamp conversion and the tree edits of [injectActivityTcx].

    Go values are modelled as follows.
    - [string] is Go's byte string: a Rocq [string] is a list of 8-bit
      characters, and [length] is Go's [len].
    - [int], [int64] and [time.Duration] are [Z]; where the program can leave
      the 64-bit range the wrap-around is written out with [wrap64].
    - [float64] is [spec_float] at precision 53 with [emax = 1024].
    - A call that panics in Go (a nil dereference, an index out of range)
      yields [None]; a Go [(value, error)] pair is a [result].
    - [crypto/rand.Reader] is a stream of draws, threaded through the code
      that consumes it; the package-level variables are the record
      [Globals], also threaded through. *)

From Stdlib Require Import ZArith List Bool Ascii String Lia.
From Stdlib Require Import Floats.SpecFloat.
Import ListNotations.

Open Scope string_scope.
Open Scope Z_scope.

(** ** Results, panics, and their sequencing *)

(** [time.ParseError]; the message is kept in structured form. *)
Inductive ParseMessage :=
| NoMessage
| OutOfRange (what : string)
| ExtraText (rest : string).

Record ParseError := mkParseError {
  Layout : string;
  Value : string;
  LayoutElem : string;
  ValueElem : string;
  Message : ParseMessage
}.

(** Go's [error] values, by dynamic type: the errors made by [fmt.Errorf]
    and by the random source carry a text, [*time.ParseError] is a kind of
    its own. *)
Inductive error :=
| errorString (msg : string)
| timeParseError (e : ParseError).

Coercion errorString : string >-> error.

Inductive result (A : Type) : Type :=
| Ok (a : A)
| Err (e : error).
Arguments Ok {A} a.
Arguments Err {A} e.

Definition is_ok {A} (r : result A) : bool :=
  match r with Ok _ => true | Err _ => false end.

Declare Scope go_scope.
Delimit Scope go_scope with go.

Notation "x <- c ;; k" :=
  (match c with Some x => k | None => None end)
    (at level 61, c at next level, right associativity) : go_scope.

Notation "x <~ c ;; k" :=
  (match c with Ok x => k | Err e => Err e end)
    (at level 61, c at next level, right associativity) : go_scope.

Open Scope go_scope.

(** ** Bytes and strings *)

Definition byte_of (c : ascii) : Z := Z.of_N (N_of_ascii c).
Definition chr (b : Z) : ascii := ascii_of_N (Z.to_N (b mod 256)).

Fixpoint bytes (s : string) : list Z :=
  match s with
  | EmptyString => []
  | String c s' => byte_of c :: bytes s'
  end.

Fixpoint of_bytes (l : list Z) : string :=
  match l with
  | [] => EmptyString
  | b :: l' => String (chr b) (of_bytes l')
  end.

Fixpoint chars (s : string) : list ascii :=
  match s with
  | EmptyString => []
  | String c s' => c :: chars s'
  end.

(** [s[i]]; out of range Go panics. *)
Definition char_at (s : string) (i : Z) : option ascii :=
  if i <? 0 then None else String.get (Z.to_nat i) s.

Definition len (s : string) : Z := Z.of_nat (String.length s).

(** ** 64-bit wrap-around *)

Definition wrap64 (z : Z) : Z := (z + 2 ^ 63) mod 2 ^ 64 - 2 ^ 63.

Definition in_int64 (z : Z) : Prop := - 2 ^ 63 <= z < 2 ^ 63.

(** ** crypto/sha256 *)

Module Sha256.

Definition w32 (x : Z) : Z := x mod 2 ^ 32.

Definition rotr (n x : Z) : Z :=
  Z.lor (Z.shiftr x n) (w32 (Z.shiftl x (32 - n))).

Definition Ch (x y z : Z) : Z :=
  Z.lxor (Z.land x y) (Z.land (w32 (Z.lnot x)) z).
Definition Maj (x y z : Z) : Z :=
  Z.lxor (Z.lxor (Z.land x y) (Z.land x z)) (Z.land y z).
Definition Sigma0 (x : Z) : Z :=
  Z.lxor (Z.lxor (rotr 2 x) (rotr 13 x)) (rotr 22 x).
Definition Sigma1 (x : Z) : Z :=
  Z.lxor (Z.lxor (rotr 6 x) (rotr 11 x)) (rotr 25 x).
Definition sigma0 (x : Z) : Z :=
  Z.lxor (Z.lxor (rotr 7 x) (rotr 18 x)) (Z.shiftr x 3).
Definition sigma1 (x : Z) : Z :=
  Z.lxor (Z.lxor (rotr 17 x) (rotr 19 x)) (Z.shiftr x 10).

(** The round constants are the first 32 bits of the fractional parts of
    the cube roots of the first 64 primes, the initial hash value those of
    the square roots of the first 8 primes (FIPS 180-4, sections 4.2.2 and
    5.3.3). *)
Definition is_prime (n : Z) : bool :=
  (1 <? n)
  && forallb (fun d => negb (n mod Z.of_nat d =? 0)) (seq 2 (Z.to_nat n - 2)).

Definition primes (count : nat) : list Z :=
  firstn count (filter is_prime (map Z.of_nat (seq 2 310))).

(** the integer cube root, found bit by bit from [2 ^ bits] down *)
Fixpoint cube_root (bits : nat) (n r : Z) : Z :=
  match bits with
  | O => r
  | S b =>
      let c := r + 2 ^ Z.of_nat b in
      cube_root b n (if c * c * c <=? n then c else r)
  end.

Definition K : list Z :=
  map (fun p => w32 (cube_root 36 (p * 2 ^ 96) 0)) (primes 64).

Definition H0 : list Z :=
  map (fun p => w32 (Z.sqrt (p * 2 ^ 64))) (primes 8).

(** big-endian bytes of a word of [n] bytes *)
Fixpoint be_bytes (n : nat) (x : Z) : list Z :=
  match n with
  | O => []
  | S n' => (Z.shiftr x (8 * Z.of_nat n')) mod 256 :: be_bytes n' x
  end.

Definition pad (msg : list Z) : list Z :=
  let l := Z.of_nat (List.length msg) in
  let k := (55 - l) mod 64 in
  msg ++ [0x80] ++ repeat 0 (Z.to_nat k) ++ be_bytes 8 (8 * l).

Fixpoint words (n : nat) (bs : list Z) : list Z :=
  match n, bs with
  | S n', b0 :: b1 :: b2 :: b3 :: bs' =>
      (((b0 * 256 + b1) * 256 + b2) * 256 + b3) :: words n' bs'
  | _, _ => []
  end.

(** the message schedule, most recent word first *)
Fixpoint schedule (n : nat) (rev_w : list Z) : list Z :=
  match n with
  | O => rev_w
  | S n' =>
      let w := w32 (sigma1 (nth 1 rev_w 0) + nth 6 rev_w 0
                    + sigma0 (nth 14 rev_w 0) + nth 15 rev_w 0) in
      schedule n' (w :: rev_w)
  end.

Definition round (st : list Z) (kw : Z * Z) : list Z :=
  match st with
  | [a; b; c; d; e; f; g; h] =>
      let t1 := h + Sigma1 e + Ch e f g + fst kw + snd kw in
      let t2 := Sigma0 a + Maj a b c in
      [w32 (t1 + t2); a; b; c; w32 (d + t1); e; f; g]
  | _ => st
  end.

Definition block (h : list Z) (blk : list Z) : list Z :=
  let w := rev (schedule 48 (rev (words 16 blk))) in
  let st := fold_left round (combine K w) h in
  map (fun p => w32 (fst p + snd p)) (combine h st).

Fixpoint blocks (n : nat) (h : list Z) (bs : list Z) : list Z :=
  match n with
  | O => h
  | S n' => blocks n' (block h (firstn 64 bs)) (skipn 64 bs)
  end.

(** [sha256.Sum256]: the 32 digest bytes *)
Definition Sum256 (msg : list Z) : list Z :=
  let p := pad msg in
  flat_map (be_bytes 4) (blocks (List.length p / 64) H0 p).

End Sha256.

(** ** encoding/base64: [URLEncoding.WithPadding(NoPadding)] *)

Module Base64.

Definition encodeURL : string :=
  "ABCDEFGHIJKLMNOPQRSTUVWXYZabcdefghijklmnopqrstuvwxyz0123456789-_".

Definition enc (i : Z) : ascii :=
  match String.get (Z.to_nat (i mod 64)) encodeURL with
  | Some c => c
  | None => "A"%char
  end.

Fixpoint EncodeToString (src : list Z) : string :=
  match src with
  | b0 :: b1 :: b2 :: rest =>
      let v := (b0 * 256 + b1) * 256 + b2 in
      String (enc (Z.shiftr v 18))
        (String (enc (Z.shiftr v 12))
           (String (enc (Z.shiftr v 6))
              (String (enc v) (EncodeToString rest))))
  | [b0; b1] =>
      let v := (b0 * 256 + b1) * 256 in
      String (enc (Z.shiftr v 18))
        (String (enc (Z.shiftr v 12))
           (String (enc (Z.shiftr v 6)) EmptyString))
  | [b0] =>
      let v := b0 * 65536 in
      String (enc (Z.shiftr v 18))
        (String (enc (Z.shiftr v 12)) EmptyString)
  | [] => EmptyString
  end.

End Base64.

(** ** The challenge generator *)

(** [generateCodeChallenge] *)
Definition generateCodeChallenge (codeVerifier : string) : result string :=
  if String.eqb codeVerifier "" then
    Err "error: empty codeVerifier string"
  else
    let hash := Sha256.Sum256 (bytes codeVerifier) in
    Ok (Base64.EncodeToString hash).

(** The challenge as the specification words it: the base64url encoding,
    without padding, of the SHA-256 digest of the verifier's bytes. *)
Definition spec_challenge (verifier : string) : string :=
  Base64.EncodeToString (Sha256.Sum256 (bytes verifier)).

(** ** crypto/rand

    [rand.Reader] is the sequence of draws it will deliver: each draw is a
    number or a read error.  [rand.Int(rand.Reader, max)] consumes one draw
    and returns a value in [[0, max)]; an exhausted reader fails. *)

Definition Reader := list (result Z).

Definition rand_Int (r : Reader) (max : Z) : result Z * Reader :=
  match r with
  | [] => (Err "EOF", [])
  | Ok v :: r' => (Ok (v mod max), r')
  | Err e :: r' => (Err e, r')
  end.

(** The first [n] draws of [r] all succeed. *)
Fixpoint delivers (n : nat) (r : Reader) : Prop :=
  match n with
  | O => True
  | S n' =>
      match r with
      | Ok _ :: r' => delivers n' r'
      | _ => False
      end
  end.

(** ** The verifier generator *)

Definition rfc3986Chars : string :=
  "ABCDEFGHIJKLMNOPQRSTUVWXYZabcdefghijklmnopqrstuvwxyz0123456789-._~".

(** The loop [for i := range verifier] of [generateCodeVerifier]: [n]
    positions are still to be filled; a failed draw returns at once. *)
Fixpoint verifier_loop (n : nat) (r : Reader) : result string * Reader :=
  match n with
  | O => (Ok "", r)
  | S n' =>
      match rand_Int r (len rfc3986Chars) with
      | (Err e, r') => (Err e, r')
      | (Ok idx, r') =>
          match char_at rfc3986Chars idx with
          | None => (Err "index out of range", r')
          | Some c =>
              match verifier_loop n' r' with
              | (Ok rest, r'') => (Ok (String c rest), r'')
              | (Err e, r'') => (Err e, r'')
              end
          end
      end
  end.

(** [generateCodeVerifier] *)
Definition generateCodeVerifier (length : Z) (r : Reader) : result string * Reader :=
  if (length <? 43) || (length >? 128) then
    (Err "code verifier length must be between 43 and 128 characters", r)
  else
    verifier_loop (Z.to_nat length) r.

(** ** Package-level variables *)

Record Globals := mkGlobals {
  codeVerifier : string;
  codeChallenge : string;
  stateAuth : string;
  stateRedir : string;
  token : string
}.

Definition set_stateAuth (v : string) (g : Globals) : Globals :=
  mkGlobals (codeVerifier g) (codeChallenge g) v (stateRedir g) (token g).
Definition set_stateRedir (v : string) (g : Globals) : Globals :=
  mkGlobals (codeVerifier g) (codeChallenge g) (stateAuth g) v (token g).
Definition set_token (v : string) (g : Globals) : Globals :=
  mkGlobals (codeVerifier g) (codeChallenge g) (stateAuth g) (stateRedir g) v.

(** ** The anti-forgery token generator *)

Definition charset : string :=
  "abcdefghijklmnopqrstuvwxyz0123456789ABCDEFGHIJKLMNOPQRSTUVWXYZ".

(** The loop [for i := 0; i < 32; i++] of [generateRandomString]; a failed
    draw panics. *)
Fixpoint state_loop (n : nat) (r : Reader) : option (string * Reader) :=
  match n with
  | O => Some ("", r)
  | S n' =>
      match rand_Int r (len charset) with
      | (Err _, _) => None
      | (Ok idx, r') =>
          c <- char_at charset idx ;;
          p <- state_loop n' r' ;;
          Some (String c (fst p), snd p)
      end
  end.

(** [generateRandomString]: the value is stored in [stateAuth] and returned. *)
Definition generateRandomString (g : Globals) (r : Reader)
  : option (string * Globals * Reader) :=
  p <- state_loop 32 r ;;
  let g' := set_stateAuth (fst p) g in
  Some (stateAuth g', g', snd p).

(** ** The authorization URL builder *)

(** The fields of [oauth2.Config] the program reads. *)
Record Config := mkConfig {
  ClientID : string;
  ClientSecret : string;
  RedirectURL : string;
  Scopes : list string
}.

(** [scopeStringBuilder] *)
Definition scopeStringBuilder (scopes : list string) : string :=
  let scopeString := fold_left (fun acc s => acc ++ s ++ "+") scopes "" in
  let lastChar := len scopeString - 1 in
  match char_at scopeString lastChar with
  | Some c =>
      if (lastChar >=? 0) && Ascii.eqb c "+" then
        substring 0 (Z.to_nat lastChar) scopeString
      else scopeString
  | None => scopeString
  end.

(** [getAuthURL]: [fmt.Sprintf] with [%s] verbs pastes its operands as they
    are; the last operand is the call of [generateRandomString]. *)
Definition getAuthURL (codeChallenge : string) (ouathCfg : Config)
  (g : Globals) (r : Reader) : option (string * Globals * Reader) :=
  let scope := scopeStringBuilder (Scopes ouathCfg) in
  p <- generateRandomString g r ;;
  let '(state, g', r') := p in
  Some ("https://www.fitbit.com/oauth2/authorize?response_type=token&client_id="
          ++ ClientID ouathCfg
          ++ "&redirect_uri=" ++ RedirectURL ouathCfg
          ++ "&scope=" ++ scope
          ++ "&code_challenge=" ++ codeChallenge
          ++ "&code_challenge_method=" ++ "S256"
          ++ "&state=" ++ state,
        g', r').

(** ** Package time

    A [Time] is an instant (seconds since the Unix epoch and nanoseconds
    within the second) with the offset, in seconds east of UTC, of its
    location.  A [Duration] is a number of nanoseconds. *)

Module GoTime.

Record Time := mkTime { unixSec : Z; nsec : Z; offset : Z }.

Definition Nanosecond : Z := 1.
Definition Millisecond : Z := 1000000.
Definition Second : Z := 1000000000.

Definition RFC3339 : string := "2006-01-02T15:04:05Z07:00".

(** *** The calendar *)

Definition isLeap (year : Z) : bool :=
  (year mod 4 =? 0) && (negb (year mod 100 =? 0) || (year mod 400 =? 0)).

Definition daysIn (month year : Z) : Z :=
  if month =? 2 then (if isLeap year then 29 else 28)
  else if (month =? 4) || (month =? 6) || (month =? 9) || (month =? 11) then 30
  else 31.

(** days from 1970-01-01 to the given civil date *)
Definition days_from_civil (y m d : Z) : Z :=
  let y' := if m <=? 2 then y - 1 else y in
  let era := y' / 400 in
  let yoe := y' - era * 400 in
  let doy := (153 * (if m >? 2 then m - 3 else m + 9) + 2) / 5 + d - 1 in
  let doe := yoe * 365 + yoe / 4 - yoe / 100 + doy in
  era * 146097 + doe - 719468.

(** the civil date (year, month, day) of a day number *)
Definition civil_from_days (days : Z) : Z * Z * Z :=
  let z := days + 719468 in
  let era := z / 146097 in
  let doe := z - era * 146097 in
  let yoe := (doe - doe / 1460 + doe / 36524 - doe / 146096) / 365 in
  let doy := doe - (365 * yoe + yoe / 4 - yoe / 100) in
  let mp := (5 * doy + 2) / 153 in
  let d := doy - (153 * mp + 2) / 5 + 1 in
  let m := if mp <? 10 then mp + 3 else mp - 9 in
  ((if m <=? 2 then yoe + era * 400 + 1 else yoe + era * 400), m, d).

(** [time.Date(year, month, day, hour, min, sec, nsec, time.UTC)] *)
Definition Date (year month day hour min sec nsec : Z) : Time :=
  let month0 := month - 1 in
  let year := year + month0 / 12 in
  let month := month0 mod 12 + 1 in
  let total := ((days_from_civil year month 1 + (day - 1)) * 24 + hour) * 3600
               + min * 60 + sec in
  mkTime (total + nsec / Second) (nsec mod Second) 0.

(** [t.UTC()] *)
Definition UTC (t : Time) : Time := mkTime (unixSec t) (nsec t) 0.

(** [t.Add(d)] *)
Definition Add (t : Time) (d : Z) : Time :=
  let dsec := Z.quot d 1000000000 in
  let nsec' := nsec t + Z.rem d 1000000000 in
  if nsec' >=? 1000000000 then mkTime (unixSec t + (dsec + 1)) (nsec' - 1000000000) (offset t)
  else if nsec' <? 0 then mkTime (unixSec t + (dsec - 1)) (nsec' + 1000000000) (offset t)
  else mkTime (unixSec t + dsec) nsec' (offset t).

(** *** Decimal output *)

Definition utod (u : Z) : ascii := chr (48 + u).

Fixpoint digits_of (fuel : nat) (u : Z) (acc : string) : string :=
  match fuel with
  | O => acc
  | S fuel' =>
      let acc' := String (utod (u mod 10)) acc in
      if u <? 10 then acc' else digits_of fuel' (u / 10) acc'
  end.

(** decimal digits of [u >= 0] *)
Definition utoa (u : Z) : string := digits_of (Z.to_nat (Z.log2 u) + 1) u "".

Fixpoint zeros (n : nat) : string :=
  match n with
  | O => ""
  | S n' => String "0" (zeros n')
  end.

(** [appendInt]: the decimal form of [x], zero-padded to [width] *)
Definition appendInt (x : Z) (width : nat) : string :=
  let ds := utoa (Z.abs x) in
  (if x <? 0 then "-" else "")
    ++ zeros (width - String.length ds) ++ ds.

(** [t.Format(time.RFC3339)] *)
Definition Format (t : Time) : string :=
  let abs := unixSec t + offset t in
  let '(year, month, day) := civil_from_days (abs / 86400) in
  let secs := abs mod 86400 in
  let zone := Z.quot (offset t) 60 in
  appendInt year 4 ++ "-" ++ appendInt month 2 ++ "-" ++ appendInt day 2
    ++ "T" ++ appendInt (secs / 3600) 2
    ++ ":" ++ appendInt (secs mod 3600 / 60) 2
    ++ ":" ++ appendInt (secs mod 60) 2
    ++ (if offset t =? 0 then "Z"
        else (if zone <? 0 then "-" else "+")
               ++ appendInt (Z.abs zone / 60) 2 ++ ":" ++ appendInt (Z.abs zone mod 60) 2).

(** *** Reading numbers *)

Definition isDigitC (c : ascii) : bool :=
  (48 <=? byte_of c) && (byte_of c <=? 57).

Definition digit (c : ascii) : Z := byte_of c - 48.

(** [isDigit(s, i)] *)
Definition isDigit (s : string) (i : nat) : bool :=
  match String.get i s with
  | Some c => isDigitC c
  | None => false
  end.

(** [getnum]: one or two digits; exactly two when [fixed] *)
Definition getnum (s : string) (fixed : bool) : option (Z * string) :=
  match s with
  | String c0 s1 =>
      if isDigitC c0 then
        match s1 with
        | String c1 s2 =>
            if isDigitC c1 then Some (digit c0 * 10 + digit c1, s2)
            else if fixed then None else Some (digit c0, s1)
        | EmptyString => if fixed then None else Some (digit c0, s1)
        end
      else None
  | EmptyString => None
  end.

(** [leadingInt]: the leading run of digits and the rest *)
Fixpoint leadingInt (s : string) (x : Z) : Z * string :=
  match s with
  | String c s' => if isDigitC c then leadingInt s' (x * 10 + digit c) else (x, s)
  | EmptyString => (x, s)
  end.

(** [atoi]: an optional sign and digits to the end of the string *)
Definition atoi (s : string) : option Z :=
  let '(neg, s') :=
    match s with
    | String c rest =>
        if Ascii.eqb c "-" then (true, rest)
        else if Ascii.eqb c "+" then (false, rest)
        else (false, s)
    | EmptyString => (false, s)
    end in
  let '(q, rem) := leadingInt s' 0 in
  match rem with
  | EmptyString => Some (if neg then - q else q)
  | _ => None
  end.

Definition commaOrPeriod (c : ascii) : bool :=
  Ascii.eqb c "." || Ascii.eqb c ",".

(** the length of the run of digits at the head of [s] *)
Fixpoint digit_run (s : string) : nat :=
  match s with
  | String c s' => if isDigitC c then S (digit_run s') else O
  | EmptyString => O
  end.

Fixpoint pow10 (n : nat) : Z :=
  match n with
  | O => 1
  | S n' => 10 * pow10 n'
  end.

(** [parseNanoseconds(value, nbytes)]: [value] starts with the separator;
    at most nine digits count, the missing ones are zeros. *)
Definition parseNanoseconds (value : string) (nbytes : nat) : option Z :=
  match value with
  | String c _ =>
      if commaOrPeriod c then
        let nbytes := Nat.min nbytes 10 in
        ns <- atoi (substring 1 (nbytes - 1) value) ;;
        Some (ns * pow10 (10 - nbytes))
      else None
  | EmptyString => None
  end.

(** *** [time.Parse(time.RFC3339, value)]

    The layout is cut into its elements: the year, and then each further
    element with the literal text before it. *)

Definition bad (avalue layoutElem valueElem : string) (m : ParseMessage)
  : ParseError :=
  mkParseError RFC3339 avalue layoutElem valueElem m.

(** [skip(value, prefix)] for a one-character prefix *)
Definition skip (avalue : string) (prefix : ascii) (value : string)
  : string + ParseError :=
  match value with
  | String c rest =>
      if Ascii.eqb c prefix then inl rest
      else inr (bad avalue (String prefix "") value NoMessage)
  | EmptyString => inr (bad avalue (String prefix "") value NoMessage)
  end.

(** a numeric element: [getnum], then the range test *)
Definition number (avalue stdstr : string) (fixed : bool)
  (in_range : Z -> bool) (what : string) (value : string)
  : (Z * string) + ParseError :=
  match getnum value fixed with
  | None => inr (bad avalue stdstr value NoMessage)
  | Some (n, rest) =>
      if in_range n then inl (n, rest)
      else inr (bad avalue stdstr rest (OutOfRange what))
  end.

(** the element [Z07:00]: the zone offset in seconds; [Z] is UTC *)
Definition zone (avalue : string) (value : string)
  : (Z * string) + ParseError :=
  let stdstr := "Z07:00" in
  match value with
  | EmptyString => inr (bad avalue stdstr value NoMessage)
  | String z rest0 =>
      if Ascii.eqb z "Z" then inl (0, rest0)
      else
        match value with
        | String sign (String h1 (String h2 (String colon (String m1 (String m2 rest))))) =>
            if negb (Ascii.eqb colon ":") then inr (bad avalue stdstr value NoMessage)
            else
              let hour := String h1 (String h2 "") in
              let min := String m1 (String m2 "") in
              match getnum hour true with
              | None => inr (bad avalue stdstr value NoMessage)
              | Some (hr, _) =>
                  match getnum min true with
                  | None => inr (bad avalue stdstr value NoMessage)
                  | Some (mm, _) =>
                      if mm >? 60 then
                        inr (bad avalue stdstr rest (OutOfRange "time zone offset minute"))
                      else if hr >? 24 then
                        inr (bad avalue stdstr rest (OutOfRange "time zone offset hour"))
                      else
                        let zoneOffset := (hr * 60 + mm) * 60 in
                        if Ascii.eqb sign "+" then inl (zoneOffset, rest)
                        else if Ascii.eqb sign "-" then inl (- zoneOffset, rest)
                        else inr (bad avalue stdstr value NoMessage)
                  end
              end
        | _ => inr (bad avalue stdstr value NoMessage)
        end
  end.

(** the fraction of a second that may follow the seconds *)
Definition fraction (avalue : string) (value : string)
  : (Z * string) + ParseError :=
  match value with
  | String c0 (String c1 _) =>
      if commaOrPeriod c0 && isDigitC c1 then
        let n := S (digit_run (substring 1 (String.length value) value)) in
        match parseNanoseconds value n with
        | Some ns => inl (ns, substring n (String.length value - n) value)
        | None => inr (bad avalue "05" value NoMessage)
        end
      else inl (0, value)
  | _ => inl (0, value)
  end.

Notation "x <-- c ;; k" :=
  (match c with inl x => k | inr e => inr e end)
    (at level 61, c at next level, right associativity).

Definition Parse (value : string) : Time + ParseError :=
  let avalue := value in
  (* 2006 *)
  if (String.length value <? 4)%nat || negb (isDigit value 0) then
    inr (bad avalue "2006" value NoMessage)
  else
  match atoi (substring 0 4 value) with
  | None => inr (bad avalue "2006" value NoMessage)
  | Some year =>
  let value := substring 4 (String.length value - 4) value in
  (* -01 *)
  value <-- skip avalue "-" value ;;
  mo <-- number avalue "01" true (fun n => (0 <? n) && (n <=? 12)) "month" value ;;
  let '(month, value) := mo in
  (* -02 *)
  value <-- skip avalue "-" value ;;
  da <-- number avalue "02" true (fun _ => true) "" value ;;
  let '(day, value) := da in
  (* T15 *)
  value <-- skip avalue "T" value ;;
  ho <-- number avalue "15" false (fun n => n <? 24) "hour" value ;;
  let '(hour, value) := ho in
  (* :04 *)
  value <-- skip avalue ":" value ;;
  mi <-- number avalue "04" true (fun n => n <? 60) "minute" value ;;
  let '(min, value) := mi in
  (* :05 and the fraction *)
  value <-- skip avalue ":" value ;;
  se <-- number avalue "05" true (fun n => n <? 60) "second" value ;;
  let '(sec, value) := se in
  fr <-- fraction avalue value ;;
  let '(nsec, value) := fr in
  (* Z07:00 *)
  zo <-- zone avalue value ;;
  let '(zoneOffset, value) := zo in
  (* the end of the layout *)
  if negb (String.eqb value "") then
    inr (bad avalue "" value (ExtraText value))
  else if (day <? 1) || (day >? daysIn month year) then
    inr (bad avalue "" value (OutOfRange "day"))
  else
    let t := Date year month day hour min sec nsec in
    inl (mkTime (unixSec t - zoneOffset) (GoTime.nsec t) zoneOffset)
  end.

End GoTime.

(** [convertTimestamp] *)
Definition convertTimestamp (timeStamp : string) (addSecond : Z) : result string :=
  match GoTime.Parse timeStamp with
  | inr err => Err (timeParseError err)
  | inl t =>
      let utcTime := GoTime.UTC t in
      let newTime := GoTime.Add utcTime addSecond in
      Ok (GoTime.Format newTime)
  end.

(** the string of a Go [(string, error)] pair: empty beside an error *)
Definition value_of (r : result string) : string :=
  match r with Ok s => s | Err _ => "" end.


(** ** strconv *)

(** [strconv.Itoa] and [strconv.FormatInt(_, 10)] *)
Definition Itoa (i : Z) : string :=
  (if i <? 0 then "-" else "") ++ GoTime.utoa (Z.abs i).

(** ** float64 *)

Definition float64 := spec_float.

(** the conversion [float64(i)] of an integer *)
Definition float64_of_int (i : Z) : float64 := binary_normalize 53 1024 i 0 false.

Definition fadd : float64 -> float64 -> float64 := SFadd 53 1024.
Definition fmul : float64 -> float64 -> float64 := SFmul 53 1024.
Definition fdiv : float64 -> float64 -> float64 := SFdiv 53 1024.

(** [d.Seconds()] of a [time.Duration] *)
Definition Seconds (d : Z) : float64 :=
  let sec := Z.quot d GoTime.Second in
  let nsec := Z.rem d GoTime.Second in
  fadd (float64_of_int sec) (fdiv (float64_of_int nsec) (float64_of_int 1000000000)).

(** The float [x] is exactly the integer [z]. *)
Definition is_integer (x : float64) (z : Z) : Prop :=
  match x with
  | S754_zero _ => z = 0
  | S754_finite s m e =>
      if e <? 0 then cond_Zopp s (Zpos m) = z * 2 ^ (- e)
      else z = cond_Zopp s (Zpos m) * 2 ^ e
  | _ => False
  end.

(** The float [x] has no fractional part. *)
Definition whole (x : float64) : bool :=
  match x with
  | S754_zero _ => true
  | S754_finite _ m e => if e <? 0 then Zpos m mod 2 ^ (- e) =? 0 else true
  | _ => false
  end.

(** ** github.com/beevik/etree

    The parsed document as a tree of tokens.  The program holds pointers
    into the tree and edits in place; here an edit below a child rebuilds
    the path to it. *)

Record Attr := mkAttr { ASpace : string; Key : string; AValue : string }.

Inductive Element :=
| mkElement (Space Tag : string) (Attrs : list Attr) (Child : list Token)
with Token :=
| TElement (e : Element)
| TCharData (Data : string) (whitespace : bool)
| TComment (Data : string)
| TDirective (Data : string)
| TProcInst (Target Inst : string).

Definition Space (e : Element) : string := let 'mkElement s _ _ _ := e in s.
Definition Tag (e : Element) : string := let 'mkElement _ t _ _ := e in t.
Definition Attrs (e : Element) : list Attr := let 'mkElement _ _ a _ := e in a.
Definition Child (e : Element) : list Token := let 'mkElement _ _ _ c := e in c.

Definition set_Attrs (a : list Attr) (e : Element) : Element :=
  mkElement (Space e) (Tag e) a (Child e).
Definition set_Child (c : list Token) (e : Element) : Element :=
  mkElement (Space e) (Tag e) (Attrs e) c.

(** [spaceDecompose]: the text before and after the first colon *)
Fixpoint spaceDecompose_aux (s : string) (acc : string) : option (string * string) :=
  match s with
  | String c s' =>
      if Ascii.eqb c ":" then Some (acc, s')
      else spaceDecompose_aux s' (acc ++ String c "")
  | EmptyString => None
  end.

Definition spaceDecompose (str : string) : string * string :=
  match spaceDecompose_aux str "" with
  | Some p => p
  | None => ("", str)
  end.

(** [spaceMatch]: an empty namespace matches any *)
Definition spaceMatch (a b : string) : bool :=
  if String.eqb a "" then true else String.eqb a b.

Definition tag_matches (tag : string) (c : Element) : bool :=
  let '(space, stag) := spaceDecompose tag in
  spaceMatch space (Space c) && String.eqb stag (Tag c).

(** [etree.NewElement(tag)] *)
Definition NewElement (tag : string) : Element :=
  let '(space, stag) := spaceDecompose tag in
  mkElement space stag [] [].

(** [e.SelectElement(tag)]: the first child element with the tag; nil
    ([None]) when there is none *)
Fixpoint select_first (tag : string) (ts : list Token) : option Element :=
  match ts with
  | [] => None
  | TElement c :: ts' => if tag_matches tag c then Some c else select_first tag ts'
  | _ :: ts' => select_first tag ts'
  end.

Definition SelectElement (tag : string) (e : Element) : option Element :=
  select_first tag (Child e).

(** [e.SelectElements(tag)]: all child elements with the tag *)
Fixpoint select_all (tag : string) (ts : list Token) : list Element :=
  match ts with
  | [] => []
  | TElement c :: ts' =>
      if tag_matches tag c then c :: select_all tag ts' else select_all tag ts'
  | _ :: ts' => select_all tag ts'
  end.

Definition SelectElements (tag : string) (e : Element) : list Element :=
  select_all tag (Child e).

(** [e.ChildElements()] *)
Fixpoint child_elements (ts : list Token) : list Element :=
  match ts with
  | [] => []
  | TElement c :: ts' => c :: child_elements ts'
  | _ :: ts' => child_elements ts'
  end.

Definition ChildElements (e : Element) : list Element := child_elements (Child e).

(** An edit through the pointer [e.SelectElement(tag)]: the first matching
    child is replaced by its edited form; a nil pointer panics. *)
Fixpoint edit_first (tag : string) (f : Element -> option Element)
  (ts : list Token) : option (list Token) :=
  match ts with
  | [] => None
  | TElement c :: ts' =>
      if tag_matches tag c then
        c' <- f c ;; Some (TElement c' :: ts')
      else
        r <- edit_first tag f ts' ;; Some (TElement c :: r)
  | t :: ts' => r <- edit_first tag f ts' ;; Some (t :: r)
  end.

Definition edit_child (tag : string) (f : Element -> option Element)
  (e : Element) : option Element :=
  c <- edit_first tag f (Child e) ;; Some (set_Child c e).

(** an edit at the end of a chain of [SelectElement] calls *)
Fixpoint edit_path (path : list string) (f : Element -> option Element)
  (e : Element) : option Element :=
  match path with
  | [] => f e
  | tag :: path' => edit_child tag (edit_path path' f) e
  end.

Fixpoint select_path (path : list string) (e : Element) : option Element :=
  match path with
  | [] => Some e
  | tag :: path' => c <- SelectElement tag e ;; select_path path' c
  end.

(** [e.SelectAttr(key).Value = value]; a nil attribute panics *)
Fixpoint set_first_attr (space skey value : string) (attrs : list Attr)
  : option (list Attr) :=
  match attrs with
  | [] => None
  | a :: attrs' =>
      if spaceMatch space (ASpace a) && String.eqb skey (Key a) then
        Some (mkAttr (ASpace a) (Key a) value :: attrs')
      else
        r <- set_first_attr space skey value attrs' ;; Some (a :: r)
  end.

Definition SelectAttr_set_Value (key value : string) (e : Element) : option Element :=
  let '(space, skey) := spaceDecompose key in
  a <- set_first_attr space skey value (Attrs e) ;; Some (set_Attrs a e).

(** [e.SelectAttrValue(key, dflt)] *)
Fixpoint attr_value (space skey dflt : string) (attrs : list Attr) : string :=
  match attrs with
  | [] => dflt
  | a :: attrs' =>
      if spaceMatch space (ASpace a) && String.eqb skey (Key a) then AValue a
      else attr_value space skey dflt attrs'
  end.

Definition SelectAttrValue (key dflt : string) (e : Element) : string :=
  let '(space, skey) := spaceDecompose key in
  attr_value space skey dflt (Attrs e).

(** [e.CreateAttr(key, value)]: an attribute of the same name is
    overwritten, otherwise the attribute is appended *)
Fixpoint create_attr (space skey value : string) (attrs : list Attr) : list Attr :=
  match attrs with
  | [] => [mkAttr space skey value]
  | a :: attrs' =>
      if String.eqb space (ASpace a) && String.eqb skey (Key a) then
        mkAttr (ASpace a) (Key a) value :: attrs'
      else a :: create_attr space skey value attrs'
  end.

Definition CreateAttr (key value : string) (e : Element) : Element :=
  let '(space, skey) := spaceDecompose key in
  set_Attrs (create_attr space skey value (Attrs e)) e.

(** [e.Text()]: the character data that directly follows the opening tag;
    comments are passed over *)
Fixpoint text_of (ts : list Token) : string :=
  match ts with
  | TCharData d _ :: ts' => d ++ text_of ts'
  | TComment _ :: ts' => text_of ts'
  | _ => ""
  end.

Definition Text (e : Element) : string := text_of (Child e).

Fixpoint drop_chardata (ts : list Token) : list Token :=
  match ts with
  | TCharData _ _ :: ts' => drop_chardata ts'
  | _ => ts
  end.

(** [e.SetText(text)]: the leading run of character data is replaced by
    one token, or by none when [text] is empty *)
Definition SetText (text : string) (e : Element) : Element :=
  let rest := drop_chardata (Child e) in
  set_Child (if String.eqb text "" then rest else TCharData text false :: rest) e.

(** [e.AddChild(t)] for a token that has no parent yet *)
Definition AddChild (t : Token) (e : Element) : Element :=
  set_Child (Child e ++ [t])%list e.

(** the number of elements with tag [tag] in the tree under [e], [e]
    included *)
Fixpoint count_tag (tag : string) (e : Element) : nat :=
  match e with
  | mkElement _ t _ ch =>
      ((if String.eqb t tag then 1 else 0)
       + (fix go (ts : list Token) : nat :=
            match ts with
            | [] => 0
            | TElement c :: ts' => count_tag tag c + go ts'
            | _ :: ts' => go ts'
            end) ch)%nat
  end.

(** ** The token-reception handler *)

(** What the program does to the outside: console output, the response body,
    and the calls that leave the handler. *)
Inductive Event :=
| Println (line : string)
| ResponseWrite (body : string)
| PrintXML (doc : Element)
| SaveToFile (fileName : string) (doc : Element)
| ServerShutdown
| DoneSend.

(** The parsed query of the request URL, in order of appearance;
    [Values.Get] returns the first value of a key, or the empty string. *)
Record Request := mkRequest { Query : list (string * string) }.

Fixpoint Get (key : string) (q : list (string * string)) : string :=
  match q with
  | [] => ""
  | (k, v) :: q' => if String.eqb k key then v else Get key q'
  end.

Section Handler.

(** [fetchActivityData(os.Args)] talks to the Fitbit API and to the
    console; here it is the function of the package-level variables that
    gives the events it produces.  The server is shut down only from inside
    it, at the end of [injectActivityTcx]. *)
Variable fetchActivityData : Globals -> list Event.

(** [handleTokenReceived]: the new package-level variables and the events,
    in order. *)
Definition handleTokenReceived (req : Request) (g : Globals)
  : Globals * list Event :=
  let g1 := set_token (Get "token" (Query req)) g in
  let g2 := set_stateRedir (Get "state" (Query req)) g1 in
  if negb (String.eqb (token g2) "") then
    let out := [ Println ("Access Token: " ++ token g2);
                 ResponseWrite "Token received and printed to the server console." ] in
    (* strings.Compare(stateAuth, stateRedir) == 0 *)
    if String.eqb (stateAuth g2) (stateRedir g2) then
      (g2, (out ++ [ResponseWrite "State matches with the one sent in auth URL."]
                ++ fetchActivityData g2)%list)
    else
      (g2, (out ++ [ResponseWrite "The redirect request not originated from this app."])%list)
  else
    (g2, [ResponseWrite "No token received."]).

End Handler.


(** ** The timeline transformer *)

Section Transformer.

(** [strconv.FormatFloat(_, 'f', -1, 64)], the shortest decimal text that
    reads back as the same float, is taken as given. *)
Variable FormatFloat : float64 -> string.

Definition activityPath : list string :=
  ["TrainingCenterDatabase"; "Activities"; "Activity"].

(** an element that holds [text], made by [NewElement] and [SetText], or
    by [CreateElement(tag).SetText(text)] *)
Definition textElement (tag text : string) : Element :=
  SetText text (NewElement tag).

(** The [Lap] element of the Swim branch, from [root.CreateElement("Lap")]
    to the last [AddChild].  The errors of both [convertTimestamp] calls are
    dropped ([tss, _ :=], [tse, _ :=]): beside an error the string is
    empty. *)
Definition newLap (idElement : string) (totalTime : Z) (distMeters calories : string)
  : Element :=
  let lapElement := NewElement "Lap" in
  let tss := value_of (convertTimestamp idElement 0) in
  let lapElement := CreateAttr "StartTime" tss lapElement in
  let totalTimeSecondsElement :=
    textElement "TotalTimeSeconds" (FormatFloat (Seconds totalTime)) in
  let lapElement := AddChild (TElement totalTimeSecondsElement) lapElement in
  let lapElement := AddChild (TElement (textElement "DistanceMeters" distMeters)) lapElement in
  let lapElement := AddChild (TElement (textElement "Calories" calories)) lapElement in
  let lapElement := AddChild (TElement (textElement "Intensity" "Active")) lapElement in
  let lapElement := AddChild (TElement (textElement "TriggerMethod" "Manual")) lapElement in
  (* Start point *)
  let timeElementStart := textElement "Time" tss in
  let distMetElementStart := textElement "DistanceMeters" "0" in
  let trackPtElementStart :=
    AddChild (TElement distMetElementStart)
      (AddChild (TElement timeElementStart) (NewElement "Trackpoint")) in
  (* End point *)
  let tse := value_of (convertTimestamp idElement totalTime) in
  let timeElementEnd := textElement "Time" tse in
  let distMetElementEnd := textElement "DistanceMeters" distMeters in
  let trackPtElementEnd :=
    AddChild (TElement distMetElementEnd)
      (AddChild (TElement timeElementEnd) (NewElement "Trackpoint")) in
  let trackElement :=
    AddChild (TElement trackPtElementEnd)
      (AddChild (TElement trackPtElementStart) (NewElement "Track")) in
  AddChild (TElement trackElement) lapElement.

(** The edits of the Swim branch on [root], the [Activity] element.  The
    [Lap] element is appended to [root] when it is created and filled in
    afterwards through its pointer; the tree at the end is the one built
    here. *)
Definition swim (actName : string) (totalTime : Z) (distMeters calories : string)
  (root : Element) : option Element :=
  root <- SelectAttr_set_Value "Sport" actName root ;;
  idEl <- SelectElement "Id" root ;;
  let idElement := Text idEl in
  let nameElement := textElement "Name" "Fitbit" in
  root <- edit_child "Creator" (fun creatorElement =>
            Some (AddChild (TElement nameElement) creatorElement)) root ;;
  Some (AddChild (TElement (newLap idElement totalTime distMeters calories)) root).

(** the edit of the Treadmill and Weights branch on the [Creator] element *)
Definition deviceName (root : Element) : option Element :=
  Some (AddChild (TElement (textElement "Name" "Fitbit")) root).

(** [injectActivityTcx]: the edited document and the events that follow.
    [Indent(2)] and [WriteToString] lay the tree out as text and touch
    white space only; the events carry the tree.  [None] is a panic on a
    nil pointer: an element or attribute the code selects is missing. *)
Definition injectActivityTcx (fName : string) (xmlDoc : Element)
  (actName : string) (totalTime : Z) (distMeters calories : string)
  : option (Element * list Event) :=
  xmlDoc <- (if String.eqb actName "Swim" then
               edit_path activityPath (swim actName totalTime distMeters calories) xmlDoc
             else Some xmlDoc) ;;
  xmlDoc <- (if String.eqb actName "Treadmill" || String.eqb actName "Weights" then
               edit_path (activityPath ++ ["Creator"])%list deviceName xmlDoc
             else Some xmlDoc) ;;
  Some (xmlDoc,
        [ PrintXML xmlDoc;
          SaveToFile (fName ++ ".tcx") xmlDoc;
          Println ("Data saved to " ++ fName ++ ".tcx");
          ServerShutdown;
          DoneSend ]).

(** The fields of [data.Activity] that [fetchActivityData] reads. *)
Record Activity := mkActivity {
  ActivityParentName : string;
  Calories : Z;
  Distance : float64;
  Duration : Z;
  LogID : Z;
  Name : string;
  StartDate : string;
  StartTime : string
}.

(** [time.Duration(chosenActivity.Duration/1000)*time.Second]: the
    division truncates, the product is taken in 64 bits *)
Definition totalTimeOf (chosenActivity : Activity) : Z :=
  wrap64 (Z.quot (Duration chosenActivity) 1000 * GoTime.Second).

(** The end of [fetchActivityData]: the chosen activity and its TCX
    document, fetched before, are handed to [injectActivityTcx]. *)
Definition injectChosenActivity (chosenActivity : Activity) (xml : Element)
  : option (Element * list Event) :=
  let fileNameToSave :=
    ActivityParentName chosenActivity ++ "-" ++ Itoa (LogID chosenActivity) in
  injectActivityTcx fileNameToSave xml (ActivityParentName chosenActivity)
    (totalTimeOf chosenActivity)
    (FormatFloat (fmul (Distance chosenActivity) (float64_of_int 1000)))
    (Itoa (Calories chosenActivity)).

End Transformer.

(** ** Auxiliary definitions for the statements *)

Definition hex_digit (d : Z) : ascii :=
  match String.get (Z.to_nat (d mod 16)) "0123456789abcdef" with
  | Some c => c
  | None => "0"%char
  end.

Fixpoint hex (bs : list Z) : string :=
  match bs with
  | [] => EmptyString
  | b :: bs' => String (hex_digit (b / 16)) (String (hex_digit b) (hex bs'))
  end.

(** the unreserved characters of RFC 3986: letters, digits, [-._~] *)
Definition unreserved (c : ascii) : bool :=
  let b := byte_of c in
  ((65 <=? b) && (b <=? 90)) || ((97 <=? b) && (b <=? 122))
  || ((48 <=? b) && (b <=? 57))
  || (b =? 45) || (b =? 46) || (b =? 95) || (b =? 126).

Definition mem (c : ascii) (s : string) : bool := existsb (Ascii.eqb c) (chars s).

(** ** net/url

    [url.QueryEscape] is what the specification calls URL-encoding; the test
    of [getAuthURL] reads both URLs back with [url.Parse] and [Query]. *)

Definition upper_hex_digit (d : Z) : ascii :=
  match String.get (Z.to_nat (d mod 16)) "0123456789ABCDEF" with
  | Some c => c
  | None => "0"%char
  end.

Definition escape_char (c : ascii) : string :=
  if unreserved c then String c ""
  else if Ascii.eqb c " " then "+"
  else String "%" (String (upper_hex_digit (byte_of c / 16))
                     (String (upper_hex_digit (byte_of c)) "")).

Fixpoint QueryEscape (s : string) : string :=
  match s with
  | EmptyString => ""
  | String c s' => escape_char c ++ QueryEscape s'
  end.

Definition unhex (c : ascii) : option Z :=
  let b := byte_of c in
  if (48 <=? b) && (b <=? 57) then Some (b - 48)
  else if (97 <=? b) && (b <=? 102) then Some (b - 97 + 10)
  else if (65 <=? b) && (b <=? 70) then Some (b - 65 + 10)
  else None.

Fixpoint QueryUnescape (s : string) : option string :=
  match s with
  | EmptyString => Some ""
  | String "%" (String h1 (String h2 rest)) =>
      a <- unhex h1 ;; b <- unhex h2 ;; r <- QueryUnescape rest ;;
      Some (String (chr (a * 16 + b)) r)
  | String "%" _ => None
  | String "+" rest => r <- QueryUnescape rest ;; Some (String " " r)
  | String c rest => r <- QueryUnescape rest ;; Some (String c r)
  end.

(** the pieces of [s] between occurrences of [sep] *)
Fixpoint split (sep : ascii) (s : string) : list string :=
  match s with
  | EmptyString => [""]
  | String c s' =>
      if Ascii.eqb c sep then "" :: split sep s'
      else match split sep s' with
           | h :: t => String c h :: t
           | [] => [String c ""]
           end
  end.

(** [strings.Cut(s, sep)]: the text before and after the first [sep] *)
Fixpoint cut (sep : ascii) (s : string) : string * string :=
  match s with
  | EmptyString => ("", "")
  | String c s' =>
      if Ascii.eqb c sep then ("", s')
      else let '(a, b) := cut sep s' in (String c a, b)
  end.

(** one [key=value] piece of a query; a piece that does not decode, or
    holds a semicolon, is dropped *)
Definition parse_pair (piece : string) : list (string * string) :=
  if mem ";" piece then []
  else if String.eqb piece "" then []
  else
    let '(key, value) := cut "=" piece in
    match QueryUnescape key, QueryUnescape value with
    | Some k, Some v => [(k, v)]
    | _, _ => []
    end.

(** [url.ParseQuery], the pairs in order of appearance *)
Definition ParseQuery (query : string) : list (string * string) :=
  flat_map parse_pair (split "&" query).

(** [u.Query()] of the parsed [rawURL]: the query runs from the first [?]
    to the fragment *)
Definition URL_Query (rawURL : string) : list (string * string) :=
  ParseQuery (snd (cut "?" (fst (cut "#" rawURL)))).

(** The authorization URL as the specification words it: the client id and
    the redirect URL are URL-encoded. *)
Definition spec_authURL (challenge : string) (cfg : Config) (state : string) : string :=
  "https://www.fitbit.com/oauth2/authorize?response_type=token"
    ++ "&client_id=" ++ QueryEscape (ClientID cfg)
    ++ "&redirect_uri=" ++ QueryEscape (RedirectURL cfg)
    ++ "&scope=" ++ String.concat "+" (Scopes cfg)
    ++ "&code_challenge=" ++ challenge
    ++ "&code_challenge_method=S256"
    ++ "&state=" ++ state.

(** the configuration and the random source of the test of [getAuthURL] *)
Definition testConfig : Config :=
  mkConfig "test-client-id" "" "https://test.com/redirect"
    ["activity"; "heartrate"; "profile"].

Definition noGlobals : Globals := mkGlobals "" "" "" "" "".

Definition someDraws (n : nat) : Reader := map (fun i => Ok (Z.of_nat (7 * i))) (seq 0 n).

(** the characters of the state alphabet: letters and digits *)
Definition alphanumeric (c : ascii) : bool :=
  let b := byte_of c in
  ((65 <=? b) && (b <=? 90)) || ((97 <=? b) && (b <=? 122))
  || ((48 <=? b) && (b <=? 57)).

(** the expected URL of the first case of the test of [getAuthURL] *)
Definition testExpectedResult : string :=
  "https://www.fitbit.com/oauth2/authorize?response_type=token"
    ++ "&client_id=test-client-id"
    ++ "&redirect_uri=https%3A%2F%2Ftest.com%2Fredirect"
    ++ "&scope=activity+heartrate+profile"
    ++ "&code_challenge=testCodeChallenge"
    ++ "&code_challenge_method=S256"
    ++ "&state=".

Definition testKeys : list string :=
  ["response_type"; "client_id"; "redirect_uri"; "scope"; "code_challenge";
   "code_challenge_method"].

(** a session that waits for the redirect with state [S], and one that has
    a token from an earlier request *)
Definition waitingGlobals : Globals := mkGlobals "verifier" "challenge" "S" "" "".
Definition tokenGlobals : Globals := mkGlobals "verifier" "challenge" "S" "S" "abc".

Definition request (tok st : string) : Request :=
  mkRequest [("token", tok); ("state", st)].

Definition noFetch : Globals -> list Event := fun _ => [].

(** ** The forms of a timestamp *)

Definition is_char (c expected : ascii) : bool := Ascii.eqb c expected.

Fixpoint skip_digits (s : string) : string :=
  match s with
  | String c s' => if GoTime.isDigitC c then skip_digits s' else s
  | EmptyString => s
  end.

(** [Z], or a sign and [hh:mm], and nothing after it *)
Definition offset_form (s : string) : bool :=
  match s with
  | String z EmptyString => is_char z "Z"
  | String sign (String h1 (String h2 (String colon (String m1 (String m2 EmptyString))))) =>
      (is_char sign "+" || is_char sign "-")
      && GoTime.isDigitC h1 && GoTime.isDigitC h2 && is_char colon ":"
      && GoTime.isDigitC m1 && GoTime.isDigitC m2
  | _ => false
  end.

(** [:mm:ss], then an optional fraction after one of the given
    separators, then the offset *)
Definition minutes_form (separators : string) (s : string) : bool :=
  match s with
  | String c1 (String m1 (String m2 (String c2 (String s1 (String s2 rest))))) =>
      is_char c1 ":" && GoTime.isDigitC m1 && GoTime.isDigitC m2
      && is_char c2 ":" && GoTime.isDigitC s1 && GoTime.isDigitC s2
      && match rest with
         | String sep (String d rest') =>
             if mem sep separators && GoTime.isDigitC d
             then offset_form (skip_digits rest')
             else offset_form rest
         | _ => offset_form rest
         end
  | _ => false
  end.

(** [YYYY-MM-DDT] and the rest *)
Definition date_form (s : string) : option string :=
  match s with
  | String y1 (String y2 (String y3 (String y4 (String c1 (String m1 (String m2
      (String c2 (String d1 (String d2 (String t rest)))))))))) =>
      if GoTime.isDigitC y1 && GoTime.isDigitC y2 && GoTime.isDigitC y3
         && GoTime.isDigitC y4 && is_char c1 "-"
         && GoTime.isDigitC m1 && GoTime.isDigitC m2 && is_char c2 "-"
         && GoTime.isDigitC d1 && GoTime.isDigitC d2 && is_char t "T"
      then Some rest else None
  | _ => None
  end.

(** The form of an RFC 3339 [date-time] (section 5.6), written with
    capital [T] and [Z]: [YYYY-MM-DDThh:mm:ss], an optional fraction after a
    period, and [Z] or a signed [hh:mm]. *)
Definition rfc3339_form (s : string) : bool :=
  match date_form s with
  | Some (String h1 (String h2 rest)) =>
      GoTime.isDigitC h1 && GoTime.isDigitC h2 && minutes_form "." rest
  | _ => false
  end.

(** The form that [time.Parse] reads under the RFC 3339 layout: as above,
    but the hour may have one digit and the fraction may follow a comma. *)
Definition accepted_form (s : string) : bool :=
  match date_form s with
  | Some (String h1 rest) =>
      GoTime.isDigitC h1
      && match rest with
         | String h2 rest' =>
             if GoTime.isDigitC h2 then minutes_form ".," rest'
             else minutes_form ".," rest
         | EmptyString => false
         end
  | _ => false
  end.

(** [s[n:]] *)
Fixpoint drop (n : nat) (s : string) : string :=
  match n, s with
  | O, _ => s
  | S n', String _ s' => drop n' s'
  | S _, EmptyString => ""
  end.

(** the number of elements with tag [tag] under a list of tokens *)
Fixpoint count_tokens (tag : string) (ts : list Token) : nat :=
  match ts with
  | [] => 0
  | TElement c :: ts' => count_tag tag c + count_tokens tag ts'
  | _ :: ts' => count_tokens tag ts'
  end.

(** an attribute with the key is present: [e.SelectAttr(key)] is not nil *)
Definition has_attr (key : string) (e : Element) : bool :=
  let '(space, skey) := spaceDecompose key in
  existsb (fun a => spaceMatch space (ASpace a) && String.eqb skey (Key a)) (Attrs e).

(** the text of the first child element with the tag, if there is one *)
Definition child_text (tag : string) (e : Element) : option string :=
  option_map Text (SelectElement tag e).

(** the integer a whole float stands for *)
Definition integer_of (x : float64) : Z :=
  match x with
  | S754_finite s m e =>
      cond_Zopp s (if e <? 0 then Zpos m / 2 ^ (- e) else Zpos m * 2 ^ e)
  | _ => 0
  end.

(** A stand-in for [strconv.FormatFloat(_, 'f', -1, 64)] in the examples:
    a whole float below [2 ^ 53] in magnitude is printed as its integer, as
    [FormatFloat] prints it; other floats are not covered (they give the
    empty string). *)
Definition formatWhole (x : float64) : string :=
  if whole x && (Z.abs (integer_of x) <? 2 ^ 53) then Itoa (integer_of x) else "".

(** a document as the Fitbit API delivers it for an activity without
    location data, with [idText] in the [Id] element *)
Definition tcxDocument (sport idText : string) : Element :=
  mkElement "" "" [] [
    TProcInst "xml" "version='1.0' encoding='UTF-8' standalone='yes'";
    TCharData (String (chr 10) "") true;
    TElement (mkElement "" "TrainingCenterDatabase"
      [mkAttr "" "xmlns" "http://www.garmin.com/xmlschemas/TrainingCenterDatabase/v2"] [
      TElement (mkElement "" "Activities" [] [
        TElement (mkElement "" "Activity" [mkAttr "" "Sport" sport] [
          TElement (mkElement "" "Id" [] [TCharData idText false]);
          TElement (mkElement "" "Creator"
            [mkAttr "xsi" "type" "Device_t";
             mkAttr "xmlns" "xsi" "http://www.w3.org/2001/XMLSchema-instance"] [
            TElement (mkElement "" "UnitId" [] [TCharData "0" false]);
            TElement (mkElement "" "ProductID" [] [TCharData "0" false])])])])])].

(** the characters of a timestamp without a fraction of a second: digits,
    [-], [T], [:] and [Z] *)
Definition timestamp_char (c : ascii) : bool :=
  GoTime.isDigitC c || mem c "-T:Z".

(** a Swim activity of the given duration in milliseconds *)
Definition swimActivity (duration : Z) : Activity :=
  mkActivity "Swim" 80 (S754_finite false 1 0) duration 7 "Swim" "2024-01-01" "00:00".

(** * Further definitions *)

(** ** Requests served one after another

    The listener hands each request to [/token-received] to
    [handleTokenReceived]; here the requests are served in turn, each on the
    package-level variables the one before has left. *)
Fixpoint serveTokenRequests (fetchActivityData : Globals -> list Event)
  (reqs : list Request) (g : Globals) : Globals * list Event :=
  match reqs with
  | [] => (g, [])
  | req :: reqs' =>
      let '(g1, events1) := handleTokenReceived fetchActivityData req g in
      let '(g2, events2) := serveTokenRequests fetchActivityData reqs' g1 in
      (g2, (events1 ++ events2)%list)
  end.

(** a fetch that is seen in the events *)
Definition markedFetch : Globals -> list Event :=
  fun g => [Println ("fetch with " ++ token g)].

(** ** What the Swim branch adds

    The tags of the elements the Swim branch creates, in document order:
    the device name, the lap with its five fields, the track and its two
    points. *)
Definition swimTags : list string :=
  [ "Name"; "Lap"; "TotalTimeSeconds"; "DistanceMeters"; "Calories"; "Intensity";
    "TriggerMethod"; "Track"; "Trackpoint"; "Time"; "DistanceMeters";
    "Trackpoint"; "Time"; "DistanceMeters" ].

(** how often [tag] occurs in a list of tags *)
Fixpoint occurrences (tag : string) (tags : list string) : nat :=
  match tags with
  | [] => 0
  | t :: tags' => ((if String.eqb t tag then 1 else 0) + occurrences tag tags')%nat
  end.

(** ** Checks for the timestamp round trip *)

(** [f] holds on the [len] integers from [lo] on; the range is halved
    [fuel] times at most *)
Fixpoint all_range (fuel : nat) (lo len : Z) (f : Z -> bool) : bool :=
  match fuel with
  | O => (len <=? 0) || ((len =? 1) && f lo)
  | S fuel' =>
      if len <=? 1 then (len <=? 0) || f lo
      else all_range fuel' lo (len / 2) f
           && all_range fuel' (lo + len / 2) (len - len / 2) f
  end.

(** [appendInt n 2] is two digits that read as [n] *)
Definition two_digits (n : Z) : bool :=
  match GoTime.appendInt n 2 with
  | String c0 (String c1 EmptyString) =>
      GoTime.isDigitC c0 && GoTime.isDigitC c1
      && (GoTime.digit c0 * 10 + GoTime.digit c1 =? n)
  | _ => false
  end.

(** [appendInt n 4] is four digits that read as [n] *)
Definition four_digits (n : Z) : bool :=
  match GoTime.appendInt n 4 with
  | String c0 (String c1 (String c2 (String c3 EmptyString))) =>
      GoTime.isDigitC c0 && GoTime.isDigitC c1 && GoTime.isDigitC c2
      && GoTime.isDigitC c3
      && (((GoTime.digit c0 * 10 + GoTime.digit c1) * 10 + GoTime.digit c2) * 10
          + GoTime.digit c3 =? n)
  | _ => false
  end.

(** the first and the last second of the years 0000 to 9999 *)
Definition minUnix : Z := -62167219200.
Definition maxUnix : Z := 253402300799.

(** the seconds since the epoch of the instant a timestamp denotes *)
Definition instant (timeStamp : string) : option Z :=
  match GoTime.Parse timeStamp with
  | inl t => Some (GoTime.unixSec t)
  | inr _ => None
  end.

(** the texts of the [Time] elements of the track points of a lap, in
    document order *)
Definition trackTimes (lap : Element) : list (option string) :=
  match SelectElement "Track" lap with
  | Some track => map (child_text "Time") (SelectElements "Trackpoint" track)
  | None => []
  end.
(** * Properties *)

(** ** Strings *)

Lemma length_append (a b : string) :
  String.length (a ++ b) = (String.length a + String.length b)%nat.
Proof. induction a as [|c a IH]; simpl; [reflexivity | now rewrite IH]. Qed.

Lemma append_empty_r (a : string) : a ++ "" = a.
Proof. induction a as [|c a IH]; simpl; [reflexivity | now rewrite IH]. Qed.

Lemma append_assoc (a b c : string) : (a ++ b) ++ c = a ++ (b ++ c).
Proof. induction a as [|x a IH]; simpl; [reflexivity | now rewrite IH]. Qed.

Lemma get_append_last (a : string) (c : ascii) :
  String.get (String.length a) (a ++ String c "") = Some c.
Proof. induction a as [|x a IH]; simpl; [reflexivity | exact IH]. Qed.

Lemma substring_append_prefix (a b : string) :
  substring 0 (String.length a) (a ++ b) = a.
Proof.
  induction a as [|x a IH]; simpl.
  - destruct b; reflexivity.
  - now rewrite IH.
Qed.

Lemma chars_append (a b : string) : chars (a ++ b) = (chars a ++ chars b)%list.
Proof. induction a as [|x a IH]; simpl; [reflexivity | now rewrite IH]. Qed.

Lemma length_chars (a : string) : List.length (chars a) = String.length a.
Proof. induction a as [|x a IH]; simpl; [reflexivity | now rewrite IH]. Qed.

Lemma get_in_chars (s : string) (n : nat) (c : ascii) :
  String.get n s = Some c -> In c (chars s).
Proof.
  revert n; induction s as [|x s IH]; intros n H; simpl in *.
  - discriminate.
  - destruct n as [|n].
    + injection H as ->. now left.
    + right. eapply IH; eassumption.
Qed.

Lemma get_in_range (s : string) (n : nat) :
  (n < String.length s)%nat -> exists c, String.get n s = Some c.
Proof.
  revert n; induction s as [|x s IH]; intros n H; simpl in *.
  - lia.
  - destruct n as [|n]; [now exists x | apply IH; lia].
Qed.

Lemma char_at_in_range (s : string) (i : Z) :
  0 <= i < len s -> exists c, char_at s i = Some c /\ In c (chars s).
Proof.
  intros [H0 H1]. unfold char_at.
  destruct (i <? 0) eqn:E; [apply Z.ltb_lt in E; lia |].
  destruct (get_in_range s (Z.to_nat i)) as [c Hc]; [unfold len in H1; lia |].
  exists c; split; [exact Hc | eapply get_in_chars; eassumption].
Qed.

(** ** The challenge generator *)

Example sha256_constants :
  (hd 0 Sha256.K, last Sha256.K 0, List.length Sha256.K)
  = (1116352408, 3329325298, 64%nat)
  /\ (hd 0 Sha256.H0, last Sha256.H0 0, List.length Sha256.H0)
     = (1779033703, 1541459225, 8%nat).
Proof. vm_compute. split; reflexivity. Qed.

(** The digest function agrees with the published test vectors. *)
Example sha256_abc :
  hex (Sha256.Sum256 (bytes "abc"))
  = "ba7816bf8f01cfea414140de5dae2223b00361a396177a9cb410ff61f20015ad".
Proof. vm_compute. reflexivity. Qed.

Example sha256_empty :
  hex (Sha256.Sum256 (bytes ""))
  = "e3b0c44298fc1c149afbf4c8996fb92427ae41e4649b934ca495991b7852b855".
Proof. vm_compute. reflexivity. Qed.

Example sha256_two_blocks :
  hex (Sha256.Sum256
         (bytes "abcdbcdecdefdefgefghfghighijhijkijkljklmklmnlmnomnopnopq"))
  = "248d6a61d20638b8e5c026930c3e6039a33ce45964ff2167f6ecedd419db06c1".
Proof. vm_compute. reflexivity. Qed.

Example base64_rfc4648 :
  map (fun s => Base64.EncodeToString (bytes s)) ["f"; "fo"; "foo"; "foob"; "fooba"; "foobar"]
  = ["Zg"; "Zm8"; "Zm9v"; "Zm9vYg"; "Zm9vYmE"; "Zm9vYmFy"].
Proof. vm_compute. reflexivity. Qed.

(** C8. [generateCodeChallenge] is deterministic; on the empty verifier it
    fails with the empty-input error; on every other verifier it returns
    the base64url text, without padding, of the SHA-256 digest of the
    verifier's bytes; for ["testverifier"] that is the encoding of the
    digest of those twelve bytes. *)
Theorem generateCodeChallenge_spec :
  (forall v1 v2 : string, v1 = v2 -> generateCodeChallenge v1 = generateCodeChallenge v2)
  /\ generateCodeChallenge "" = Err "error: empty codeVerifier string"
  /\ (forall v : string, v <> "" -> generateCodeChallenge v = Ok (spec_challenge v))
  /\ generateCodeChallenge "testverifier"
       = Ok (Base64.EncodeToString (Sha256.Sum256 (bytes "testverifier")))
  /\ hex (Sha256.Sum256 (bytes "testverifier"))
       = "e5e71eeb2c94ca7f840770205352d723c9305829ad71c7587a0ce06d2e9286ae"
  /\ generateCodeChallenge "testverifier"
       = Ok "5ece6yyUyn-EB3AgU1LXI8kwWCmtccdYegzgbS6Shq4".
Proof.
  split; [intros v1 v2 ->; reflexivity |].
  split; [reflexivity |].
  split.
  - intros v Hv. unfold generateCodeChallenge, spec_challenge.
    destruct (String.eqb_spec v ""); [contradiction | reflexivity].
  - split; [vm_compute; reflexivity |].
    split; vm_compute; reflexivity.
Qed.

Lemma generateCodeChallenge_spec_witness :
  "testverifier" <> ""
  /\ generateCodeChallenge "testverifier" = Ok (spec_challenge "testverifier").
Proof.
  split; [discriminate |].
  apply (proj1 (proj2 (proj2 generateCodeChallenge_spec)) "testverifier").
  discriminate.
Defined.

(** ** The verifier generator *)

Lemma mem_In (c : ascii) (s : string) : mem c s = true <-> In c (chars s).
Proof.
  unfold mem. rewrite existsb_exists. split.
  - intros [x [Hx E]]. apply Ascii.eqb_eq in E. now subst.
  - intros H. exists c. split; [exact H | apply Ascii.eqb_refl].
Qed.

Lemma rfc3986Chars_unreserved (c : ascii) :
  In c (chars rfc3986Chars) <-> unreserved c = true.
Proof.
  rewrite <- mem_In.
  destruct c as [[] [] [] [] [] [] [] []]; vm_compute; split; congruence.
Qed.

Lemma delivers_skipn (n : nat) (r : Reader) :
  delivers (S n) r -> delivers n (skipn 1 r).
Proof. destruct r as [|[v|e] r]; simpl; tauto. Qed.

Lemma verifier_loop_ok (n : nat) : forall r : Reader,
  delivers n r ->
  exists v, verifier_loop n r = (Ok v, skipn n r)
            /\ String.length v = n
            /\ Forall (fun c => In c (chars rfc3986Chars)) (chars v).
Proof.
  induction n as [|n IH]; intros r H.
  - exists ""; simpl; repeat split; constructor.
  - destruct r as [|[x|e] r]; simpl in H; try contradiction.
    destruct (IH r H) as [v [E [Hl Hc]]].
    destruct (char_at_in_range rfc3986Chars (x mod len rfc3986Chars)) as [c [Ec Ic]].
    { apply Z.mod_pos_bound. reflexivity. }
    exists (String c v). cbn [verifier_loop rand_Int]. rewrite Ec, E. simpl.
    repeat split; [now rewrite Hl | now constructor].
Qed.

Lemma verifier_loop_err (n : nat) : forall (r : Reader) (k : nat) (e : error),
  (k < n)%nat -> delivers k r -> nth_error r k = Some (Err e) ->
  fst (verifier_loop n r) = Err e.
Proof.
  induction n as [|n IH]; intros r k e Hk Hd Hn; [lia |].
  destruct r as [|[x|e'] r]; destruct k as [|k]; simpl in Hd, Hn; try discriminate;
    try contradiction.
  - cbn [verifier_loop rand_Int].
    destruct (char_at_in_range rfc3986Chars (x mod len rfc3986Chars)) as [c [Ec Ic]].
    { apply Z.mod_pos_bound. reflexivity. }
    rewrite Ec. specialize (IH r k e ltac:(lia) Hd Hn).
    destruct (verifier_loop n r) as [[v|e1] r1]; simpl in *; congruence.
  - injection Hn as ->. reflexivity.
Qed.

(** C7. For a length [L] in [[43,128]] and a random source that delivers
    [L] draws, [generateCodeVerifier] returns a string of exactly [L]
    characters, each one of the 66 unreserved characters, and has consumed
    [L] draws; for [L] outside the range it fails with the invalid-length
    error and consumes nothing. *)
Theorem generateCodeVerifier_spec (L : Z) (r : Reader) :
  (43 <= L <= 128 -> delivers (Z.to_nat L) r ->
   exists v,
     generateCodeVerifier L r = (Ok v, skipn (Z.to_nat L) r)
     /\ len v = L
     /\ Forall (fun c => unreserved c = true) (chars v))
  /\ (L < 43 \/ 128 < L ->
      generateCodeVerifier L r
      = (Err "code verifier length must be between 43 and 128 characters", r))
  /\ len rfc3986Chars = 66
  /\ (forall c, In c (chars rfc3986Chars) <-> unreserved c = true).
Proof.
  split; [| split; [| split; [reflexivity | exact rfc3986Chars_unreserved]]].
  - intros HL Hd. unfold generateCodeVerifier.
    destruct (L <? 43) eqn:E1; [apply Z.ltb_lt in E1; lia |].
    destruct (L >? 128) eqn:E2; [apply Z.gtb_lt in E2; lia |]. simpl.
    destruct (verifier_loop_ok _ r Hd) as [v [E [Hl Hc]]].
    exists v. split; [exact E |]. split; [unfold len; lia |].
    eapply Forall_impl; [| exact Hc]. intros c. apply rfc3986Chars_unreserved.
  - intros HL. unfold generateCodeVerifier.
    destruct HL as [HL | HL].
    + apply Z.ltb_lt in HL. now rewrite HL.
    + apply Z.gtb_lt in HL. rewrite HL. now rewrite orb_true_r.
Qed.

Lemma generateCodeVerifier_spec_witness :
  (exists v,
     generateCodeVerifier 43 (someDraws 43) = (Ok v, skipn 43 (someDraws 43))
     /\ len v = 43
     /\ Forall (fun c => unreserved c = true) (chars v))
  /\ generateCodeVerifier 42 (someDraws 43)
     = (Err "code verifier length must be between 43 and 128 characters", someDraws 43).
Proof.
  split.
  - apply (proj1 (generateCodeVerifier_spec 43 (someDraws 43))); [lia |].
    vm_compute. exact I.
  - apply (proj1 (proj2 (generateCodeVerifier_spec 42 (someDraws 43)))). left. lia.
Defined.

(** ** The authorization URL builder *)

Lemma fold_scopes (scopes : list string) : forall acc : string,
  fold_left (fun acc s => acc ++ s ++ "+") scopes acc
  = acc ++ fold_right (fun s rest => s ++ "+" ++ rest) "" scopes.
Proof.
  induction scopes as [|s scopes IH]; intros acc; simpl.
  - now rewrite append_empty_r.
  - rewrite IH. now rewrite !append_assoc.
Qed.

Lemma joined_scopes (s : string) (scopes : list string) :
  fold_right (fun s rest => s ++ "+" ++ rest) "" (s :: scopes)
  = String.concat "+" (s :: scopes) ++ "+".
Proof.
  revert s; induction scopes as [|s' scopes IH]; intros s.
  - reflexivity.
  - change (fold_right _ "" (s :: s' :: scopes))
      with (s ++ "+" ++ fold_right (fun s rest => s ++ "+" ++ rest) "" (s' :: scopes)).
    rewrite IH.
    change (String.concat "+" (s :: s' :: scopes))
      with (s ++ "+" ++ String.concat "+" (s' :: scopes)).
    now rewrite !append_assoc.
Qed.

(** [scopeStringBuilder] joins the scopes with [+]. *)
Lemma scopeStringBuilder_concat (scopes : list string) :
  scopeStringBuilder scopes = String.concat "+" scopes.
Proof.
  destruct scopes as [|s scopes]; [reflexivity |].
  unfold scopeStringBuilder. rewrite fold_scopes, joined_scopes.
  set (j := String.concat "+" (s :: scopes)).
  change ("" ++ j ++ "+") with (j ++ "+").
  assert (L : len (j ++ "+") - 1 = Z.of_nat (String.length j)).
  { unfold len. rewrite length_append. simpl. lia. }
  rewrite L. unfold char_at.
  destruct (Z.of_nat (String.length j) <? 0) eqn:E; [apply Z.ltb_lt in E; lia |].
  rewrite Nat2Z.id, get_append_last.
  replace (Z.of_nat (String.length j) >=? 0) with true
    by (symmetry; apply Z.geb_le; lia).
  simpl. apply substring_append_prefix.
Qed.

Lemma charset_alphanumeric (c : ascii) :
  In c (chars charset) <-> alphanumeric c = true.
Proof.
  rewrite <- mem_In.
  destruct c as [[] [] [] [] [] [] [] []]; vm_compute; split; congruence.
Qed.

Lemma state_loop_ok (n : nat) : forall r : Reader,
  delivers n r ->
  exists st, state_loop n r = Some (st, skipn n r)
             /\ String.length st = n
             /\ Forall (fun c => alphanumeric c = true) (chars st).
Proof.
  induction n as [|n IH]; intros r H.
  - exists ""; simpl; repeat split; constructor.
  - destruct r as [|[x|e] r]; simpl in H; try contradiction.
    destruct (IH r H) as [st [E [Hl Hc]]].
    destruct (char_at_in_range charset (x mod len charset)) as [c [Ec Ic]].
    { apply Z.mod_pos_bound. reflexivity. }
    exists (String c st). cbn [state_loop rand_Int]. rewrite Ec, E. simpl.
    repeat split; [now rewrite Hl |].
    constructor; [now apply charset_alphanumeric | exact Hc].
Qed.

Lemma generateRandomString_ok (g : Globals) (r : Reader) :
  delivers 32 r ->
  exists state,
    generateRandomString g r = Some (state, set_stateAuth state g, skipn 32 r)
    /\ String.length state = 32%nat
    /\ Forall (fun c => alphanumeric c = true) (chars state).
Proof.
  intros H. destruct (state_loop_ok 32 r H) as [st [E [Hl Hc]]].
  exists st. unfold generateRandomString. rewrite E. simpl. auto.
Qed.

Lemma split_append (sep : ascii) (a b : string) :
  split sep (a ++ String sep b) = (split sep a ++ split sep b)%list.
Proof.
  induction a as [|c a IH]; simpl.
  - now rewrite Ascii.eqb_refl.
  - destruct (Ascii.eqb c sep); [now rewrite IH |].
    rewrite IH. destruct (split sep a) as [|h t] eqn:E; [| reflexivity].
    destruct a as [|c' a']; simpl in E; [discriminate |].
    destruct (Ascii.eqb c' sep); [discriminate |].
    destruct (split sep a'); discriminate.
Qed.

Lemma ParseQuery_append (a b : string) :
  ParseQuery (a ++ String "&" b) = (ParseQuery a ++ ParseQuery b)%list.
Proof. unfold ParseQuery. now rewrite split_append, flat_map_app. Qed.

Lemma Get_app_bound (key : string) (q1 q2 : list (string * string)) :
  In key (map fst q1) -> Get key (q1 ++ q2) = Get key q1.
Proof.
  induction q1 as [|[k v] q1 IH]; simpl; [tauto |].
  intros [-> | H].
  - now rewrite String.eqb_refl.
  - destruct (String.eqb k key); [reflexivity | now apply IH].
Qed.

Lemma cut_absent (sep : ascii) (s : string) :
  Forall (fun c => Ascii.eqb c sep = false) (chars s) -> cut sep s = (s, "").
Proof.
  induction s as [|c s IH]; simpl; intros H; [reflexivity |].
  inversion H as [|? ? Hc Hs]; subst. rewrite Hc, (IH Hs). reflexivity.
Qed.

Lemma cut_append_absent (sep : ascii) (a b : string) :
  Forall (fun c => Ascii.eqb c sep = false) (chars a) ->
  cut sep (a ++ b) = (a ++ fst (cut sep b), snd (cut sep b)).
Proof.
  induction a as [|c a IH]; simpl; intros H.
  - now destruct (cut sep b).
  - inversion H as [|? ? Hc Hs]; subst. rewrite Hc, (IH Hs). reflexivity.
Qed.

Lemma alphanumeric_not (sep : ascii) (s : string) :
  alphanumeric sep = false ->
  Forall (fun c => alphanumeric c = true) (chars s) ->
  Forall (fun c => Ascii.eqb c sep = false) (chars s).
Proof.
  intros Hsep H. eapply Forall_impl; [| exact H].
  intros c Hc. simpl. destruct (Ascii.eqb_spec c sep); [congruence | reflexivity].
Qed.

(** The decoded query parameters of the URL built for the test case are
    those of the URL the test expects, whatever the state. *)
Lemma test_query (state : string) :
  Forall (fun c => alphanumeric c = true) (chars state) ->
  map (fun key =>
         Get key (URL_Query
           ("https://www.fitbit.com/oauth2/authorize?response_type=token&client_id=test-client-id&redirect_uri=https://test.com/redirect&scope=activity+heartrate+profile&code_challenge=testCodeChallenge&code_challenge_method=S256&state="
              ++ state))) testKeys
  = ["token"; "test-client-id"; "https://test.com/redirect";
     "activity heartrate profile"; "testCodeChallenge"; "S256"].
Proof.
  intros H. unfold URL_Query.
  rewrite cut_append_absent by (vm_compute; repeat constructor).
  rewrite (cut_absent "#" state) by (apply alphanumeric_not; [reflexivity | exact H]).
  cbn [fst snd].
  match goal with |- context [cut "?" ?u] =>
    change (cut "?" u)
      with ("https://www.fitbit.com/oauth2/authorize",
            "response_type=token&client_id=test-client-id&redirect_uri=https://test.com/redirect&scope=activity+heartrate+profile&code_challenge=testCodeChallenge&code_challenge_method=S256"
              ++ String "&" ("state=" ++ state))
  end.
  cbn [snd]. rewrite ParseQuery_append.
  unfold testKeys, map.
  rewrite !Get_app_bound by (vm_compute; tauto).
  vm_compute. reflexivity.
Qed.

(** C1, as amended. With a random source that delivers 32 draws,
    [getAuthURL] returns the fixed text with [response_type=token], then the
    client id and the redirect URL verbatim (they are not URL-encoded), the
    scopes joined with [+] with no trailing separator (nothing for an empty
    list), the challenge, [code_challenge_method=S256] and the state that
    [generateRandomString] has just drawn and stored in [stateAuth]: 32
    letters and digits.  For the test configuration the text is the one
    displayed, and its decoded query parameters other than the state are
    those of the URL the test expects. *)
Theorem getAuthURL_spec :
  (forall (challenge : string) (cfg : Config) (g : Globals) (r : Reader),
     delivers 32 r ->
     exists state,
       generateRandomString g r = Some (state, set_stateAuth state g, skipn 32 r)
       /\ String.length state = 32%nat
       /\ Forall (fun c => alphanumeric c = true) (chars state)
       /\ getAuthURL challenge cfg g r
          = Some ("https://www.fitbit.com/oauth2/authorize?response_type=token"
                    ++ "&client_id=" ++ ClientID cfg
                    ++ "&redirect_uri=" ++ RedirectURL cfg
                    ++ "&scope=" ++ String.concat "+" (Scopes cfg)
                    ++ "&code_challenge=" ++ challenge
                    ++ "&code_challenge_method=S256"
                    ++ "&state=" ++ state,
                  set_stateAuth state g, skipn 32 r))
  /\ scopeStringBuilder [] = ""
  /\ (forall (g : Globals) (r : Reader),
        delivers 32 r ->
        exists state url,
          getAuthURL "testCodeChallenge" testConfig g r
          = Some (url, set_stateAuth state g, skipn 32 r)
          /\ url = "https://www.fitbit.com/oauth2/authorize?response_type=token&client_id=test-client-id&redirect_uri=https://test.com/redirect&scope=activity+heartrate+profile&code_challenge=testCodeChallenge&code_challenge_method=S256&state="
                     ++ state
          /\ map (fun key => Get key (URL_Query url)) testKeys
             = ["token"; "test-client-id"; "https://test.com/redirect";
                "activity heartrate profile"; "testCodeChallenge"; "S256"]
          /\ map (fun key => Get key (URL_Query url)) testKeys
             = map (fun key => Get key (URL_Query testExpectedResult)) testKeys).
Proof.
  split; [| split; [reflexivity |]].
  - intros challenge cfg g r H.
    destruct (generateRandomString_ok g r H) as [state [E [Hl Hc]]].
    exists state. repeat (split; [assumption |]).
    unfold getAuthURL. rewrite E, scopeStringBuilder_concat. cbn [append].
    reflexivity.
  - intros g r H.
    destruct (generateRandomString_ok g r H) as [state [E [Hl Hc]]].
    exists state. eexists. split; [| split; [reflexivity |]].
    + unfold getAuthURL. rewrite E. reflexivity.
    + rewrite (test_query state Hc). split; [reflexivity |].
      vm_compute. reflexivity.
Qed.

Lemma getAuthURL_spec_witness :
  exists state,
    generateRandomString noGlobals (someDraws 32)
    = Some (state, set_stateAuth state noGlobals, skipn 32 (someDraws 32))
    /\ String.length state = 32%nat
    /\ Forall (fun c => alphanumeric c = true) (chars state)
    /\ getAuthURL "testCodeChallenge" testConfig noGlobals (someDraws 32)
       = Some ("https://www.fitbit.com/oauth2/authorize?response_type=token"
                 ++ "&client_id=" ++ ClientID testConfig
                 ++ "&redirect_uri=" ++ RedirectURL testConfig
                 ++ "&scope=" ++ String.concat "+" (Scopes testConfig)
                 ++ "&code_challenge=" ++ "testCodeChallenge"
                 ++ "&code_challenge_method=S256"
                 ++ "&state=" ++ state,
               set_stateAuth state noGlobals, skipn 32 (someDraws 32)).
Proof.
  apply (proj1 getAuthURL_spec "testCodeChallenge" testConfig noGlobals (someDraws 32)).
  vm_compute. exact I.
Defined.

(** C1 as stated fails: the client id and the redirect URL are pasted into
    the URL as they are.  For the test configuration the URL differs from
    the one with URL-encoded values, and a client id [a&b] is read back from
    the URL as [a]. *)
Lemma getAuthURL_not_url_encoded :
  (exists url g' r',
     getAuthURL "testCodeChallenge" testConfig noGlobals (someDraws 32)
     = Some (url, g', r')
     /\ url <> spec_authURL "testCodeChallenge" testConfig (stateAuth g'))
  /\ (exists url g' r',
        getAuthURL "testCodeChallenge" (mkConfig "a&b" "" "https://test.com/redirect" ["activity"])
          noGlobals (someDraws 32)
        = Some (url, g', r')
        /\ Get "client_id" (URL_Query url) = "a"
        /\ Get "client_id"
             (URL_Query (spec_authURL "testCodeChallenge"
                           (mkConfig "a&b" "" "https://test.com/redirect" ["activity"])
                           (stateAuth g'))) = "a&b").
Proof.
  split.
  - do 3 eexists. split; [vm_compute; reflexivity |].
    vm_compute. discriminate.
  - do 3 eexists. split; [vm_compute; reflexivity |].
    split; vm_compute; reflexivity.
Qed.

(** ** The token-reception handler *)

(** C2, as amended. For a request with a non-empty token the handler first
    stores the token and the received state.  If the received state equals
    the stored correlation state, it answers that the state matches and
    calls [fetchActivityData], which sees the stored token.  If it is any
    other value, it answers that the request did not originate from this
    app, fetches nothing and does not shut the listener down; the token of
    the request stays stored. *)
Theorem handleTokenReceived_token
  (fetchActivityData : Globals -> list Event) (req : Request) (g : Globals) :
  Get "token" (Query req) <> "" ->
  let g' := set_stateRedir (Get "state" (Query req))
              (set_token (Get "token" (Query req)) g) in
  token g' = Get "token" (Query req)
  /\ stateAuth g' = stateAuth g
  /\ (Get "state" (Query req) = stateAuth g ->
      handleTokenReceived fetchActivityData req g
      = (g', [ Println ("Access Token: " ++ Get "token" (Query req));
               ResponseWrite "Token received and printed to the server console.";
               ResponseWrite "State matches with the one sent in auth URL." ]
               ++ fetchActivityData g')%list)
  /\ (Get "state" (Query req) <> stateAuth g ->
      exists events,
        handleTokenReceived fetchActivityData req g = (g', events)
        /\ events
           = [ Println ("Access Token: " ++ Get "token" (Query req));
               ResponseWrite "Token received and printed to the server console.";
               ResponseWrite "The redirect request not originated from this app." ]
        /\ ~ In ServerShutdown events
        /\ ~ In DoneSend events).
Proof.
  intros Htok g'. split; [reflexivity |]. split; [reflexivity |].
  unfold handleTokenReceived. fold g'.
  replace (token g') with (Get "token" (Query req)) by reflexivity.
  destruct (String.eqb_spec (Get "token" (Query req)) "") as [E | _];
    [contradiction |].
  cbn [negb]. split.
  - intros Hst.
    destruct (String.eqb_spec (stateAuth g') (stateRedir g')) as [_ | N];
      [reflexivity |].
    exfalso. apply N. simpl. now rewrite Hst.
  - intros Hst.
    destruct (String.eqb_spec (stateAuth g') (stateRedir g')) as [E | _].
    + exfalso. apply Hst. simpl in E. now rewrite E.
    + eexists. split; [reflexivity |]. split; [reflexivity |].
      split; simpl; intros [H | [H | [H | []]]]; discriminate.
Qed.

Lemma handleTokenReceived_token_witness :
  handleTokenReceived noFetch (request "tok" "S") waitingGlobals
  = (mkGlobals "verifier" "challenge" "S" "S" "tok",
     [ Println "Access Token: tok";
       ResponseWrite "Token received and printed to the server console.";
       ResponseWrite "State matches with the one sent in auth URL." ]).
Proof.
  refine (proj1 (proj2 (proj2
            (handleTokenReceived_token noFetch (request "tok" "S") waitingGlobals _))) _).
  - discriminate.
  - reflexivity.
Defined.

(** C2 as stated fails: a request whose state differs from the stored one
    still has its token stored. *)
Lemma mismatch_stores_token :
  Get "token" (Query (request "tok" "X")) <> ""
  /\ Get "state" (Query (request "tok" "X")) <> stateAuth waitingGlobals
  /\ token waitingGlobals = ""
  /\ token (fst (handleTokenReceived noFetch (request "tok" "X") waitingGlobals)) = "tok".
Proof. repeat split; try discriminate; reflexivity. Qed.

(** C3, as amended. For a request whose token parameter is empty the
    handler answers "No token received." and does nothing else: no fetch,
    no shutdown.  The verifier, the challenge and the expected correlation
    state are unchanged; the stored token is overwritten with the empty
    string and the received state with the state of the request. *)
Theorem handleTokenReceived_no_token
  (fetchActivityData : Globals -> list Event) (req : Request) (g : Globals) :
  Get "token" (Query req) = "" ->
  exists g' events,
    handleTokenReceived fetchActivityData req g = (g', events)
    /\ events = [ResponseWrite "No token received."]
    /\ ~ In ServerShutdown events
    /\ ~ In DoneSend events
    /\ codeVerifier g' = codeVerifier g
    /\ codeChallenge g' = codeChallenge g
    /\ stateAuth g' = stateAuth g
    /\ token g' = ""
    /\ stateRedir g' = Get "state" (Query req).
Proof.
  intros Htok. unfold handleTokenReceived.
  replace (token (set_stateRedir (Get "state" (Query req))
                    (set_token (Get "token" (Query req)) g)))
    with (Get "token" (Query req)) by reflexivity.
  rewrite Htok. simpl.
  do 2 eexists. split; [reflexivity |]. split; [reflexivity |].
  repeat split; try reflexivity; simpl; intros [H | []]; discriminate.
Qed.

Lemma handleTokenReceived_no_token_witness :
  exists g' events,
    handleTokenReceived noFetch (request "" "S") waitingGlobals = (g', events)
    /\ events = [ResponseWrite "No token received."]
    /\ ~ In ServerShutdown events
    /\ ~ In DoneSend events
    /\ codeVerifier g' = codeVerifier waitingGlobals
    /\ codeChallenge g' = codeChallenge waitingGlobals
    /\ stateAuth g' = stateAuth waitingGlobals
    /\ token g' = ""
    /\ stateRedir g' = Get "state" (Query (request "" "S")).
Proof.
  apply (handleTokenReceived_no_token noFetch (request "" "S") waitingGlobals).
  reflexivity.
Defined.

(** C3 as stated fails: a request without a token erases a token stored
    before and replaces the received state. *)
Lemma no_token_changes_session :
  Get "token" (Query (request "" "X")) = ""
  /\ token tokenGlobals = "abc"
  /\ token (fst (handleTokenReceived noFetch (request "" "X") tokenGlobals)) = ""
  /\ stateRedir tokenGlobals = "S"
  /\ stateRedir (fst (handleTokenReceived noFetch (request "" "X") tokenGlobals)) = "X".
Proof. repeat split; reflexivity. Qed.

(** ** Timestamps *)

Import GoTime.

Lemma substring_drop (s : string) : forall n m : nat,
  (String.length s - n <= m)%nat -> substring n m s = drop n s.
Proof.
  induction s as [|c s IH]; intros [|n] m H; simpl in *.
  - destruct m; reflexivity.
  - reflexivity.
  - destruct m as [|m]; [lia |]. rewrite IH by lia. reflexivity.
  - apply IH. exact H.
Qed.

Lemma digit_not_sign (c : ascii) :
  isDigitC c = true -> Ascii.eqb c "-" = false /\ Ascii.eqb c "+" = false.
Proof.
  intros H. split.
  - destruct (Ascii.eqb_spec c "-"); [subst; discriminate | reflexivity].
  - destruct (Ascii.eqb_spec c "+"); [subst; discriminate | reflexivity].
Qed.

Lemma atoi_four (y1 y2 y3 y4 : ascii) (y : Z) :
  isDigitC y1 = true ->
  atoi (String y1 (String y2 (String y3 (String y4 "")))) = Some y ->
  isDigitC y2 = true /\ isDigitC y3 = true /\ isDigitC y4 = true.
Proof.
  intros H1 H. unfold atoi in H.
  destruct (digit_not_sign y1 H1) as [E1 E2]. rewrite E1, E2 in H.
  cbn [leadingInt] in H. rewrite H1 in H.
  destruct (isDigitC y2); [| discriminate].
  destruct (isDigitC y3); [| discriminate].
  destruct (isDigitC y4); [| discriminate]. auto.
Qed.

Lemma skip_inl (av : string) (p : ascii) (v r : string) :
  skip av p v = inl r -> v = String p r.
Proof.
  unfold skip. destruct v as [|c v]; [discriminate |].
  destruct (Ascii.eqb_spec c p); [| discriminate].
  intros H. injection H as <-. now subst.
Qed.

Lemma number_fixed_inl (av std : string) (rng : Z -> bool) (what v : string)
  (n : Z) (r : string) :
  number av std true rng what v = inl (n, r) ->
  exists c0 c1, v = String c0 (String c1 r)
                /\ isDigitC c0 = true /\ isDigitC c1 = true.
Proof.
  unfold number, getnum.
  destruct v as [|c0 [|c1 v]]; try discriminate.
  - destruct (isDigitC c0); discriminate.
  - destruct (isDigitC c0) eqn:E0; [| discriminate].
    destruct (isDigitC c1) eqn:E1; [| discriminate].
    destruct (rng _); [| discriminate].
    intros H. injection H as _ <-. now exists c0, c1.
Qed.

Lemma number_free_inl (av std : string) (rng : Z -> bool) (what v : string)
  (n : Z) (r : string) :
  number av std false rng what v = inl (n, r) ->
  exists c0, isDigitC c0 = true
    /\ ((exists c1, v = String c0 (String c1 r) /\ isDigitC c1 = true)
        \/ (v = String c0 r
            /\ match r with
               | String c1 _ => isDigitC c1 = false
               | EmptyString => True
               end)).
Proof.
  unfold number, getnum.
  destruct v as [|c0 [|c1 v]]; try discriminate.
  - destruct (isDigitC c0) eqn:E0; [| discriminate].
    destruct (rng _); [| discriminate].
    intros H. injection H as _ <-. exists c0. split; [exact E0 |]. now right.
  - destruct (isDigitC c0) eqn:E0; [| discriminate].
    destruct (isDigitC c1) eqn:E1.
    + destruct (rng _); [| discriminate].
      intros H. injection H as _ <-. exists c0. split; [exact E0 |].
      left. now exists c1.
    + destruct (rng _); [| discriminate].
      intros H. injection H as _ <-. exists c0. split; [exact E0 |].
      right. split; [reflexivity | exact E1].
Qed.

Lemma drop_digit_run (s : string) : drop (digit_run s) s = skip_digits s.
Proof.
  induction s as [|c s IH]; [reflexivity |].
  cbn [digit_run skip_digits]. destruct (isDigitC c); [exact IH | reflexivity].
Qed.

Lemma mem_separators (c : ascii) : mem c ".," = commaOrPeriod c.
Proof. unfold mem, commaOrPeriod. simpl. now rewrite orb_false_r. Qed.

Lemma fraction_inl (av v : string) (ns : Z) (r : string) :
  fraction av v = inl (ns, r) ->
  match v with
  | String c0 (String c1 tl) =>
      if commaOrPeriod c0 && isDigitC c1 then r = skip_digits tl else r = v
  | _ => r = v
  end.
Proof.
  unfold fraction. destruct v as [|c0 [|c1 tl]].
  - intros H. now injection H as _ <-.
  - intros H. now injection H as _ <-.
  - destruct (commaOrPeriod c0 && isDigitC c1) eqn:E.
    + destruct (parseNanoseconds _ _); [| discriminate].
      intros H. injection H as _ <-.
      rewrite !substring_drop by (cbn [String.length]; lia).
      cbn [drop digit_run]. apply andb_prop in E. destruct E as [_ E1].
      rewrite E1. cbn [drop]. rewrite ?substring_drop by lia. apply drop_digit_run.
    + intros H. now injection H as _ <-.
Qed.

Lemma zone_inl (av v : string) (z : Z) (r : string) :
  zone av v = inl (z, r) -> r = "" -> offset_form v = true.
Proof.
  unfold zone. destruct v as [|c0 v]; [discriminate |].
  destruct (Ascii.eqb c0 "Z") eqn:EZ.
  - intros H ->. injection H as _ ->. cbn. unfold is_char. now rewrite EZ.
  - destruct v as [|h1 [|h2 [|colon [|m1 [|m2 rest]]]]]; try discriminate.
    destruct (Ascii.eqb colon ":") eqn:EC; [| discriminate]. cbn [negb].
    unfold getnum.
    destruct (isDigitC h1) eqn:E1; [| discriminate].
    destruct (isDigitC h2) eqn:E2; [| discriminate].
    destruct (isDigitC m1) eqn:E3; [| discriminate].
    destruct (isDigitC m2) eqn:E4; [| discriminate].
    destruct (_ >? 60); [discriminate |].
    destruct (_ >? 24); [discriminate |].
    unfold offset_form, is_char. rewrite E1, E2, E3, E4, EC.
    destruct (Ascii.eqb c0 "+") eqn:EP.
    + intros H ->. injection H as _ ->. 
      destruct c0 as [[] [] [] [] [] [] [] []]; try discriminate; reflexivity.
    + destruct (Ascii.eqb c0 "-") eqn:EM; [| discriminate].
      intros H ->. injection H as _ ->.
      destruct c0 as [[] [] [] [] [] [] [] []]; try discriminate; reflexivity.
Qed.

Arguments GoTime.isDigitC : simpl never.
Arguments GoTime.commaOrPeriod : simpl never.
Arguments skip_digits : simpl never.
Arguments offset_form : simpl never.

Lemma minutes_accepted (av v0 : string) (t : Time)
  (K : Z -> Z -> Z -> string -> Time + ParseError) :
  (forall min sec nsec v, K min sec nsec v = inl t ->
     exists z, zone av v = inl (z, "")) ->
  (value <-- skip av ":" v0 ;;
   mi <-- number av "04" true (fun n => n <? 60) "minute" value ;;
   let '(min, value) := mi in
   value <-- skip av ":" value ;;
   se <-- number av "05" true (fun n => n <? 60) "second" value ;;
   let '(sec, value) := se in
   fr <-- fraction av value ;;
   let '(nsec, value) := fr in
   K min sec nsec value) = inl t ->
  minutes_form ".," v0 = true.
Proof.
  intros HK H.
  destruct (skip av ":" v0) as [v1|] eqn:S1; [| discriminate].
  apply skip_inl in S1; subst v0.
  destruct (number _ _ _ _ _ v1) as [[min v2]|] eqn:N1; [| discriminate].
  apply number_fixed_inl in N1. destruct N1 as (m1 & m2 & -> & Hm1 & Hm2).
  destruct (skip av ":" v2) as [v3|] eqn:S2; [| discriminate].
  apply skip_inl in S2; subst v2.
  destruct (number _ _ _ _ _ v3) as [[sec v4]|] eqn:N2; [| discriminate].
  apply number_fixed_inl in N2. destruct N2 as (s1 & s2 & -> & Hs1 & Hs2).
  destruct (fraction av v4) as [[nsec v5]|] eqn:F; [| discriminate].
  apply fraction_inl in F.
  destruct (HK _ _ _ _ H) as [z Hz].
  apply zone_inl in Hz; [| reflexivity].
  unfold minutes_form, is_char. simpl. rewrite Hm1, Hm2, Hs1, Hs2. simpl.
  destruct v4 as [|c0 [|c1 tl]]; try (now subst v5).
  rewrite mem_separators.
  destruct (commaOrPeriod c0 && isDigitC c1); now subst v5.
Qed.

Lemma Parse_accepted (s : string) (t : Time) :
  Parse s = inl t -> accepted_form s = true.
Proof.
  unfold Parse.
  destruct ((String.length s <? 4)%nat || negb (isDigit s 0)) eqn:E0; [discriminate |].
  destruct (atoi (substring 0 4 s)) as [year|] eqn:Ey; [| discriminate].
  destruct s as [|y1 [|y2 [|y3 [|y4 v0]]]]; try discriminate E0.
  unfold isDigit in E0. simpl in E0. apply negb_false_iff in E0.
  cbn [substring] in Ey.
  replace (substring 0 0 v0) with "" in Ey by (now destruct v0).
  destruct (atoi_four _ _ _ _ _ E0 Ey) as (Hy2 & Hy3 & Hy4).
  rewrite substring_drop by (cbn [String.length]; lia). cbn [drop].
  set (av := String y1 (String y2 (String y3 (String y4 v0)))).
  intros H.
  destruct (skip av "-" v0) as [v1|] eqn:S1; [| discriminate].
  apply skip_inl in S1; subst v0.
  destruct (number _ _ _ _ _ v1) as [[month v2]|] eqn:N1; [| discriminate].
  apply number_fixed_inl in N1. destruct N1 as (m1 & m2 & -> & Hm1 & Hm2).
  destruct (skip av "-" v2) as [v3|] eqn:S2; [| discriminate].
  apply skip_inl in S2; subst v2.
  destruct (number _ _ _ _ _ v3) as [[day v4]|] eqn:N2; [| discriminate].
  apply number_fixed_inl in N2. destruct N2 as (d1 & d2 & -> & Hd1 & Hd2).
  destruct (skip av "T" v4) as [v5|] eqn:S3; [| discriminate].
  apply skip_inl in S3; subst v4.
  destruct (number _ _ _ _ _ v5) as [[hour v6]|] eqn:N3; [| discriminate].
  apply number_free_inl in N3. destruct N3 as (h1 & Hh1 & N3).
  assert (M : minutes_form ".," v6 = true).
  { eapply minutes_accepted; [| exact H].
    intros min sec nsec v HK. cbv beta in HK.
    destruct (zone av v) as [[z v']|] eqn:Z; [| discriminate].
    destruct (String.eqb_spec v' ""); [subst; now exists z | discriminate]. }
  subst av. unfold accepted_form, date_form, is_char. simpl.
  rewrite E0, Hy2, Hy3, Hy4, Hm1, Hm2, Hd1, Hd2. simpl.
  destruct N3 as [(h2 & -> & Hh2) | (-> & Hnext)].
  - rewrite Hh1, Hh2. exact M.
  - rewrite Hh1. simpl.
    destruct v6 as [|c v6]; [discriminate M |].
    now rewrite Hnext.
Qed.

Lemma minutes_form_weaken (s : string) :
  minutes_form "." s = true -> minutes_form ".," s = true.
Proof.
  unfold minutes_form.
  destruct s as [|c1 [|m1 [|m2 [|c2 [|s1 [|s2 rest]]]]]]; try discriminate.
  intros H. apply andb_prop in H. destruct H as [H1 H2]. rewrite H1. simpl.
  destruct rest as [|sep [|d rest']]; try exact H2.
  unfold mem in *. simpl in *.
  destruct (Ascii.eqb sep "."); simpl in *; [exact H2 |].
  destruct (Ascii.eqb_spec sep ","); simpl in *; [| exact H2].
  destruct (isDigitC d); [| exact H2].
  (* a comma followed by a digit is no offset *)
  subst sep. unfold offset_form, is_char in H2.
  destruct rest' as [|a [|b [|c [|e [|f rest'']]]]]; discriminate H2.
Qed.

Lemma rfc3339_accepted (s : string) :
  rfc3339_form s = true -> accepted_form s = true.
Proof.
  unfold rfc3339_form, accepted_form.
  destruct (date_form s) as [[|h1 [|h2 rest]]|]; try discriminate.
  intros H. apply andb_prop in H. destruct H as [H H3].
  apply andb_prop in H. destruct H as [H1 H2].
  rewrite H1, H2. simpl. now apply minutes_form_weaken.
Qed.

(** C9, as amended. [convertTimestamp] turns [2024-09-07T10:00:00Z] and
    +30s into [2024-09-07T10:00:30Z], -30s into [2024-09-07T09:59:30Z], and
    leaves it as it is with 0.  On the empty string, on the layout text
    [2006-01-02T15:04:05Z07:00], and on every input that is not of the form
    [YYYY-MM-DDTh:mm:ss] or [YYYY-MM-DDThh:mm:ss], an optional fraction after
    a period or a comma, and [Z] or a signed [hh:mm], it fails with a parse
    error; every input of RFC 3339 form is of that form; and whenever
    [time.Parse] fails, its [*time.ParseError] is the error returned. *)
Theorem convertTimestamp_spec :
  convertTimestamp "2024-09-07T10:00:00Z" (30 * Second) = Ok "2024-09-07T10:00:30Z"
  /\ convertTimestamp "2024-09-07T10:00:00Z" (-30 * Second) = Ok "2024-09-07T09:59:30Z"
  /\ convertTimestamp "2024-09-07T10:00:00Z" (0 * Second) = Ok "2024-09-07T10:00:00Z"
  /\ (forall d, exists e, convertTimestamp "" d = Err (timeParseError e))
  /\ (forall d, exists e,
        convertTimestamp "2006-01-02T15:04:05Z07:00" d = Err (timeParseError e))
  /\ (forall s d, accepted_form s = false ->
        exists e, convertTimestamp s d = Err (timeParseError e))
  /\ (forall s, rfc3339_form s = true -> accepted_form s = true)
  /\ (forall s d e, Parse s = inr e -> convertTimestamp s d = Err (timeParseError e)).
Proof.
  assert (G : forall s d, accepted_form s = false ->
                exists e, convertTimestamp s d = Err (timeParseError e)).
  { intros s d H. unfold convertTimestamp.
    destruct (Parse s) as [t | e] eqn:E; [| now exists e].
    apply Parse_accepted in E. congruence. }
  split; [vm_compute; reflexivity |].
  split; [vm_compute; reflexivity |].
  split; [vm_compute; reflexivity |].
  split; [intros d; apply G; reflexivity |].
  split; [intros d; apply G; reflexivity |].
  split; [exact G |].
  split; [exact rfc3339_accepted |].
  intros s d e H. unfold convertTimestamp. now rewrite H.
Qed.

Lemma convertTimestamp_spec_witness :
  exists e, convertTimestamp "yesterday" 0 = Err (timeParseError e).
Proof.
  apply (proj1 (proj2 (proj2 (proj2 (proj2 (proj2 convertTimestamp_spec)))))
           "yesterday" 0).
  reflexivity.
Defined.

(** C9 as stated fails: an hour of one digit, and a comma before the
    fraction, are outside RFC 3339, and [time.Parse] reads both. *)
Lemma convertTimestamp_accepts_non_rfc3339 :
  rfc3339_form "2024-09-07T1:00:00Z" = false
  /\ convertTimestamp "2024-09-07T1:00:00Z" 0 = Ok "2024-09-07T01:00:00Z"
  /\ rfc3339_form "2024-09-07T10:00:00,5Z" = false
  /\ convertTimestamp "2024-09-07T10:00:00,5Z" 0 = Ok "2024-09-07T10:00:00Z".
Proof. repeat split; vm_compute; reflexivity. Qed.

(** ** The document tree *)

Lemma tag_matches_same (tag : string) (c c' : Element) :
  Space c' = Space c -> Tag c' = Tag c -> tag_matches tag c' = tag_matches tag c.
Proof. unfold tag_matches. destruct (spaceDecompose tag). now intros -> ->. Qed.

Lemma tag_matches_plain (tag : string) (c : Element) :
  spaceDecompose tag = ("", tag) -> tag_matches tag c = String.eqb tag (Tag c).
Proof. unfold tag_matches. now intros ->. Qed.

Lemma edit_first_ok (tag : string) (f : Element -> option Element)
  (ts : list Token) (c c' : Element) :
  select_first tag ts = Some c -> f c = Some c' ->
  Space c' = Space c -> Tag c' = Tag c ->
  exists ts', edit_first tag f ts = Some ts' /\ select_first tag ts' = Some c'.
Proof.
  intros Hsel Hf Hs Ht. induction ts as [|t ts IH]; [discriminate |].
  destruct t as [e | | | |]; simpl in *;
    try (destruct (IH Hsel) as [ts' [E S]]; rewrite E; eexists; split;
         [reflexivity | exact S]).
  destruct (tag_matches tag e) eqn:M.
  - injection Hsel as ->. rewrite Hf. eexists. split; [reflexivity |].
    simpl. now rewrite (tag_matches_same tag c c' Hs Ht), M.
  - destruct (IH Hsel) as [ts' [E S]]. rewrite E. eexists. split; [reflexivity |].
    simpl. now rewrite M.
Qed.

Lemma edit_first_others (tag tag2 : string) (f : Element -> option Element)
  (ts ts' : list Token) :
  edit_first tag f ts = Some ts' ->
  (forall c c', f c = Some c' -> Space c' = Space c /\ Tag c' = Tag c) ->
  (forall c, tag_matches tag c = true -> tag_matches tag2 c = false) ->
  select_all tag2 ts' = select_all tag2 ts
  /\ select_first tag2 ts' = select_first tag2 ts.
Proof.
  intros E Hf Hd. revert ts' E. induction ts as [|t ts IH]; intros ts' E;
    [discriminate |].
  destruct t as [e | | | |]; simpl in E;
    try (destruct (edit_first tag f ts) as [r|]; [| discriminate];
         injection E as <-; simpl; now apply IH).
  destruct (tag_matches tag e) eqn:M.
  - destruct (f e) as [e'|] eqn:Fe; [| discriminate]. injection E as <-.
    destruct (Hf e e' Fe) as [Hs Ht]. simpl.
    rewrite (tag_matches_same tag2 e e' Hs Ht), (Hd e M). auto.
  - destruct (edit_first tag f ts) as [r|]; [| discriminate].
    injection E as <-. simpl. destruct (IH r eq_refl) as [A B].
    rewrite A, B. auto.
Qed.

Lemma edit_path_ok (path : list string) (f : Element -> option Element) :
  forall e x y : Element,
  select_path path e = Some x -> f x = Some y ->
  Space y = Space x -> Tag y = Tag x ->
  exists e', edit_path path f e = Some e' /\ select_path path e' = Some y
             /\ Space e' = Space e /\ Tag e' = Tag e.
Proof.
  induction path as [|tag path IH]; intros e x y Hsel Hf Hs Ht; simpl in *.
  - injection Hsel as ->. exists y. auto.
  - unfold SelectElement in Hsel.
    destruct (select_first tag (Child e)) as [c|] eqn:Sc; [| discriminate].
    destruct (IH c x y Hsel Hf Hs Ht) as [c' [E [S [Hs' Ht']]]].
    destruct (edit_first_ok tag (edit_path path f) (Child e) c c' Sc E Hs' Ht')
      as [ts' [E' S']].
    unfold edit_child. rewrite E'. eexists. split; [reflexivity |].
    unfold SelectElement. simpl. rewrite S'. auto.
Qed.

Lemma count_tag_eq (tag : string) (e : Element) :
  count_tag tag e
  = ((if String.eqb (Tag e) tag then 1 else 0) + count_tokens tag (Child e))%nat.
Proof.
  destruct e as [sp t at_ ch]. simpl. f_equal.
  induction ch as [|[c | | | |] ch IH]; simpl; congruence.
Qed.

Lemma count_tokens_app (tag : string) (a b : list Token) :
  count_tokens tag (a ++ b) = (count_tokens tag a + count_tokens tag b)%nat.
Proof.
  induction a as [|[c | | | |] a IH]; simpl; try assumption; [reflexivity | lia].
Qed.

Lemma count_edit_first (tag t : string) (f : Element -> option Element) (d : nat)
  (ts ts' : list Token) :
  (forall c c', f c = Some c' -> count_tag t c' = (count_tag t c + d)%nat) ->
  edit_first tag f ts = Some ts' ->
  count_tokens t ts' = (count_tokens t ts + d)%nat.
Proof.
  intros Hf. revert ts'. induction ts as [|x ts IH]; intros ts' E; [discriminate |].
  destruct x as [e | | | |]; simpl in E;
    try (destruct (edit_first tag f ts) as [r|]; [| discriminate];
         injection E as <-; simpl; now apply IH).
  destruct (tag_matches tag e).
  - destruct (f e) as [e'|] eqn:Fe; [| discriminate]. injection E as <-.
    simpl. rewrite (Hf e e' Fe). lia.
  - destruct (edit_first tag f ts) as [r|]; [| discriminate].
    injection E as <-. simpl. rewrite (IH r eq_refl). lia.
Qed.

Lemma count_edit_path (t : string) (f : Element -> option Element) (d : nat)
  (path : list string) :
  (forall c c', f c = Some c' -> count_tag t c' = (count_tag t c + d)%nat) ->
  forall e e', edit_path path f e = Some e' ->
  count_tag t e' = (count_tag t e + d)%nat.
Proof.
  intros Hf. induction path as [|tag path IH]; intros e e' E; simpl in E.
  - now apply Hf.
  - unfold edit_child in E.
    destruct (edit_first tag (edit_path path f) (Child e)) as [ts'|] eqn:E1;
      [| discriminate].
    injection E as <-. rewrite !count_tag_eq. simpl.
    rewrite (count_edit_first tag t _ d _ _ IH E1). lia.
Qed.

Lemma count_AddChild (t : string) (c e : Element) :
  count_tag t (AddChild (TElement c) e) = (count_tag t e + count_tag t c)%nat.
Proof.
  rewrite !(count_tag_eq t (AddChild _ _)), (count_tag_eq t e).
  unfold AddChild. simpl. rewrite count_tokens_app. simpl. lia.
Qed.

Lemma select_all_app (tag : string) (a b : list Token) :
  select_all tag (a ++ b) = (select_all tag a ++ select_all tag b)%list.
Proof.
  induction a as [|[c | | | |] a IH]; simpl; try assumption; [reflexivity |].
  destruct (tag_matches tag c); simpl; now rewrite IH.
Qed.

Lemma child_elements_app (a b : list Token) :
  child_elements (a ++ b) = (child_elements a ++ child_elements b)%list.
Proof.
  induction a as [|[c | | | |] a IH]; simpl; try assumption; [reflexivity |].
  now rewrite IH.
Qed.

(** ** The timeline transformer *)

Lemma textElement_Text (tag text : string) :
  spaceDecompose tag = ("", tag) ->
  textElement tag text = mkElement "" tag []
                           (if String.eqb text "" then [] else [TCharData text false])
  /\ Text (textElement tag text) = text.
Proof.
  intros H. unfold textElement, NewElement, SetText, Text. rewrite H. simpl.
  destruct (String.eqb_spec text "") as [-> | N]; simpl; [auto |].
  now rewrite append_empty_r.
Qed.

Lemma deviceName_counts (t : string) (c c' : Element) :
  deviceName c = Some c' ->
  count_tag t c' = (count_tag t c + (if String.eqb "Name" t then 1 else 0))%nat.
Proof.
  unfold deviceName. intros H. injection H as <-.
  rewrite count_AddChild. f_equal.
  change (textElement "Name" "Fitbit")
    with (mkElement "" "Name" [] [TCharData "Fitbit" false]).
  rewrite count_tag_eq. cbn [Tag Child count_tokens]. apply Nat.add_0_r.
Qed.

(** C6. A document that has the [Creator] element under
    [TrainingCenterDatabase/Activities/Activity], transformed with category
    Treadmill or Weights: the run completes, the [Creator] element has one
    more child, a [Name] element with text [Fitbit], and the document has
    one more [Name] element and as many elements of every other tag, [Lap]
    and [Track] among them, as before. *)
Theorem injectActivityTcx_device_name
  (FormatFloat : float64 -> string) (fName : string) (xmlDoc : Element)
  (actName : string) (totalTime : Z) (distMeters calories : string)
  (creator : Element) :
  actName = "Treadmill" \/ actName = "Weights" ->
  select_path (activityPath ++ ["Creator"]) xmlDoc = Some creator ->
  exists xmlDoc' creator' events,
    injectActivityTcx FormatFloat fName xmlDoc actName totalTime distMeters calories
    = Some (xmlDoc', events)
    /\ select_path (activityPath ++ ["Creator"]) xmlDoc' = Some creator'
    /\ Child creator' = (Child creator ++ [TElement (textElement "Name" "Fitbit")])%list
    /\ Text (textElement "Name" "Fitbit") = "Fitbit"
    /\ SelectElements "Name" creator'
       = (SelectElements "Name" creator ++ [textElement "Name" "Fitbit"])%list
    /\ count_tag "Name" xmlDoc' = S (count_tag "Name" xmlDoc)
    /\ count_tag "Lap" xmlDoc' = count_tag "Lap" xmlDoc
    /\ count_tag "Track" xmlDoc' = count_tag "Track" xmlDoc
    /\ (forall t, t <> "Name" -> count_tag t xmlDoc' = count_tag t xmlDoc).
Proof.
  intros Hact Hsel.
  destruct (edit_path_ok (activityPath ++ ["Creator"]) deviceName xmlDoc creator
              (AddChild (TElement (textElement "Name" "Fitbit")) creator)
              Hsel eq_refl eq_refl eq_refl) as [doc' [E [S _]]].
  assert (C : forall t, count_tag t doc'
                = (count_tag t xmlDoc + (if String.eqb "Name" t then 1 else 0))%nat).
  { intros t. eapply count_edit_path; [| exact E]. intros c c'. apply deviceName_counts. }
  exists doc', (AddChild (TElement (textElement "Name" "Fitbit")) creator).
  eexists. split.
  - unfold injectActivityTcx.
    replace (String.eqb actName "Swim") with false
      by (destruct Hact; subst; reflexivity).
    replace (String.eqb actName "Treadmill" || String.eqb actName "Weights") with true
      by (destruct Hact; subst; reflexivity).
    rewrite E. reflexivity.
  - split; [exact S |]. split; [reflexivity |]. split; [reflexivity |].
    split; [unfold SelectElements; simpl; now rewrite select_all_app |].
    split; [rewrite C; simpl; lia |].
    split; [rewrite C; simpl; lia |].
    split; [rewrite C; simpl; lia |].
    intros t Ht. rewrite C.
    destruct (String.eqb_spec "Name" t); [congruence | lia].
Qed.

Lemma injectActivityTcx_device_name_witness :
  exists xmlDoc' creator' events,
    injectActivityTcx formatWhole "Treadmill-7"
      (tcxDocument "Other" "2024-01-01T00:00:00Z") "Treadmill"
      (60 * Second) "1000" "80"
    = Some (xmlDoc', events)
    /\ select_path (activityPath ++ ["Creator"]) xmlDoc' = Some creator'
    /\ count_tag "Name" xmlDoc' = 1%nat
    /\ count_tag "Lap" xmlDoc' = 0%nat
    /\ count_tag "Track" xmlDoc' = 0%nat.
Proof.
  destruct (injectActivityTcx_device_name formatWhole "Treadmill-7"
              (tcxDocument "Other" "2024-01-01T00:00:00Z") "Treadmill"
              (60 * Second) "1000" "80"
              (mkElement "" "Creator"
                 [mkAttr "xsi" "type" "Device_t";
                  mkAttr "xmlns" "xsi" "http://www.w3.org/2001/XMLSchema-instance"]
                 [TElement (mkElement "" "UnitId" [] [TCharData "0" false]);
                  TElement (mkElement "" "ProductID" [] [TCharData "0" false])])
              (or_introl eq_refl) eq_refl)
    as (d & c & ev & E & S & _ & _ & _ & N & L & T & _).
  exists d, c, ev. repeat split; assumption.
Defined.

Lemma set_first_attr_ok (space skey value : string) (attrs : list Attr) :
  existsb (fun a => spaceMatch space (ASpace a) && String.eqb skey (Key a)) attrs = true ->
  exists attrs', set_first_attr space skey value attrs = Some attrs'.
Proof.
  induction attrs as [|a attrs IH]; simpl; [discriminate |].
  destruct (spaceMatch space (ASpace a) && String.eqb skey (Key a)); simpl.
  - intros _. eexists. reflexivity.
  - intros H. destruct (IH H) as [r E]. rewrite E. eexists. reflexivity.
Qed.

(** The Swim edits succeed on an [Activity] element that has a [Sport]
    attribute, an [Id] and a [Creator]; the new [Lap] is its last child. *)
Lemma swim_ok (FormatFloat : float64 -> string) (actName : string) (totalTime : Z)
  (distMeters calories : string) (root idEl creator : Element) :
  has_attr "Sport" root = true ->
  SelectElement "Id" root = Some idEl ->
  SelectElement "Creator" root = Some creator ->
  exists root' ts,
    swim FormatFloat actName totalTime distMeters calories root = Some root'
    /\ Space root' = Space root /\ Tag root' = Tag root
    /\ Child root'
       = (ts ++ [TElement (newLap FormatFloat (Text idEl) totalTime distMeters calories)])%list
    /\ select_all "Lap" ts = select_all "Lap" (Child root)
    /\ SelectAttrValue "Sport" "" root' = actName.
Proof.
  intros Ha Hid Hcr. unfold swim, SelectAttr_set_Value.
  unfold has_attr in Ha.
  change (spaceDecompose "Sport") with ("", "Sport") in *.
  destruct (set_first_attr_ok "" "Sport" actName (Attrs root) Ha) as [attrs' Ea].
  rewrite Ea.
  change (SelectElement "Id" (set_Attrs attrs' root)) with (SelectElement "Id" root).
  rewrite Hid.
  destruct (edit_first_ok "Creator"
              (fun creatorElement =>
                 Some (AddChild (TElement (textElement "Name" "Fitbit")) creatorElement))
              (Child root) creator _ Hcr eq_refl eq_refl eq_refl) as [ts [E S]].
  unfold edit_child. change (Child (set_Attrs attrs' root)) with (Child root).
  rewrite E. exists (AddChild
                       (TElement (newLap FormatFloat (Text idEl) totalTime distMeters calories))
                       (set_Child ts (set_Attrs attrs' root))), ts.
  split; [reflexivity |]. split; [reflexivity |]. split; [reflexivity |].
  split; [reflexivity |]. split.
  - assert (P : forall c c' : Element,
               Some (AddChild (TElement (textElement "Name" "Fitbit")) c) = Some c' ->
               Space c' = Space c /\ Tag c' = Tag c).
    { intros c c' H. injection H as <-. auto. }
    assert (Q : forall c, tag_matches "Creator" c = true -> tag_matches "Lap" c = false).
    { intros c. rewrite !tag_matches_plain by reflexivity.
      intros H. apply String.eqb_eq in H. now rewrite <- H. }
    exact (proj1 (edit_first_others "Creator" "Lap" _ _ _ E P Q)).
  - unfold SelectAttrValue. change (spaceDecompose "Sport") with ("", "Sport").
    cbn [Attrs AddChild set_Child set_Attrs]. clear - Ea.
    revert attrs' Ea. induction (Attrs root) as [|a l IH]; intros attrs' Ea;
      [discriminate |].
    cbn [set_first_attr] in Ea.
    destruct (spaceMatch "" (ASpace a) && String.eqb "Sport" (Key a)) eqn:M.
    + injection Ea as <-. cbn [attr_value ASpace Key AValue]. now rewrite M.
    + destruct (set_first_attr "" "Sport" actName l) as [r|]; [| discriminate].
      injection Ea as <-. cbn [attr_value]. rewrite M. now apply IH.
Qed.

(** [injectActivityTcx] on category Swim: the run completes, and the
    [Activity] element of the new document ends with the new [Lap]. *)
Lemma injectActivityTcx_swim (FormatFloat : float64 -> string) (fName : string)
  (xmlDoc : Element) (totalTime : Z) (distMeters calories : string)
  (root idEl creator : Element) :
  select_path activityPath xmlDoc = Some root ->
  has_attr "Sport" root = true ->
  SelectElement "Id" root = Some idEl ->
  SelectElement "Creator" root = Some creator ->
  exists xmlDoc' root',
    injectActivityTcx FormatFloat fName xmlDoc "Swim" totalTime distMeters calories
    = Some (xmlDoc',
            [ PrintXML xmlDoc';
              SaveToFile (fName ++ ".tcx") xmlDoc';
              Println ("Data saved to " ++ fName ++ ".tcx");
              ServerShutdown;
              DoneSend ])
    /\ select_path activityPath xmlDoc' = Some root'
    /\ SelectAttrValue "Sport" "" root' = "Swim"
    /\ SelectElements "Lap" root'
       = (SelectElements "Lap" root
            ++ [newLap FormatFloat (Text idEl) totalTime distMeters calories])%list
    /\ last (ChildElements root') root
       = newLap FormatFloat (Text idEl) totalTime distMeters calories.
Proof.
  intros Hp Ha Hid Hcr.
  destruct (swim_ok FormatFloat "Swim" totalTime distMeters calories root idEl creator
              Ha Hid Hcr) as (root' & ts & Es & Hs & Ht & Hc & Hl & Hsp).
  destruct (edit_path_ok activityPath _ xmlDoc root root' Hp Es Hs Ht)
    as (doc' & E & S & _).
  exists doc', root'. split.
  - unfold injectActivityTcx. cbn [String.eqb Ascii.eqb Bool.eqb orb]. rewrite E.
    reflexivity.
  - split; [exact S |]. split; [exact Hsp |]. split.
    + unfold SelectElements. rewrite Hc, select_all_app, Hl. reflexivity.
    + unfold ChildElements. rewrite Hc, child_elements_app. simpl.
      apply last_last.
Qed.

(** C5. A Swim transformation with total duration 60000 ms, distance
    [1000] and the identifier [2024-01-01T00:00:00Z], on a document that has
    the [Activity] element with its [Sport] attribute, [Id] and [Creator]:
    the run completes; the [Activity] element gains one [Lap] whose
    [StartTime] is [2024-01-01T00:00:00Z]; the [Lap] has one [Track], whose
    child elements are exactly two [Trackpoint]s, with [Time]
    [2024-01-01T00:00:00Z] and [DistanceMeters] [0], and with [Time]
    [2024-01-01T00:01:00Z] and [DistanceMeters] [1000]. *)
Theorem injectActivityTcx_swim_example
  (FormatFloat : float64 -> string) (fName : string) (xmlDoc : Element)
  (calories : string) (root idEl creator : Element) :
  select_path activityPath xmlDoc = Some root ->
  has_attr "Sport" root = true ->
  SelectElement "Id" root = Some idEl ->
  Text idEl = "2024-01-01T00:00:00Z" ->
  SelectElement "Creator" root = Some creator ->
  exists xmlDoc' events root' lap track tp1 tp2,
    injectActivityTcx FormatFloat fName xmlDoc "Swim" (60000 * Millisecond) "1000" calories
    = Some (xmlDoc', events)
    /\ select_path activityPath xmlDoc' = Some root'
    /\ SelectElements "Lap" root' = (SelectElements "Lap" root ++ [lap])%list
    /\ Tag lap = "Lap"
    /\ SelectAttrValue "StartTime" "" lap = "2024-01-01T00:00:00Z"
    /\ SelectElements "Track" lap = [track]
    /\ ChildElements track = [tp1; tp2]
    /\ Tag tp1 = "Trackpoint" /\ Tag tp2 = "Trackpoint"
    /\ child_text "Time" tp1 = Some "2024-01-01T00:00:00Z"
    /\ child_text "DistanceMeters" tp1 = Some "0"
    /\ child_text "Time" tp2 = Some "2024-01-01T00:01:00Z"
    /\ child_text "DistanceMeters" tp2 = Some "1000".
Proof.
  intros Hp Ha Hid Htext Hcr.
  destruct (injectActivityTcx_swim FormatFloat fName xmlDoc (60000 * Millisecond)
              "1000" calories root idEl creator Hp Ha Hid Hcr)
    as (doc' & root' & E & S & _ & L & _).
  rewrite Htext in L.
  exists doc'. eexists. exists root'.
  exists (newLap FormatFloat "2024-01-01T00:00:00Z" (60000 * Millisecond) "1000" calories).
  exists (mkElement "" "Track" []
            [TElement (mkElement "" "Trackpoint" []
               [TElement (mkElement "" "Time" [] [TCharData "2024-01-01T00:00:00Z" false]);
                TElement (mkElement "" "DistanceMeters" [] [TCharData "0" false])]);
             TElement (mkElement "" "Trackpoint" []
               [TElement (mkElement "" "Time" [] [TCharData "2024-01-01T00:01:00Z" false]);
                TElement (mkElement "" "DistanceMeters" [] [TCharData "1000" false])])]).
  exists (mkElement "" "Trackpoint" []
            [TElement (mkElement "" "Time" [] [TCharData "2024-01-01T00:00:00Z" false]);
             TElement (mkElement "" "DistanceMeters" [] [TCharData "0" false])]).
  exists (mkElement "" "Trackpoint" []
            [TElement (mkElement "" "Time" [] [TCharData "2024-01-01T00:01:00Z" false]);
             TElement (mkElement "" "DistanceMeters" [] [TCharData "1000" false])]).
  split; [exact E |]. split; [exact S |]. split; [exact L |].
  split; [reflexivity |].
  split; [vm_compute; reflexivity |].
  split; [vm_compute; reflexivity |].
  repeat split; vm_compute; reflexivity.
Qed.

Lemma injectActivityTcx_swim_example_witness :
  exists xmlDoc' events root' lap track tp1 tp2,
    injectActivityTcx formatWhole "Swim-7" (tcxDocument "Other" "2024-01-01T00:00:00Z")
      "Swim" (60000 * Millisecond) "1000" "80"
    = Some (xmlDoc', events)
    /\ select_path activityPath xmlDoc' = Some root'
    /\ SelectElements "Lap" root' = [lap]
    /\ SelectAttrValue "StartTime" "" lap = "2024-01-01T00:00:00Z"
    /\ SelectElements "Track" lap = [track]
    /\ ChildElements track = [tp1; tp2]
    /\ child_text "Time" tp1 = Some "2024-01-01T00:00:00Z"
    /\ child_text "DistanceMeters" tp1 = Some "0"
    /\ child_text "Time" tp2 = Some "2024-01-01T00:01:00Z"
    /\ child_text "DistanceMeters" tp2 = Some "1000".
Proof.
  destruct (injectActivityTcx_swim_example formatWhole "Swim-7"
              (tcxDocument "Other" "2024-01-01T00:00:00Z") "80"
              (mkElement "" "Activity" [mkAttr "" "Sport" "Other"]
                 [TElement (mkElement "" "Id" [] [TCharData "2024-01-01T00:00:00Z" false]);
                  TElement (mkElement "" "Creator"
                    [mkAttr "xsi" "type" "Device_t";
                     mkAttr "xmlns" "xsi" "http://www.w3.org/2001/XMLSchema-instance"]
                    [TElement (mkElement "" "UnitId" [] [TCharData "0" false]);
                     TElement (mkElement "" "ProductID" [] [TCharData "0" false])])])
              (mkElement "" "Id" [] [TCharData "2024-01-01T00:00:00Z" false])
              (mkElement "" "Creator"
                 [mkAttr "xsi" "type" "Device_t";
                  mkAttr "xmlns" "xsi" "http://www.w3.org/2001/XMLSchema-instance"]
                 [TElement (mkElement "" "UnitId" [] [TCharData "0" false]);
                  TElement (mkElement "" "ProductID" [] [TCharData "0" false])])
              eq_refl eq_refl eq_refl eq_refl eq_refl)
    as (d & ev & r & lap & tr & p1 & p2 & E & S & L & _ & A & T & C & _ & _ & X).
  exists d, ev, r, lap, tr, p1, p2. repeat split; try assumption; apply X.
Defined.

Lemma newLap_unparsed (FormatFloat : float64 -> string) (idElement : string)
  (totalTime : Z) (distMeters calories : string) (e : ParseError) :
  Parse idElement = inr e ->
  newLap FormatFloat idElement totalTime distMeters calories
  = mkElement "" "Lap" [mkAttr "" "StartTime" ""]
      [ TElement (textElement "TotalTimeSeconds" (FormatFloat (Seconds totalTime)));
        TElement (textElement "DistanceMeters" distMeters);
        TElement (textElement "Calories" calories);
        TElement (mkElement "" "Intensity" [] [TCharData "Active" false]);
        TElement (mkElement "" "TriggerMethod" [] [TCharData "Manual" false]);
        TElement (mkElement "" "Track" []
          [ TElement (mkElement "" "Trackpoint" []
              [ TElement (mkElement "" "Time" [] []);
                TElement (mkElement "" "DistanceMeters" [] [TCharData "0" false]) ]);
            TElement (mkElement "" "Trackpoint" []
              [ TElement (mkElement "" "Time" [] []);
                TElement (textElement "DistanceMeters" distMeters) ]) ]) ].
Proof.
  intros H. unfold newLap, convertTimestamp. rewrite H. reflexivity.
Qed.

(** C4, as amended. In a Swim transformation whose identifier is not read
    by [time.Parse], each [convertTimestamp] call returns the
    [*time.ParseError], a kind of its own, and [injectActivityTcx] drops it:
    the run goes on to the end, the file is saved and the listener shut
    down.  The new [Lap] has an empty [StartTime], and the [Time] elements
    of its two [Trackpoint]s are empty. *)
Theorem injectActivityTcx_swim_unparsed
  (FormatFloat : float64 -> string) (fName : string) (xmlDoc : Element)
  (totalTime : Z) (distMeters calories : string) (root idEl creator : Element)
  (e : ParseError) :
  select_path activityPath xmlDoc = Some root ->
  has_attr "Sport" root = true ->
  SelectElement "Id" root = Some idEl ->
  SelectElement "Creator" root = Some creator ->
  Parse (Text idEl) = inr e ->
  convertTimestamp (Text idEl) 0 = Err (timeParseError e)
  /\ convertTimestamp (Text idEl) totalTime = Err (timeParseError e)
  /\ exists xmlDoc' events root' lap track tp1 tp2,
       injectActivityTcx FormatFloat fName xmlDoc "Swim" totalTime distMeters calories
       = Some (xmlDoc', events)
       /\ In (SaveToFile (fName ++ ".tcx") xmlDoc') events
       /\ In ServerShutdown events
       /\ select_path activityPath xmlDoc' = Some root'
       /\ SelectElements "Lap" root' = (SelectElements "Lap" root ++ [lap])%list
       /\ SelectAttrValue "StartTime" "" lap = ""
       /\ SelectElements "Track" lap = [track]
       /\ ChildElements track = [tp1; tp2]
       /\ child_text "Time" tp1 = Some ""
       /\ child_text "Time" tp2 = Some "".
Proof.
  intros Hp Ha Hid Hcr He.
  split; [unfold convertTimestamp; now rewrite He |].
  split; [unfold convertTimestamp; now rewrite He |].
  destruct (injectActivityTcx_swim FormatFloat fName xmlDoc totalTime
              distMeters calories root idEl creator Hp Ha Hid Hcr)
    as (doc' & root' & E & S & _ & L & _).
  rewrite (newLap_unparsed _ _ _ _ _ e He) in L.
  exists doc'. eexists. exists root'. eexists.
  exists (mkElement "" "Track" []
            [ TElement (mkElement "" "Trackpoint" []
                [ TElement (mkElement "" "Time" [] []);
                  TElement (mkElement "" "DistanceMeters" [] [TCharData "0" false]) ]);
              TElement (mkElement "" "Trackpoint" []
                [ TElement (mkElement "" "Time" [] []);
                  TElement (textElement "DistanceMeters" distMeters) ]) ]).
  eexists. eexists.
  split; [exact E |].
  split; [simpl; tauto |].
  split; [simpl; tauto |].
  split; [exact S |].
  split; [exact L |].
  split; [reflexivity |].
  split; [reflexivity |].
  split; [reflexivity |].
  split; reflexivity.
Qed.

Lemma injectActivityTcx_swim_unparsed_witness :
  exists e xmlDoc' events,
    convertTimestamp "yesterday" 0 = Err (timeParseError e)
    /\ injectActivityTcx formatWhole "Swim-7" (tcxDocument "Other" "yesterday")
         "Swim" (60 * Second) "1000" "80"
       = Some (xmlDoc', events)
    /\ In (SaveToFile "Swim-7.tcx" xmlDoc') events.
Proof.
  exists (bad "yesterday" "2006" "yesterday" NoMessage).
  destruct (injectActivityTcx_swim_unparsed formatWhole "Swim-7"
              (tcxDocument "Other" "yesterday") (60 * Second) "1000" "80"
              (mkElement "" "Activity" [mkAttr "" "Sport" "Other"]
                 [TElement (mkElement "" "Id" [] [TCharData "yesterday" false]);
                  TElement (mkElement "" "Creator"
                    [mkAttr "xsi" "type" "Device_t";
                     mkAttr "xmlns" "xsi" "http://www.w3.org/2001/XMLSchema-instance"]
                    [TElement (mkElement "" "UnitId" [] [TCharData "0" false]);
                     TElement (mkElement "" "ProductID" [] [TCharData "0" false])])])
              (mkElement "" "Id" [] [TCharData "yesterday" false])
              (mkElement "" "Creator"
                 [mkAttr "xsi" "type" "Device_t";
                  mkAttr "xmlns" "xsi" "http://www.w3.org/2001/XMLSchema-instance"]
                 [TElement (mkElement "" "UnitId" [] [TCharData "0" false]);
                  TElement (mkElement "" "ProductID" [] [TCharData "0" false])])
              (bad "yesterday" "2006" "yesterday" NoMessage)
              eq_refl eq_refl eq_refl eq_refl eq_refl)
    as (C0 & _ & d & ev & _ & _ & _ & _ & _ & E & I & _).
  exists d, ev. split; [exact C0 |]. split; assumption.
Defined.

(** C4 as stated fails: with an identifier that is no timestamp the Swim
    transformation does not fail or stop; it completes and saves a document
    whose [Lap] has an empty start time. *)
Lemma swim_unparsed_not_aborted :
  (exists e, convertTimestamp "yesterday" 0 = Err (timeParseError e))
  /\ exists xmlDoc',
       injectActivityTcx formatWhole "Swim-7" (tcxDocument "Other" "yesterday")
         "Swim" (60 * Second) "1000" "80"
       = Some (xmlDoc',
               [ PrintXML xmlDoc';
                 SaveToFile "Swim-7.tcx" xmlDoc';
                 Println "Data saved to Swim-7.tcx";
                 ServerShutdown;
                 DoneSend ])
       /\ option_map (fun root => map (SelectAttrValue "StartTime" "?")
                                    (SelectElements "Lap" root))
            (select_path activityPath xmlDoc')
          = Some [""].
Proof.
  split; [eexists; vm_compute; reflexivity |].
  eexists. split; vm_compute; reflexivity.
Qed.

(** ** Durations as floats *)

Lemma iter_xO_value (p k : positive) :
  Zpos (Pos.iter xO p k) = Zpos p * 2 ^ Zpos k.
Proof.
  induction k as [|k IH] using Pos.peano_ind.
  - simpl. lia.
  - rewrite Pos.iter_succ, Pos2Z.inj_succ, Z.pow_succ_r by lia.
    rewrite Pos2Z.inj_xO, IH. lia.
Qed.

Lemma iter_xO_digits (p k : positive) :
  Zpos (digits2_pos (Pos.iter xO p k)) = Zpos (digits2_pos p) + Zpos k.
Proof.
  induction k as [|k IH] using Pos.peano_ind.
  - simpl. lia.
  - rewrite Pos.iter_succ. cbn [digits2_pos]. rewrite Pos2Z.inj_succ, IH. lia.
Qed.

Lemma digits2_pos_lower (p : positive) :
  2 ^ (Zpos (digits2_pos p) - 1) <= Zpos p.
Proof.
  induction p as [p IH | p IH |]; cbn [digits2_pos].
  - rewrite Pos2Z.inj_succ. replace (Z.succ (Zpos (digits2_pos p)) - 1)
      with (Z.succ (Zpos (digits2_pos p) - 1)) by lia.
    rewrite Z.pow_succ_r by lia. lia.
  - rewrite Pos2Z.inj_succ. replace (Z.succ (Zpos (digits2_pos p)) - 1)
      with (Z.succ (Zpos (digits2_pos p) - 1)) by lia.
    rewrite Z.pow_succ_r by lia. lia.
  - simpl. lia.
Qed.

Lemma digits2_pos_small (p : positive) :
  Zpos p < 2 ^ 53 -> Zpos (digits2_pos p) <= 53.
Proof.
  intros H. destruct (Z_le_gt_dec (Zpos (digits2_pos p)) 53) as [L | G]; [exact L |].
  pose proof (digits2_pos_lower p) as B.
  assert (2 ^ 53 <= 2 ^ (Zpos (digits2_pos p) - 1)) by (apply Z.pow_le_mono_r; lia).
  lia.
Qed.

Lemma fexp_small (d : Z) : 1 <= d <= 53 -> fexp 53 1024 d = d - 53.
Proof. intros H. unfold fexp, emin. lia. Qed.

(** a mantissa of 53 bits is left as it is *)
Lemma binary_round_aux_canonical (sx : bool) (m : positive) (e : Z) :
  fexp 53 1024 (Zpos (digits2_pos m) + e) = e -> e <= 971 ->
  binary_round_aux 53 1024 sx (Zpos m) e loc_Exact = S754_finite sx m e.
Proof.
  intros H He. unfold binary_round_aux, shr_fexp.
  cbn [Zdigits2 shr_record_of_loc]. rewrite H, Z.sub_diag.
  cbn [shr shr_m loc_of_shr_record round_nearest_even Zdigits2 shr_record_of_loc].
  rewrite H, Z.sub_diag. cbn [shr shr_m].
  destruct (Z.leb_spec e (1024 - 53)); [reflexivity | lia].
Qed.

(** An integer below [2 ^ 53] in magnitude converts to the float that is
    exactly that integer. *)
Lemma binary_round_exact (sx : bool) (p : positive) :
  Zpos p < 2 ^ 53 ->
  exists m e, binary_round 53 1024 sx p 0 = S754_finite sx m e
              /\ e <= 0 /\ Zpos m = Zpos p * 2 ^ (- e).
Proof.
  intros H. pose proof (digits2_pos_small p H) as D.
  unfold binary_round. rewrite Z.add_0_r, fexp_small by lia.
  unfold shl_align. rewrite Z.sub_0_r.
  destruct (Zpos (digits2_pos p) - 53) as [|k|k] eqn:Ek; [| lia |].
  - exists p, 0. split; [| split; [lia | simpl; lia]].
    apply binary_round_aux_canonical; [| lia].
    rewrite Z.add_0_r, fexp_small by lia. exact Ek.
  - exists (Pos.iter xO p k), (Zneg k). split; [| split; [lia |]].
    + apply binary_round_aux_canonical; [| lia].
      rewrite iter_xO_digits, fexp_small by lia. lia.
    + now rewrite iter_xO_value.
Qed.

Lemma float64_of_int_exact (z : Z) :
  Z.abs z < 2 ^ 53 ->
  is_integer (float64_of_int z) z
  /\ whole (float64_of_int z) = true
  /\ fadd (float64_of_int z) (S754_zero false) = float64_of_int z.
Proof.
  intros H. unfold float64_of_int, binary_normalize.
  destruct z as [|p|p].
  - repeat split.
  - destruct (binary_round_exact false p) as (m & e & E & He & Hm); [lia |].
    rewrite E. cbn [is_integer whole fadd SFadd cond_Zopp].
    destruct (Z.ltb_spec e 0).
    + repeat split; [exact Hm |].
      rewrite Hm, Z.mod_mul by (apply Z.pow_nonzero; lia). reflexivity.
    + assert (e = 0) by lia. subst e. repeat split. simpl in Hm. lia.
  - destruct (binary_round_exact true p) as (m & e & E & He & Hm); [lia |].
    rewrite E. cbn [is_integer whole fadd SFadd cond_Zopp].
    destruct (Z.ltb_spec e 0).
    + repeat split; [lia |].
      rewrite Hm, Z.mod_mul by (apply Z.pow_nonzero; lia). reflexivity.
    + assert (e = 0) by lia. subst e. repeat split. simpl in Hm. lia.
Qed.

Lemma wrap64_small (z : Z) : in_int64 z -> wrap64 z = z.
Proof. unfold in_int64, wrap64. intros H. rewrite Z.mod_small; lia. Qed.

(** A whole number of seconds, within the range of a duration, has that
    number as its [Seconds()]. *)
Lemma Seconds_whole (q : Z) :
  Z.abs q <= 9223372036 ->
  Seconds (q * Second) = float64_of_int q
  /\ is_integer (float64_of_int q) q
  /\ whole (float64_of_int q) = true.
Proof.
  intros H. unfold Seconds.
  replace (Z.quot (q * Second) Second) with q by (symmetry; apply Z.quot_mul; discriminate).
  replace (Z.rem (q * Second) Second) with 0 by (symmetry; apply Z.rem_mul; discriminate).
  change (fdiv (float64_of_int 0) (float64_of_int 1000000000)) with (S754_zero false).
  destruct (float64_of_int_exact q) as (A & B & C); [lia |]. auto.
Qed.

Lemma utod_digit (u : Z) : timestamp_char (utod (u mod 10)) = true.
Proof.
  assert (B : 0 <= u mod 10 < 10) by (apply Z.mod_pos_bound; lia).
  assert (C : u mod 10 = 0 \/ u mod 10 = 1 \/ u mod 10 = 2 \/ u mod 10 = 3
              \/ u mod 10 = 4 \/ u mod 10 = 5 \/ u mod 10 = 6 \/ u mod 10 = 7
              \/ u mod 10 = 8 \/ u mod 10 = 9) by lia.
  repeat (destruct C as [C | C]; [rewrite C; reflexivity |]).
  rewrite C; reflexivity.
Qed.

Lemma digits_of_chars (fuel : nat) : forall (u : Z) (acc : string),
  Forall (fun c => timestamp_char c = true) (chars acc) ->
  Forall (fun c => timestamp_char c = true) (chars (digits_of fuel u acc)).
Proof.
  induction fuel as [|fuel IH]; intros u acc H; cbn [digits_of]; [exact H |].
  assert (H' : Forall (fun c => timestamp_char c = true)
                 (chars (String (utod (u mod 10)) acc))).
  { constructor; [apply utod_digit | exact H]. }
  destruct (u <? 10); [exact H' | now apply IH].
Qed.

Lemma zeros_chars (n : nat) :
  Forall (fun c => timestamp_char c = true) (chars (zeros n)).
Proof. induction n; simpl; constructor; [reflexivity | assumption]. Qed.

Lemma appendInt_chars (x : Z) (width : nat) :
  Forall (fun c => timestamp_char c = true) (chars (appendInt x width)).
Proof.
  unfold appendInt. rewrite !chars_append, !Forall_app.
  split; [destruct (x <? 0); repeat constructor |].
  split; [apply zeros_chars |].
  apply digits_of_chars. constructor.
Qed.

(** A formatted UTC time has no fraction of a second. *)
Lemma Format_chars (t : Time) :
  offset t = 0 -> Forall (fun c => timestamp_char c = true) (chars (Format t)).
Proof.
  intros H. unfold Format. rewrite H.
  destruct (civil_from_days _) as [[year month] day].
  cbn [Z.eqb]. rewrite !chars_append, !Forall_app.
  repeat split; try apply appendInt_chars; repeat constructor.
Qed.

Lemma convertTimestamp_chars (timeStamp : string) (addSecond : Z) :
  Forall (fun c => timestamp_char c = true)
    (chars (value_of (convertTimestamp timeStamp addSecond))).
Proof.
  unfold convertTimestamp. destruct (Parse timeStamp) as [t | e]; [| constructor].
  cbn [value_of]. apply Format_chars.
  unfold Add, UTC. cbn [nsec unixSec offset].
  repeat match goal with |- context [if ?b then _ else _] => destruct b end;
    reflexivity.
Qed.

Lemma newLap_shape (FormatFloat : float64 -> string) (idElement : string)
  (totalTime : Z) (distMeters calories : string) :
  newLap FormatFloat idElement totalTime distMeters calories
  = mkElement "" "Lap"
      [mkAttr "" "StartTime" (value_of (convertTimestamp idElement 0))]
      [ TElement (textElement "TotalTimeSeconds" (FormatFloat (Seconds totalTime)));
        TElement (textElement "DistanceMeters" distMeters);
        TElement (textElement "Calories" calories);
        TElement (mkElement "" "Intensity" [] [TCharData "Active" false]);
        TElement (mkElement "" "TriggerMethod" [] [TCharData "Manual" false]);
        TElement (mkElement "" "Track" []
          [ TElement (mkElement "" "Trackpoint" []
              [ TElement (textElement "Time" (value_of (convertTimestamp idElement 0)));
                TElement (mkElement "" "DistanceMeters" [] [TCharData "0" false]) ]);
            TElement (mkElement "" "Trackpoint" []
              [ TElement (textElement "Time"
                            (value_of (convertTimestamp idElement totalTime)));
                TElement (textElement "DistanceMeters" distMeters) ]) ]) ].
Proof. reflexivity. Qed.

(** C10, as amended. For a chosen Swim activity whose duration in whole
    seconds has at most 9223372036 in magnitude (the range of a
    [time.Duration], about 292 years), the duration handed to
    [injectActivityTcx] is the millisecond duration divided by 1000 with the
    remainder dropped, as a number of seconds; the value written to
    [TotalTimeSeconds] is the float of that integer, with no fractional
    part; and the [Time] of the end [Trackpoint] is the start plus that many
    whole seconds, written without a fraction of a second. *)
Theorem swim_whole_seconds
  (FormatFloat : float64 -> string) (chosenActivity : Activity)
  (xmlDoc root idEl creator : Element) :
  Z.abs (Z.quot (Duration chosenActivity) 1000) <= 9223372036 ->
  ActivityParentName chosenActivity = "Swim" ->
  select_path activityPath xmlDoc = Some root ->
  has_attr "Sport" root = true ->
  SelectElement "Id" root = Some idEl ->
  SelectElement "Creator" root = Some creator ->
  let q := Z.quot (Duration chosenActivity) 1000 in
  totalTimeOf chosenActivity = q * Second
  /\ Seconds (totalTimeOf chosenActivity) = float64_of_int q
  /\ is_integer (float64_of_int q) q
  /\ whole (float64_of_int q) = true
  /\ exists xmlDoc' events root' lap track tp1 tp2,
       injectChosenActivity FormatFloat chosenActivity xmlDoc = Some (xmlDoc', events)
       /\ select_path activityPath xmlDoc' = Some root'
       /\ SelectElements "Lap" root' = (SelectElements "Lap" root ++ [lap])%list
       /\ child_text "TotalTimeSeconds" lap = Some (FormatFloat (float64_of_int q))
       /\ SelectElements "Track" lap = [track]
       /\ ChildElements track = [tp1; tp2]
       /\ child_text "Time" tp2
          = Some (value_of (convertTimestamp (Text idEl) (q * Second)))
       /\ Forall (fun c => timestamp_char c = true)
            (chars (value_of (convertTimestamp (Text idEl) (q * Second)))).
Proof.
  intros Hq Hname Hp Ha Hid Hcr q.
  assert (T : totalTimeOf chosenActivity = q * Second).
  { unfold totalTimeOf. fold q. apply wrap64_small.
    unfold in_int64, Second. fold q in Hq. lia. }
  destruct (Seconds_whole q Hq) as (A & B & C).
  split; [exact T |]. split; [rewrite T; exact A |]. split; [exact B |].
  split; [exact C |].
  unfold injectChosenActivity. rewrite Hname, T.
  destruct (injectActivityTcx_swim FormatFloat
              ("Swim" ++ "-" ++ Itoa (LogID chosenActivity)) xmlDoc (q * Second)
              (FormatFloat (fmul (Distance chosenActivity) (float64_of_int 1000)))
              (Itoa (Calories chosenActivity)) root idEl creator Hp Ha Hid Hcr)
    as (doc' & root' & E & S & _ & L & _).
  rewrite newLap_shape, A in L.
  exists doc'. eexists. exists root'. eexists. eexists. eexists. eexists.
  split; [exact E |]. split; [exact S |]. split; [exact L |].
  split.
  { unfold child_text, SelectElement. cbn [Child select_first].
    change (tag_matches "TotalTimeSeconds" (textElement "TotalTimeSeconds" ?x)) with true.
    cbn [option_map]. f_equal. apply textElement_Text. reflexivity. }
  split; [reflexivity |]. split; [reflexivity |].
  split.
  { unfold child_text, SelectElement. cbn [Child select_first].
    change (tag_matches "Time" (textElement "Time" ?x)) with true.
    cbn [option_map]. f_equal. apply textElement_Text. reflexivity. }
  apply convertTimestamp_chars.
Qed.

Lemma swim_whole_seconds_witness :
  totalTimeOf (swimActivity 60999) = 60 * Second
  /\ Seconds (totalTimeOf (swimActivity 60999)) = float64_of_int 60
  /\ is_integer (float64_of_int 60) 60
  /\ exists xmlDoc' events,
       injectChosenActivity formatWhole (swimActivity 60999)
         (tcxDocument "Other" "2024-01-01T00:00:00Z")
       = Some (xmlDoc', events).
Proof.
  destruct (swim_whole_seconds formatWhole (swimActivity 60999)
              (tcxDocument "Other" "2024-01-01T00:00:00Z")
              (mkElement "" "Activity" [mkAttr "" "Sport" "Other"]
                 [TElement (mkElement "" "Id" [] [TCharData "2024-01-01T00:00:00Z" false]);
                  TElement (mkElement "" "Creator"
                    [mkAttr "xsi" "type" "Device_t";
                     mkAttr "xmlns" "xsi" "http://www.w3.org/2001/XMLSchema-instance"]
                    [TElement (mkElement "" "UnitId" [] [TCharData "0" false]);
                     TElement (mkElement "" "ProductID" [] [TCharData "0" false])])])
              (mkElement "" "Id" [] [TCharData "2024-01-01T00:00:00Z" false])
              (mkElement "" "Creator"
                 [mkAttr "xsi" "type" "Device_t";
                  mkAttr "xmlns" "xsi" "http://www.w3.org/2001/XMLSchema-instance"]
                 [TElement (mkElement "" "UnitId" [] [TCharData "0" false]);
                  TElement (mkElement "" "ProductID" [] [TCharData "0" false])])
              ltac:(vm_compute; discriminate) eq_refl eq_refl eq_refl eq_refl eq_refl)
    as (T & A & B & _ & d & ev & r & lap & tr & p1 & p2 & E & _).
  split; [exact T |]. split; [exact A |]. split; [exact B |].
  exists d, ev. exact E.
Defined.

(** C10 as stated fails: for a duration of 9223372037000 ms the product
    with [time.Second] leaves the 64-bit range; the duration handed on is
    not a whole number of seconds and the value written to
    [TotalTimeSeconds] has a fractional part. *)
Lemma long_swim_fractional :
  in_int64 (Duration (swimActivity 9223372037000))
  /\ totalTimeOf (swimActivity 9223372037000) = -9223372036709551616
  /\ Z.rem (totalTimeOf (swimActivity 9223372037000)) Second = -709551616
  /\ Seconds (totalTimeOf (swimActivity 9223372037000))
     = S754_finite true 4835703278382377 (-19)
  /\ whole (Seconds (totalTimeOf (swimActivity 9223372037000))) = false.
Proof.
  split; [unfold in_int64; simpl; lia |].
  split; [vm_compute; reflexivity |].
  split; [vm_compute; reflexivity |].
  split; vm_compute; reflexivity.
Qed.

(** * Further properties *)

(** ** The generators *)

Lemma verifier_loop_delivers (n : nat) : forall (r r' : Reader) (v : string),
  verifier_loop n r = (Ok v, r') -> delivers n r.
Proof.
  induction n as [|n IH]; intros r r' v H; [exact I |].
  destruct r as [|[x|e] r]; cbn [verifier_loop rand_Int] in H; try discriminate.
  destruct (char_at rfc3986Chars (x mod len rfc3986Chars)); [| discriminate].
  destruct (verifier_loop n r) as [[w|e] r1] eqn:E; [| discriminate].
  simpl. eapply IH. exact E.
Qed.

(** [generateCodeVerifier] returns a verifier exactly when the length is in
    [[43,128]] and the random source delivers that many draws; a read error
    at one of these draws, the earlier ones delivered, is the error
    returned. *)
Theorem generateCodeVerifier_succeeds_iff (L : Z) (r : Reader) :
  ((exists v, fst (generateCodeVerifier L r) = Ok v)
   <-> 43 <= L <= 128 /\ delivers (Z.to_nat L) r)
  /\ (forall (k : nat) (e : error),
        43 <= L <= 128 -> (k < Z.to_nat L)%nat -> delivers k r ->
        nth_error r k = Some (Err e) ->
        fst (generateCodeVerifier L r) = Err e).
Proof.
  split; [split |].
  - intros [v H]. unfold generateCodeVerifier in H.
    destruct (L <? 43) eqn:E1; [discriminate |].
    destruct (L >? 128) eqn:E2; [discriminate |]. cbn [orb] in H.
    apply Z.ltb_ge in E1. rewrite Z.gtb_ltb in E2. apply Z.ltb_ge in E2.
    split; [lia |].
    destruct (verifier_loop (Z.to_nat L) r) as [res r'] eqn:E. simpl in H. subst res.
    eapply verifier_loop_delivers. exact E.
  - intros [HL Hd]. unfold generateCodeVerifier.
    destruct (L <? 43) eqn:E1; [apply Z.ltb_lt in E1; lia |].
    destruct (L >? 128) eqn:E2; [apply Z.gtb_lt in E2; lia |]. cbn [orb].
    destruct (verifier_loop_ok _ r Hd) as [v [E _]]. exists v. now rewrite E.
  - intros k e HL Hk Hd Hn. unfold generateCodeVerifier.
    destruct (L <? 43) eqn:E1; [apply Z.ltb_lt in E1; lia |].
    destruct (L >? 128) eqn:E2; [apply Z.gtb_lt in E2; lia |]. cbn [orb].
    eapply verifier_loop_err; eassumption.
Qed.

Lemma generateCodeVerifier_succeeds_iff_witness :
  fst (generateCodeVerifier 43 (someDraws 10 ++ [Err "entropy"] ++ someDraws 40)%list)
  = Err "entropy".
Proof.
  apply (proj2 (generateCodeVerifier_succeeds_iff 43
                  (someDraws 10 ++ [Err (errorString "entropy")] ++ someDraws 40)%list)
           10%nat (errorString "entropy")).
  - lia.
  - vm_compute. lia.
  - vm_compute. exact I.
  - reflexivity.
Defined.

Lemma state_loop_delivers (n : nat) : forall (r : Reader) (p : string * Reader),
  state_loop n r = Some p -> delivers n r.
Proof.
  induction n as [|n IH]; intros r p H; [exact I |].
  destruct r as [|[x|e] r]; cbn [state_loop rand_Int] in H; try discriminate.
  destruct (char_at charset (x mod len charset)); [| discriminate].
  destruct (state_loop n r) as [q|] eqn:E; [| discriminate].
  simpl. eapply IH. exact E.
Qed.

(** [generateRandomString] panics exactly when the random source fails
    within the first 32 draws, and then [getAuthURL] panics too: no URL is
    built and no state is stored. *)
Theorem generateRandomString_panics_iff
  (codeChallenge : string) (ouathCfg : Config) (g : Globals) (r : Reader) :
  (generateRandomString g r = None <-> ~ delivers 32 r)
  /\ (getAuthURL codeChallenge ouathCfg g r = None <-> ~ delivers 32 r).
Proof.
  assert (A : generateRandomString g r = None <-> ~ delivers 32 r).
  { split.
    - intros H Hd. destruct (generateRandomString_ok g r Hd) as [st [E _]]. congruence.
    - intros H. unfold generateRandomString.
      destruct (state_loop 32 r) as [p|] eqn:E; [| reflexivity].
      exfalso. apply H. eapply state_loop_delivers. exact E. }
  split; [exact A |]. rewrite <- A. unfold getAuthURL.
  destruct (generateRandomString g r) as [[[st g'] r']|]; split; congruence.
Qed.

Lemma generateRandomString_panics_iff_witness :
  getAuthURL "testCodeChallenge" testConfig noGlobals (someDraws 31) = None.
Proof.
  apply (proj2 (generateRandomString_panics_iff "testCodeChallenge" testConfig
                  noGlobals (someDraws 31))).
  vm_compute. tauto.
Defined.

Lemma be_bytes_length (n : nat) (x : Z) : List.length (Sha256.be_bytes n x) = n.
Proof. induction n as [|n IH]; simpl; [reflexivity | now rewrite IH]. Qed.

Lemma round_length (st : list Z) (kw : Z * Z) :
  List.length st = 8%nat -> List.length (Sha256.round st kw) = 8%nat.
Proof.
  intros H.
  do 8 (destruct st as [|? st]; [discriminate |]).
  destruct st; [reflexivity | discriminate].
Qed.

Lemma rounds_length (kws : list (Z * Z)) : forall st : list Z,
  List.length st = 8%nat -> List.length (fold_left Sha256.round kws st) = 8%nat.
Proof.
  induction kws as [|kw kws IH]; intros st H; simpl; [exact H |].
  apply IH. now apply round_length.
Qed.

Lemma block_length (h blk : list Z) :
  List.length h = 8%nat -> List.length (Sha256.block h blk) = 8%nat.
Proof.
  intros H. unfold Sha256.block.
  rewrite length_map, length_combine, rounds_length by exact H. rewrite H. reflexivity.
Qed.

Lemma blocks_length (n : nat) : forall h bs : list Z,
  List.length h = 8%nat -> List.length (Sha256.blocks n h bs) = 8%nat.
Proof.
  induction n as [|n IH]; intros h bs H; simpl; [exact H |].
  apply IH. now apply block_length.
Qed.

(** A digest has 32 bytes, whatever the message. *)
Lemma Sum256_length (msg : list Z) : List.length (Sha256.Sum256 msg) = 32%nat.
Proof.
  unfold Sha256.Sum256.
  pose proof (blocks_length (List.length (Sha256.pad msg) / 64) Sha256.H0
                (Sha256.pad msg) eq_refl) as H.
  destruct (Sha256.blocks _ _ _) as [|a l]; [discriminate |].
  do 7 (destruct l as [|? l]; [discriminate |]).
  destruct l; [| discriminate]. reflexivity.
Qed.

Lemma enc_in_alphabet (i : Z) : In (Base64.enc i) (chars Base64.encodeURL).
Proof.
  unfold Base64.enc.
  destruct (get_in_range Base64.encodeURL (Z.to_nat (i mod 64))) as [c Hc].
  { assert (0 <= i mod 64 < 64) by (apply Z.mod_pos_bound; lia).
    change (String.length Base64.encodeURL) with 64%nat. lia. }
  rewrite Hc. eapply get_in_chars. exact Hc.
Qed.

Lemma encodeURL_unreserved (c : ascii) :
  In c (chars Base64.encodeURL) -> unreserved c = true.
Proof.
  intros H. apply mem_In in H.
  destruct c as [[] [] [] [] [] [] [] []]; vm_compute in H |- *; congruence.
Qed.

Lemma EncodeToString_chars (src : list Z) :
  Forall (fun c => unreserved c = true) (chars (Base64.EncodeToString src))
  /\ (forall b, Forall (fun c => unreserved c = true)
                  (chars (Base64.EncodeToString (b :: src))))
  /\ (forall a b, Forall (fun c => unreserved c = true)
                    (chars (Base64.EncodeToString (a :: b :: src)))).
Proof.
  induction src as [|x src (A & B & C)].
  - repeat split; intros; cbn [Base64.EncodeToString chars];
      repeat constructor; apply encodeURL_unreserved, enc_in_alphabet.
  - split; [exact (B x) |]. split; [exact (fun b => C b x) |].
    intros a b.
    change (Base64.EncodeToString (a :: b :: x :: src))
      with (let v := (a * 256 + b) * 256 + x in
            String (Base64.enc (Z.shiftr v 18))
              (String (Base64.enc (Z.shiftr v 12))
                 (String (Base64.enc (Z.shiftr v 6))
                    (String (Base64.enc v) (Base64.EncodeToString src))))).
    cbv zeta. cbn [chars].
    do 4 (constructor; [apply encodeURL_unreserved, enc_in_alphabet |]).
    exact A.
Qed.

Lemma QueryEscape_unreserved (s : string) :
  Forall (fun c => unreserved c = true) (chars s) -> QueryEscape s = s.
Proof.
  induction s as [|c s IH]; intros H; [reflexivity |].
  inversion H as [|? ? Hc Hs]; subst. cbn [QueryEscape]. unfold escape_char.
  rewrite Hc, (IH Hs). reflexivity.
Qed.

(** The challenge of a non-empty verifier has exactly 43 characters, all of
    them unreserved, so that URL-encoding leaves it as it is. *)
Theorem generateCodeChallenge_shape (codeVerifier : string) :
  codeVerifier <> "" ->
  exists challenge,
    generateCodeChallenge codeVerifier = Ok challenge
    /\ String.length challenge = 43%nat
    /\ Forall (fun c => unreserved c = true) (chars challenge)
    /\ QueryEscape challenge = challenge.
Proof.
  intros H. unfold generateCodeChallenge.
  destruct (String.eqb_spec codeVerifier ""); [contradiction |].
  eexists. split; [reflexivity |].
  assert (U : Forall (fun c => unreserved c = true)
                (chars (Base64.EncodeToString (Sha256.Sum256 (bytes codeVerifier))))).
  { apply EncodeToString_chars. }
  split; [| split; [exact U | now apply QueryEscape_unreserved]].
  pose proof (Sum256_length (bytes codeVerifier)) as L.
  destruct (Sha256.Sum256 (bytes codeVerifier)) as [|b0 l]; [discriminate |].
  do 31 (destruct l as [|? l]; [discriminate |]).
  destruct l; [| discriminate]. reflexivity.
Qed.

Lemma generateCodeChallenge_shape_witness :
  exists challenge,
    generateCodeChallenge "testverifier" = Ok challenge
    /\ String.length challenge = 43%nat
    /\ Forall (fun c => unreserved c = true) (chars challenge)
    /\ QueryEscape challenge = challenge.
Proof. apply (generateCodeChallenge_shape "testverifier"). discriminate. Defined.

(** ** The scope string *)

Lemma split_absent (sep : ascii) (s : string) :
  Forall (fun c => Ascii.eqb c sep = false) (chars s) -> split sep s = [s].
Proof.
  induction s as [|c s IH]; intros H; [reflexivity |].
  inversion H as [|? ? Hc Hs]; subst. cbn [split]. rewrite Hc, (IH Hs). reflexivity.
Qed.

(** Cutting the scope string at its [+] signs gives the scopes back, when
    there is at least one scope and no scope holds a [+]. *)
Theorem scopeStringBuilder_split (scopes : list string) :
  scopes <> [] ->
  Forall (fun s => Forall (fun c => Ascii.eqb c "+" = false) (chars s)) scopes ->
  split "+" (scopeStringBuilder scopes) = scopes.
Proof.
  intros Hne H. rewrite scopeStringBuilder_concat.
  induction scopes as [|s scopes IH]; [contradiction |].
  inversion H as [|? ? Hs Hrest]; subst.
  destruct scopes as [|s' scopes].
  - cbn [String.concat]. now apply split_absent.
  - change (String.concat "+" (s :: s' :: scopes))
      with (s ++ String "+" (String.concat "+" (s' :: scopes))).
    rewrite split_append, (split_absent "+" s Hs), IH; [reflexivity | discriminate | exact Hrest].
Qed.

Lemma scopeStringBuilder_split_witness :
  split "+" (scopeStringBuilder ["activity"; "heartrate"; "location"; "profile"])
  = ["activity"; "heartrate"; "location"; "profile"].
Proof.
  apply scopeStringBuilder_split; [discriminate |].
  repeat constructor.
Defined.

(** ** The handler over several requests *)

(** What [handleTokenReceived] does depends on [fetchActivityData] exactly
    when the request has a non-empty token and its state equals the stored
    correlation state: only then is the fetch called. *)
Theorem handleTokenReceived_fetch_iff (req : Request) (g : Globals) :
  (exists f1 f2 : Globals -> list Event,
     handleTokenReceived f1 req g <> handleTokenReceived f2 req g)
  <-> Get "token" (Query req) <> "" /\ Get "state" (Query req) = stateAuth g.
Proof.
  unfold handleTokenReceived.
  set (g' := set_stateRedir (Get "state" (Query req))
               (set_token (Get "token" (Query req)) g)).
  change (token g') with (Get "token" (Query req)).
  change (stateAuth g') with (stateAuth g).
  change (stateRedir g') with (Get "state" (Query req)).
  destruct (String.eqb_spec (Get "token" (Query req)) "") as [E | N]; cbn [negb].
  - split; [intros (f1 & f2 & H); now elim H | intros [H _]; contradiction].
  - destruct (String.eqb_spec (stateAuth g) (Get "state" (Query req))) as [E | M].
    + split; [intros _; split; [exact N | now symmetry] |].
      intros _. exists (fun _ => []), (fun _ => [DoneSend]).
      intros H. injection H as H. discriminate H.
    + split; [intros (f1 & f2 & H); now elim H |].
      intros [_ H]. elim M. now symmetry.
Qed.

Lemma serveTokenRequests_keeps (f : Globals -> list Event) (reqs : list Request) :
  forall g : Globals,
  let g' := fst (serveTokenRequests f reqs g) in
  stateAuth g' = stateAuth g
  /\ codeVerifier g' = codeVerifier g
  /\ codeChallenge g' = codeChallenge g.
Proof.
  induction reqs as [|req reqs IH]; intros g; [simpl; auto |].
  cbn [serveTokenRequests].
  destruct (handleTokenReceived f req g) as [g1 ev1] eqn:E1.
  specialize (IH g1).
  destruct (serveTokenRequests f reqs g1) as [g2 ev2]. cbn [fst] in *.
  assert (K : stateAuth g1 = stateAuth g /\ codeVerifier g1 = codeVerifier g
              /\ codeChallenge g1 = codeChallenge g).
  { unfold handleTokenReceived in E1.
    destruct (negb _); [destruct (String.eqb _ _) |]; injection E1 as <- _;
      repeat split. }
  destruct IH as (A & B & C), K as (A' & B' & C').
  repeat split; congruence.
Qed.

Lemma serveTokenRequests_last (f : Globals -> list Event) (reqs : list Request) :
  forall (g : Globals) (req : Request),
  let g' := fst (serveTokenRequests f (reqs ++ [req]) g) in
  token g' = Get "token" (Query req) /\ stateRedir g' = Get "state" (Query req).
Proof.
  induction reqs as [|r reqs IH]; intros g req.
  - cbn [app serveTokenRequests].
    destruct (handleTokenReceived f req g) as [g1 ev1] eqn:E1. cbn [fst].
    unfold handleTokenReceived in E1.
    destruct (negb _); [destruct (String.eqb _ _) |]; injection E1 as <- _;
      split; reflexivity.
  - cbn [app serveTokenRequests].
    destruct (handleTokenReceived f r g) as [g1 ev1].
    specialize (IH g1 req).
    destruct (serveTokenRequests f (reqs ++ [req]) g1) as [g2 ev2]. exact IH.
Qed.

(** Over any requests served in turn, the handler never changes the
    expected correlation state, the verifier or the challenge; the stored
    token and received state are those of the last request, whether it was
    accepted or not. *)
Theorem serveTokenRequests_invariant
  (fetchActivityData : Globals -> list Event) (reqs : list Request)
  (req : Request) (g : Globals) :
  let g' := fst (serveTokenRequests fetchActivityData (reqs ++ [req]) g) in
  stateAuth g' = stateAuth g
  /\ codeVerifier g' = codeVerifier g
  /\ codeChallenge g' = codeChallenge g
  /\ token g' = Get "token" (Query req)
  /\ stateRedir g' = Get "state" (Query req).
Proof.
  intros g'.
  destruct (serveTokenRequests_keeps fetchActivityData (reqs ++ [req]) g) as (A & B & C).
  destruct (serveTokenRequests_last fetchActivityData reqs g req) as (D & E).
  repeat split; assumption.
Qed.

(** An accepted request is accepted again when it is replayed: the handler
    keeps no mark that the handshake is done, and every replay calls the
    fetch once more, on the same package-level variables. *)
Theorem handleTokenReceived_replay
  (fetchActivityData : Globals -> list Event) (req : Request) (g : Globals) (n : nat) :
  Get "token" (Query req) <> "" ->
  Get "state" (Query req) = stateAuth g ->
  let g' := set_stateRedir (Get "state" (Query req))
              (set_token (Get "token" (Query req)) g) in
  serveTokenRequests fetchActivityData (repeat req (S n)) g
  = (g', List.concat (repeat
                   ([ Println ("Access Token: " ++ Get "token" (Query req));
                      ResponseWrite "Token received and printed to the server console.";
                      ResponseWrite "State matches with the one sent in auth URL." ]
                      ++ fetchActivityData g')%list (S n))).
Proof.
  intros Htok Hst g'.
  assert (Once : forall h, token h = Get "token" (Query req) ->
                   stateRedir h = Get "state" (Query req) ->
                   stateAuth h = stateAuth g ->
                   set_stateRedir (Get "state" (Query req))
                     (set_token (Get "token" (Query req)) h) = h).
  { intros [v c a s t] H1 H2 H3. simpl in *. unfold set_stateRedir, set_token.
    simpl. now subst. }
  assert (Step : forall h,
            set_stateRedir (Get "state" (Query req))
              (set_token (Get "token" (Query req)) h) = g' ->
            handleTokenReceived fetchActivityData req h
            = (g', ([ Println ("Access Token: " ++ Get "token" (Query req));
                      ResponseWrite "Token received and printed to the server console.";
                      ResponseWrite "State matches with the one sent in auth URL." ]
                      ++ fetchActivityData g')%list)).
  { intros h Hh. unfold handleTokenReceived. rewrite Hh.
    change (token g') with (Get "token" (Query req)).
    change (stateAuth g') with (stateAuth g).
    change (stateRedir g') with (Get "state" (Query req)).
    destruct (String.eqb_spec (Get "token" (Query req)) ""); [contradiction |].
    cbn [negb]. rewrite Hst, String.eqb_refl. reflexivity. }
  assert (Again : set_stateRedir (Get "state" (Query req))
                    (set_token (Get "token" (Query req)) g') = g').
  { apply Once; reflexivity. }
  assert (Rest : forall k,
            serveTokenRequests fetchActivityData (repeat req k) g'
            = (g', List.concat (repeat
                     ([ Println ("Access Token: " ++ Get "token" (Query req));
                        ResponseWrite "Token received and printed to the server console.";
                        ResponseWrite "State matches with the one sent in auth URL." ]
                        ++ fetchActivityData g')%list k))).
  { induction k as [|k IH]; [reflexivity |].
    cbn [repeat serveTokenRequests List.concat].
    rewrite (Step g' Again), IH. reflexivity. }
  cbn [repeat serveTokenRequests List.concat].
  rewrite (Step g eq_refl), (Rest n). reflexivity.
Qed.

Lemma handleTokenReceived_replay_witness :
  serveTokenRequests markedFetch (repeat (request "tok" "S") 2) waitingGlobals
  = (mkGlobals "verifier" "challenge" "S" "S" "tok",
     [ Println "Access Token: tok";
       ResponseWrite "Token received and printed to the server console.";
       ResponseWrite "State matches with the one sent in auth URL.";
       Println "fetch with tok";
       Println "Access Token: tok";
       ResponseWrite "Token received and printed to the server console.";
       ResponseWrite "State matches with the one sent in auth URL.";
       Println "fetch with tok" ]).
Proof.
  refine (handleTokenReceived_replay markedFetch (request "tok" "S") waitingGlobals 1 _ _).
  - discriminate.
  - reflexivity.
Defined.

(** ** When the transformer completes *)

Lemma edit_first_inv (tag : string) (f : Element -> option Element)
  (ts ts' : list Token) :
  edit_first tag f ts = Some ts' ->
  exists c c', select_first tag ts = Some c /\ f c = Some c'.
Proof.
  revert ts'. induction ts as [|t ts IH]; intros ts' E; [discriminate |].
  destruct t as [e | | | |]; simpl in E |- *;
    try (destruct (edit_first tag f ts) as [r|]; [| discriminate];
         now apply (IH r)).
  destruct (tag_matches tag e).
  - destruct (f e) as [e'|] eqn:Fe; [| discriminate]. now exists e, e'.
  - destruct (edit_first tag f ts) as [r|]; [| discriminate]. now apply (IH r).
Qed.

Lemma edit_path_inv (path : list string) (f : Element -> option Element) :
  forall e e' : Element,
  edit_path path f e = Some e' ->
  exists x y, select_path path e = Some x /\ f x = Some y.
Proof.
  induction path as [|tag path IH]; intros e e' E; simpl in E |- *.
  - now exists e, e'.
  - unfold edit_child in E.
    destruct (edit_first tag (edit_path path f) (Child e)) as [ts'|] eqn:E1;
      [| discriminate].
    destruct (edit_first_inv _ _ _ _ E1) as (c & c' & Sc & Ec).
    destruct (IH c c' Ec) as (x & y & Sx & Fx).
    exists x, y. unfold SelectElement. rewrite Sc. auto.
Qed.

Lemma set_first_attr_inv (space skey value : string) (attrs attrs' : list Attr) :
  set_first_attr space skey value attrs = Some attrs' ->
  existsb (fun a => spaceMatch space (ASpace a) && String.eqb skey (Key a)) attrs = true.
Proof.
  revert attrs'. induction attrs as [|a attrs IH]; intros attrs' H; [discriminate |].
  cbn [set_first_attr] in H. cbn [existsb].
  destruct (spaceMatch space (ASpace a) && String.eqb skey (Key a)); [reflexivity |].
  destruct (set_first_attr space skey value attrs) as [r|]; [| discriminate].
  cbn [orb]. now apply (IH r).
Qed.

Lemma swim_inv (FormatFloat : float64 -> string) (actName : string) (totalTime : Z)
  (distMeters calories : string) (root root' : Element) :
  swim FormatFloat actName totalTime distMeters calories root = Some root' ->
  has_attr "Sport" root = true
  /\ (exists idEl, SelectElement "Id" root = Some idEl)
  /\ (exists creator, SelectElement "Creator" root = Some creator).
Proof.
  intros H. unfold swim, SelectAttr_set_Value in H. unfold has_attr.
  change (spaceDecompose "Sport") with ("", "Sport") in *.
  cbv beta iota in H.
  destruct (set_first_attr "" "Sport" actName (Attrs root)) as [attrs'|] eqn:Ea;
    [| discriminate H].
  change (SelectElement "Id" (set_Attrs attrs' root)) with (SelectElement "Id" root) in H.
  destruct (SelectElement "Id" root) as [idEl|]; [| discriminate H].
  unfold edit_child in H. change (Child (set_Attrs attrs' root)) with (Child root) in H.
  destruct (edit_first "Creator" _ (Child root)) as [ts|] eqn:E;
    [| cbv beta iota in H; discriminate H].
  split; [eapply set_first_attr_inv; exact Ea |].
  split; [now exists idEl |].
  destruct (edit_first_inv _ _ _ _ E) as (c & _ & Sc & _). now exists c.
Qed.

(** A Swim transformation runs to the end exactly when the document has
    the [Activity] element under [TrainingCenterDatabase/Activities], with a
    [Sport] attribute, an [Id] and a [Creator]; without one of them it
    panics on a nil pointer, and nothing is saved. *)
Theorem injectActivityTcx_swim_iff
  (FormatFloat : float64 -> string) (fName : string) (xmlDoc : Element)
  (totalTime : Z) (distMeters calories : string) :
  injectActivityTcx FormatFloat fName xmlDoc "Swim" totalTime distMeters calories <> None
  <-> exists root idEl creator,
        select_path activityPath xmlDoc = Some root
        /\ has_attr "Sport" root = true
        /\ SelectElement "Id" root = Some idEl
        /\ SelectElement "Creator" root = Some creator.
Proof.
  split.
  - intros H. unfold injectActivityTcx in H.
    cbn [String.eqb Ascii.eqb Bool.eqb orb] in H.
    destruct (edit_path activityPath _ xmlDoc) as [doc'|] eqn:E; [| now elim H].
    destruct (edit_path_inv _ _ _ _ E) as (root & root' & Sr & Es).
    destruct (swim_inv _ _ _ _ _ _ _ Es) as (A & [idEl B] & [creator C]).
    now exists root, idEl, creator.
  - intros (root & idEl & creator & Hp & Ha & Hid & Hcr).
    destruct (injectActivityTcx_swim FormatFloat fName xmlDoc totalTime distMeters
                calories root idEl creator Hp Ha Hid Hcr) as (d & r & E & _).
    rewrite E. discriminate.
Qed.

(** A Treadmill or Weights transformation runs to the end exactly when the
    document has the [Creator] element under
    [TrainingCenterDatabase/Activities/Activity].  With any other category
    than these and Swim the transformer never panics and hands the document
    on as it is, to be written and followed by the shutdown. *)
Theorem injectActivityTcx_other_categories
  (FormatFloat : float64 -> string) (fName : string) (xmlDoc : Element)
  (actName : string) (totalTime : Z) (distMeters calories : string) :
  (actName = "Treadmill" \/ actName = "Weights" ->
   (injectActivityTcx FormatFloat fName xmlDoc actName totalTime distMeters calories
    <> None
    <-> select_path (activityPath ++ ["Creator"]) xmlDoc <> None))
  /\ (actName <> "Swim" -> actName <> "Treadmill" -> actName <> "Weights" ->
      injectActivityTcx FormatFloat fName xmlDoc actName totalTime distMeters calories
      = Some (xmlDoc,
              [ PrintXML xmlDoc;
                SaveToFile (fName ++ ".tcx") xmlDoc;
                Println ("Data saved to " ++ fName ++ ".tcx");
                ServerShutdown;
                DoneSend ])).
Proof.
  split.
  - intros Hact. unfold injectActivityTcx.
    replace (String.eqb actName "Swim") with false
      by (destruct Hact; subst; reflexivity).
    replace (String.eqb actName "Treadmill" || String.eqb actName "Weights") with true
      by (destruct Hact; subst; reflexivity).
    split.
    + intros H.
      destruct (edit_path (activityPath ++ ["Creator"]) deviceName xmlDoc)
        as [doc'|] eqn:E; [| now elim H].
      destruct (edit_path_inv _ _ _ _ E) as (x & _ & Sx & _). rewrite Sx. discriminate.
    + intros H.
      destruct (select_path (activityPath ++ ["Creator"]) xmlDoc) as [creator|] eqn:S;
        [| now elim H].
      destruct (edit_path_ok _ deviceName xmlDoc creator _ S eq_refl eq_refl eq_refl)
        as (d & E & _).
      rewrite E. discriminate.
  - intros H1 H2 H3. unfold injectActivityTcx.
    apply String.eqb_neq in H1, H2, H3. rewrite H1, H2, H3. reflexivity.
Qed.

Lemma injectActivityTcx_other_categories_witness :
  injectActivityTcx formatWhole "Weights-7" (mkElement "" "" [] []) "Weights"
    (60 * Second) "0" "80" = None
  /\ exists events,
       injectActivityTcx formatWhole "Walk-7" (mkElement "" "" [] []) "Walk"
         (60 * Second) "0" "80"
       = Some (mkElement "" "" [] [], events).
Proof.
  split.
  - destruct (injectActivityTcx formatWhole "Weights-7" (mkElement "" "" [] [])
                "Weights" (60 * Second) "0" "80") eqn:E; [| reflexivity].
    exfalso.
    refine (proj1 (proj1 (injectActivityTcx_other_categories formatWhole "Weights-7"
                            (mkElement "" "" [] []) "Weights" (60 * Second) "0" "80")
                     (or_intror eq_refl)) _ eq_refl).
    rewrite E. discriminate.
  - eexists.
    apply (proj2 (injectActivityTcx_other_categories formatWhole "Walk-7"
                    (mkElement "" "" [] []) "Walk" (60 * Second) "0" "80"));
      discriminate.
Defined.

(** ** What the Swim branch adds, and what it leaves *)

Lemma count_textElement (t tag text : string) :
  spaceDecompose tag = ("", tag) ->
  count_tag t (textElement tag text) = (if String.eqb tag t then 1 else 0)%nat.
Proof.
  intros H. rewrite (proj1 (textElement_Text tag text H)), count_tag_eq.
  cbn [Tag Child]. destruct (String.eqb text ""); cbn [count_tokens]; lia.
Qed.

Lemma count_newLap (FormatFloat : float64 -> string) (idElement : string)
  (totalTime : Z) (distMeters calories t : string) :
  (count_tag t (textElement "Name" "Fitbit")
   + count_tag t (newLap FormatFloat idElement totalTime distMeters calories))%nat
  = occurrences t swimTags.
Proof.
  rewrite newLap_shape.
  repeat match goal with
         | |- context [count_tag t (mkElement ?a ?b ?c ?d)] =>
             rewrite (count_tag_eq t (mkElement a b c d));
             cbn [Tag Child count_tokens]
         end.
  rewrite !count_textElement by reflexivity.
  unfold swimTags. cbn [occurrences]. lia.
Qed.

Lemma select_first_app (tag : string) (ts l : list Token) (c : Element) :
  select_first tag ts = Some c -> select_first tag (ts ++ l) = Some c.
Proof.
  induction ts as [|[e | | | |] ts IH]; simpl; try assumption; [discriminate |].
  destruct (tag_matches tag e); [auto | exact IH].
Qed.

Lemma set_first_attr_has (space skey value : string) (attrs attrs' : list Attr) :
  set_first_attr space skey value attrs = Some attrs' ->
  existsb (fun a => spaceMatch space (ASpace a) && String.eqb skey (Key a)) attrs' = true.
Proof.
  revert attrs'. induction attrs as [|a attrs IH]; intros attrs' H; [discriminate |].
  cbn [set_first_attr] in H.
  destruct (spaceMatch space (ASpace a) && String.eqb skey (Key a)) eqn:M.
  - injection H as <-. cbn [existsb ASpace Key]. now rewrite M.
  - destruct (set_first_attr space skey value attrs) as [r|]; [| discriminate].
    injection H as <-. cbn [existsb]. rewrite M. cbn [orb]. now apply IH.
Qed.

(** The Swim edits on the [Activity] element, in full: what is added and
    what stays. *)
Lemma swim_frame (FormatFloat : float64 -> string) (actName : string) (totalTime : Z)
  (distMeters calories : string) (root idEl creator : Element) :
  has_attr "Sport" root = true ->
  SelectElement "Id" root = Some idEl ->
  SelectElement "Creator" root = Some creator ->
  exists root',
    swim FormatFloat actName totalTime distMeters calories root = Some root'
    /\ Space root' = Space root /\ Tag root' = Tag root
    /\ has_attr "Sport" root' = true
    /\ SelectElement "Id" root' = Some idEl
    /\ SelectElement "Creator" root'
       = Some (AddChild (TElement (textElement "Name" "Fitbit")) creator)
    /\ SelectElements "Lap" root'
       = (SelectElements "Lap" root
            ++ [newLap FormatFloat (Text idEl) totalTime distMeters calories])%list
    /\ (forall t, count_tag t root' = (count_tag t root + occurrences t swimTags)%nat).
Proof.
  intros Ha Hid Hcr. unfold swim, SelectAttr_set_Value.
  unfold has_attr in Ha. change (spaceDecompose "Sport") with ("", "Sport") in *.
  destruct (set_first_attr_ok "" "Sport" actName (Attrs root) Ha) as [attrs' Ea].
  rewrite Ea.
  change (SelectElement "Id" (set_Attrs attrs' root)) with (SelectElement "Id" root).
  rewrite Hid.
  set (addName := fun creatorElement : Element =>
         Some (AddChild (TElement (textElement "Name" "Fitbit")) creatorElement)).
  destruct (edit_first_ok "Creator" addName (Child root) creator _ Hcr eq_refl
              eq_refl eq_refl) as [ts [E S]].
  unfold edit_child. change (Child (set_Attrs attrs' root)) with (Child root).
  rewrite E. eexists. split; [reflexivity |].
  assert (P : forall c c' : Element, addName c = Some c' ->
                Space c' = Space c /\ Tag c' = Tag c).
  { intros c c' H. unfold addName in H. injection H as <-. auto. }
  assert (Q : forall tag2, spaceDecompose tag2 = ("", tag2) -> tag2 <> "Creator" ->
                forall c, tag_matches "Creator" c = true ->
                          tag_matches tag2 c = false).
  { intros tag2 D Hne c. rewrite (tag_matches_plain tag2 c D).
    rewrite tag_matches_plain by reflexivity.
    intros H. apply String.eqb_eq in H. rewrite <- H. now apply String.eqb_neq. }
  destruct (edit_first_others "Creator" "Id" addName _ _ E P
              (Q "Id" eq_refl ltac:(discriminate))) as [_ SI].
  destruct (edit_first_others "Creator" "Lap" addName _ _ E P
              (Q "Lap" eq_refl ltac:(discriminate))) as [SL _].
  split; [reflexivity |]. split; [reflexivity |].
  split; [unfold has_attr; change (spaceDecompose "Sport") with ("", "Sport");
          eapply set_first_attr_has; exact Ea |].
  split.
  { unfold SelectElement. cbn [Child AddChild set_Child].
    apply select_first_app. rewrite SI. exact Hid. }
  split.
  { unfold SelectElement. cbn [Child AddChild set_Child].
    apply select_first_app. exact S. }
  split.
  { unfold SelectElements. cbn [Child AddChild set_Child].
    rewrite select_all_app, SL. reflexivity. }
  intros t. rewrite count_AddChild, !count_tag_eq. cbn [Tag Child set_Child set_Attrs].
  rewrite (count_edit_first "Creator" t addName
             (count_tag t (textElement "Name" "Fitbit")) (Child root) ts).
  - rewrite <- (count_newLap FormatFloat (Text idEl) totalTime distMeters calories t).
    rewrite <- count_tag_eq. lia.
  - intros c c' H. unfold addName in H. injection H as <-. apply count_AddChild.
  - exact E.
Qed.

Lemma select_path_app (p : list string) (tag : string) : forall e x c : Element,
  select_path p e = Some x -> SelectElement tag x = Some c ->
  select_path (p ++ [tag]) e = Some c.
Proof.
  induction p as [|t p IH]; intros e x c S H; simpl in *.
  - injection S as ->. now rewrite H.
  - destruct (SelectElement t e) as [y|]; [| discriminate]. now apply (IH y x).
Qed.

(** [injectActivityTcx] on category Swim, in full. *)
Lemma injectActivityTcx_swim_frame (FormatFloat : float64 -> string) (fName : string)
  (xmlDoc : Element) (totalTime : Z) (distMeters calories : string)
  (root idEl creator : Element) :
  select_path activityPath xmlDoc = Some root ->
  has_attr "Sport" root = true ->
  SelectElement "Id" root = Some idEl ->
  SelectElement "Creator" root = Some creator ->
  exists xmlDoc' root',
    injectActivityTcx FormatFloat fName xmlDoc "Swim" totalTime distMeters calories
    = Some (xmlDoc',
            [ PrintXML xmlDoc';
              SaveToFile (fName ++ ".tcx") xmlDoc';
              Println ("Data saved to " ++ fName ++ ".tcx");
              ServerShutdown;
              DoneSend ])
    /\ select_path activityPath xmlDoc' = Some root'
    /\ has_attr "Sport" root' = true
    /\ SelectElement "Id" root' = Some idEl
    /\ SelectElement "Creator" root'
       = Some (AddChild (TElement (textElement "Name" "Fitbit")) creator)
    /\ SelectElements "Lap" root'
       = (SelectElements "Lap" root
            ++ [newLap FormatFloat (Text idEl) totalTime distMeters calories])%list
    /\ (forall t, count_tag t xmlDoc' = (count_tag t xmlDoc + occurrences t swimTags)%nat).
Proof.
  intros Hp Ha Hid Hcr.
  destruct (swim_frame FormatFloat "Swim" totalTime distMeters calories root idEl
              creator Ha Hid Hcr)
    as (root' & Es & Hs & Ht & HA & HI & HC & HL & Hc).
  destruct (edit_path_ok activityPath _ xmlDoc root root' Hp Es Hs Ht)
    as (doc' & E & S & _).
  exists doc', root'. split.
  { unfold injectActivityTcx. cbn [String.eqb Ascii.eqb Bool.eqb orb]. rewrite E.
    reflexivity. }
  repeat (split; [assumption |]).
  intros t. eapply count_edit_path; [| exact E].
  intros c c' H.
  destruct (swim_inv _ _ _ _ _ _ _ H) as (A & [i B] & [cr C]).
  destruct (swim_frame FormatFloat "Swim" totalTime distMeters calories c i cr
              A B C) as (r & Er & _ & _ & _ & _ & _ & _ & Hr).
  rewrite H in Er. injection Er as <-. apply Hr.
Qed.

(** On a document that has the [Activity] element with its [Sport]
    attribute, [Id] and [Creator], the Swim transformation adds exactly
    fourteen elements, a [Name] and a [Lap] with its fields, track and two
    points, and no other; the [Id] stays as it is. *)
Theorem injectActivityTcx_swim_adds
  (FormatFloat : float64 -> string) (fName : string) (xmlDoc : Element)
  (totalTime : Z) (distMeters calories : string) (root idEl creator : Element) :
  select_path activityPath xmlDoc = Some root ->
  has_attr "Sport" root = true ->
  SelectElement "Id" root = Some idEl ->
  SelectElement "Creator" root = Some creator ->
  exists xmlDoc' events,
    injectActivityTcx FormatFloat fName xmlDoc "Swim" totalTime distMeters calories
    = Some (xmlDoc', events)
    /\ select_path (activityPath ++ ["Id"]) xmlDoc' = Some idEl
    /\ (forall t, count_tag t xmlDoc' = (count_tag t xmlDoc + occurrences t swimTags)%nat)
    /\ List.length swimTags = 14%nat.
Proof.
  intros Hp Ha Hid Hcr.
  destruct (injectActivityTcx_swim_frame FormatFloat fName xmlDoc totalTime distMeters
              calories root idEl creator Hp Ha Hid Hcr)
    as (doc' & root' & E & S & _ & HI & _ & _ & Hc).
  exists doc'. eexists. split; [exact E |].
  split; [eapply select_path_app; eassumption |]. split; [exact Hc | reflexivity].
Qed.

Lemma injectActivityTcx_swim_adds_witness :
  exists xmlDoc' events,
    injectActivityTcx formatWhole "Swim-7" (tcxDocument "Other" "2024-01-01T00:00:00Z")
      "Swim" (60 * Second) "1000" "80"
    = Some (xmlDoc', events)
    /\ count_tag "DistanceMeters" xmlDoc' = 3%nat
    /\ count_tag "UnitId" xmlDoc' = 1%nat.
Proof.
  destruct (injectActivityTcx_swim_adds formatWhole "Swim-7"
              (tcxDocument "Other" "2024-01-01T00:00:00Z") (60 * Second) "1000" "80"
              (mkElement "" "Activity" [mkAttr "" "Sport" "Other"]
                 [TElement (mkElement "" "Id" [] [TCharData "2024-01-01T00:00:00Z" false]);
                  TElement (mkElement "" "Creator"
                    [mkAttr "xsi" "type" "Device_t";
                     mkAttr "xmlns" "xsi" "http://www.w3.org/2001/XMLSchema-instance"]
                    [TElement (mkElement "" "UnitId" [] [TCharData "0" false]);
                     TElement (mkElement "" "ProductID" [] [TCharData "0" false])])])
              (mkElement "" "Id" [] [TCharData "2024-01-01T00:00:00Z" false])
              (mkElement "" "Creator"
                 [mkAttr "xsi" "type" "Device_t";
                  mkAttr "xmlns" "xsi" "http://www.w3.org/2001/XMLSchema-instance"]
                 [TElement (mkElement "" "UnitId" [] [TCharData "0" false]);
                  TElement (mkElement "" "ProductID" [] [TCharData "0" false])])
              eq_refl eq_refl eq_refl eq_refl)
    as (d & ev & E & _ & C & _).
  exists d, ev. split; [exact E |]. split; rewrite C; reflexivity.
Defined.


(** The Swim transformation is not idempotent: run again on its own
    result, with the same arguments, it completes again and adds the same
    fourteen elements a second time; the [Activity] element then ends with
    two equal [Lap]s. *)
Theorem injectActivityTcx_swim_twice
  (FormatFloat : float64 -> string) (fName : string) (xmlDoc : Element)
  (totalTime : Z) (distMeters calories : string) (root idEl creator : Element) :
  select_path activityPath xmlDoc = Some root ->
  has_attr "Sport" root = true ->
  SelectElement "Id" root = Some idEl ->
  SelectElement "Creator" root = Some creator ->
  exists doc1 events1 doc2 events2 root2,
    injectActivityTcx FormatFloat fName xmlDoc "Swim" totalTime distMeters calories
    = Some (doc1, events1)
    /\ injectActivityTcx FormatFloat fName doc1 "Swim" totalTime distMeters calories
       = Some (doc2, events2)
    /\ select_path activityPath doc2 = Some root2
    /\ SelectElements "Lap" root2
       = (SelectElements "Lap" root
            ++ [ newLap FormatFloat (Text idEl) totalTime distMeters calories;
                 newLap FormatFloat (Text idEl) totalTime distMeters calories ])%list
    /\ (forall t, count_tag t doc2
                  = (count_tag t xmlDoc + 2 * occurrences t swimTags)%nat).
Proof.
  intros Hp Ha Hid Hcr.
  destruct (injectActivityTcx_swim_frame FormatFloat fName xmlDoc totalTime distMeters
              calories root idEl creator Hp Ha Hid Hcr)
    as (doc1 & root1 & E1 & S1 & A1 & I1 & C1 & L1 & N1).
  destruct (injectActivityTcx_swim_frame FormatFloat fName doc1 totalTime distMeters
              calories root1 idEl _ S1 A1 I1 C1)
    as (doc2 & root2 & E2 & S2 & _ & _ & _ & L2 & N2).
  exists doc1. eexists. exists doc2. eexists. exists root2.
  split; [exact E1 |]. split; [exact E2 |]. split; [exact S2 |]. split.
  - rewrite L2, L1, <- app_assoc. reflexivity.
  - intros t. rewrite N2, N1. lia.
Qed.

Lemma injectActivityTcx_swim_twice_witness :
  exists doc1 events1 doc2 events2,
    injectActivityTcx formatWhole "Swim-7" (tcxDocument "Other" "2024-01-01T00:00:00Z")
      "Swim" (60 * Second) "1000" "80"
    = Some (doc1, events1)
    /\ injectActivityTcx formatWhole "Swim-7" doc1 "Swim" (60 * Second) "1000" "80"
       = Some (doc2, events2)
    /\ count_tag "Lap" doc2 = 2%nat.
Proof.
  destruct (injectActivityTcx_swim_twice formatWhole "Swim-7"
              (tcxDocument "Other" "2024-01-01T00:00:00Z") (60 * Second) "1000" "80"
              (mkElement "" "Activity" [mkAttr "" "Sport" "Other"]
                 [TElement (mkElement "" "Id" [] [TCharData "2024-01-01T00:00:00Z" false]);
                  TElement (mkElement "" "Creator"
                    [mkAttr "xsi" "type" "Device_t";
                     mkAttr "xmlns" "xsi" "http://www.w3.org/2001/XMLSchema-instance"]
                    [TElement (mkElement "" "UnitId" [] [TCharData "0" false]);
                     TElement (mkElement "" "ProductID" [] [TCharData "0" false])])])
              (mkElement "" "Id" [] [TCharData "2024-01-01T00:00:00Z" false])
              (mkElement "" "Creator"
                 [mkAttr "xsi" "type" "Device_t";
                  mkAttr "xmlns" "xsi" "http://www.w3.org/2001/XMLSchema-instance"]
                 [TElement (mkElement "" "UnitId" [] [TCharData "0" false]);
                  TElement (mkElement "" "ProductID" [] [TCharData "0" false])])
              eq_refl eq_refl eq_refl eq_refl)
    as (d1 & e1 & d2 & e2 & r2 & E1 & E2 & _ & _ & C).
  exists d1, e1, d2, e2. split; [exact E1 |]. split; [exact E2 |].
  rewrite C. reflexivity.
Defined.

(** ** The calendar *)

Lemma all_range_spec (f : Z -> bool) (fuel : nat) : forall lo len : Z,
  all_range fuel lo len f = true ->
  forall z, lo <= z < lo + len -> f z = true.
Proof.
  induction fuel as [|fuel IH]; intros lo len H z Hz; cbn [all_range] in H.
  - apply orb_prop in H. destruct H as [H | H]; [apply Z.leb_le in H; lia |].
    apply andb_prop in H. destruct H as [H1 H2]. apply Z.eqb_eq in H1.
    replace z with lo by lia. exact H2.
  - destruct (Z.leb_spec len 1) as [L | L].
    + apply orb_prop in H. destruct H as [H | H]; [apply Z.leb_le in H; lia |].
      replace z with lo by lia. exact H.
    + apply andb_prop in H. destruct H as [H1 H2].
      assert (0 <= len / 2 <= len) by (split; Z.div_mod_to_equations; lia).
      destruct (Z_lt_le_dec z (lo + len / 2)).
      * apply (IH _ _ H1). lia.
      * apply (IH _ _ H2). lia.
Qed.

(** the year of the era, counted from March, of a day of the era *)
Lemma year_of_era (doe : Z) :
  0 <= doe <= 146096 ->
  let yoe := (doe - doe / 1460 + doe / 36524 - doe / 146096) / 365 in
  0 <= yoe <= 399
  /\ 365 * yoe + yoe / 4 - yoe / 100 <= doe
  /\ doe < 365 * (yoe + 1) + (yoe + 1) / 4 - (yoe + 1) / 100 + (yoe + 1) / 400.
Proof. intros H yoe. subst yoe. Z.div_mod_to_equations. lia. Qed.

Lemma isLeap_spec (y : Z) :
  (if isLeap y then 1 else 0)
  = (y / 4 - (y - 1) / 4) - (y / 100 - (y - 1) / 100) + (y / 400 - (y - 1) / 400).
Proof.
  unfold isLeap.
  destruct (Z.eqb_spec (y mod 4) 0), (Z.eqb_spec (y mod 100) 0),
    (Z.eqb_spec (y mod 400) 0); cbn [andb orb negb];
    Z.div_mod_to_equations; lia.
Qed.

Lemma civil_from_days_spec (days : Z) :
  let '(y, m, d) := civil_from_days days in
  days_from_civil y m d = days /\ 1 <= m <= 12 /\ 1 <= d <= daysIn m y.
Proof.
  unfold civil_from_days.
  set (z := days + 719468). set (era := z / 146097).
  set (doe := z - era * 146097).
  assert (Hdoe : 0 <= doe <= 146096) by (subst doe era; Z.div_mod_to_equations; lia).
  pose proof (year_of_era doe Hdoe) as Hy. cbv zeta in Hy.
  set (yoe := (doe - doe / 1460 + doe / 36524 - doe / 146096) / 365) in *.
  destruct Hy as (Hyoe & Hlo & Hhi).
  set (doy := doe - (365 * yoe + yoe / 4 - yoe / 100)).
  assert (Hdoy : 0 <= doy <= 365) by (subst doy; Z.div_mod_to_equations; lia).
  set (mp := (5 * doy + 2) / 153).
  assert (Hmp : 0 <= mp <= 11) by (subst mp; Z.div_mod_to_equations; lia).
  assert (Hm : (153 * mp + 2) / 5 <= doy < (153 * (mp + 1) + 2) / 5).
  { subst mp. Z.div_mod_to_equations. lia. }
  set (y0 := yoe + era * 400).
  pose proof (isLeap_spec (y0 + 1)) as HL.
  assert (Hfeb : doy <= 364 + (if isLeap (y0 + 1) then 1 else 0)).
  { rewrite HL. subst doy y0. Z.div_mod_to_equations. lia. }
  assert (Cases : mp = 0 \/ mp = 1 \/ mp = 2 \/ mp = 3 \/ mp = 4 \/ mp = 5 \/ mp = 6
                  \/ mp = 7 \/ mp = 8 \/ mp = 9 \/ mp = 10 \/ mp = 11) by lia.
  assert (Back : forall m d c,
            (c = 0 /\ 3 <= m <= 12 /\ mp = m - 3 \/ c = 1 /\ 1 <= m <= 2 /\ mp = m + 9) ->
            d = doy - (153 * mp + 2) / 5 + 1 ->
            days_from_civil (y0 + c) m d = days).
  { intros m d c Hc Hd. unfold days_from_civil.
    assert ((if m <=? 2 then y0 + c - 1 else y0 + c) = y0) as ->.
    { destruct (Z.leb_spec m 2); lia. }
    assert ((if m >? 2 then m - 3 else m + 9) = mp) as ->.
    { rewrite Z.gtb_ltb. destruct (Z.ltb_spec 2 m); lia. }
    assert (E1 : y0 / 400 = era) by (subst y0; Z.div_mod_to_equations; lia).
    rewrite E1. replace (y0 - era * 400) with yoe by (subst y0; lia).
    subst d doy doe z. lia. }
  assert (Hd31 : 1 <= doy - (153 * mp + 2) / 5 + 1 <= 31).
  { Z.div_mod_to_equations. lia. }
  assert (Hd30 : mp = 1 \/ mp = 3 \/ mp = 6 \/ mp = 8 ->
                 doy - (153 * mp + 2) / 5 + 1 <= 30).
  { intros [-> | [-> | [-> | ->]]]; Z.div_mod_to_equations; lia. }
  assert (Hd29 : mp = 11 ->
                 doy - (153 * mp + 2) / 5 + 1
                 <= 28 + (if isLeap (y0 + 1) then 1 else 0)).
  { intros ->. change ((153 * 11 + 2) / 5) with 337. lia. }
  fold y0.
  destruct (Z.ltb_spec mp 10) as [L | L].
  - replace (mp + 3 <=? 2) with false by (symmetry; apply Z.leb_gt; lia).
    split; [rewrite <- (Z.add_0_r y0); apply Back; [left; lia | reflexivity] |].
    split; [lia |]. split; [lia |].
    unfold daysIn.
    destruct (Z.eqb_spec (mp + 3) 2); [lia |].
    destruct (Z.eqb_spec (mp + 3) 4); [cbn [orb]; apply Hd30; lia |].
    destruct (Z.eqb_spec (mp + 3) 6); [cbn [orb]; apply Hd30; lia |].
    destruct (Z.eqb_spec (mp + 3) 9); [cbn [orb]; apply Hd30; lia |].
    destruct (Z.eqb_spec (mp + 3) 11); [cbn [orb]; apply Hd30; lia |].
    cbn [orb]. lia.
  - replace (mp - 9 <=? 2) with true by (symmetry; apply Z.leb_le; lia).
    split; [apply Back; [right; lia | reflexivity] |].
    split; [lia |]. split; [lia |].
    unfold daysIn.
    destruct (Z.eqb_spec (mp - 9) 2) as [E | E].
    + assert (mp = 11) by lia. specialize (Hd29 H).
      destruct (isLeap (y0 + 1)); lia.
    + destruct (Z.eqb_spec (mp - 9) 4); [lia |].
      destruct (Z.eqb_spec (mp - 9) 6); [lia |].
      destruct (Z.eqb_spec (mp - 9) 9); [lia |].
      destruct (Z.eqb_spec (mp - 9) 11); [lia |].
      cbn [orb]. lia.
Qed.

Lemma civil_year_range (days : Z) :
  -719528 <= days <= 2932896 ->
  0 <= fst (fst (civil_from_days days)) <= 9999.
Proof.
  intros H. unfold civil_from_days.
  set (z := days + 719468). set (era := z / 146097).
  set (doe := z - era * 146097).
  assert (Hdoe : 0 <= doe <= 146096) by (subst doe era; Z.div_mod_to_equations; lia).
  pose proof (year_of_era doe Hdoe) as Hy. cbv zeta in Hy.
  set (yoe := (doe - doe / 1460 + doe / 36524 - doe / 146096) / 365) in *.
  destruct Hy as (Hyoe & Hlo & Hhi).
  set (doy := doe - (365 * yoe + yoe / 4 - yoe / 100)).
  assert (Hdoy : 0 <= doy <= 365) by (subst doy; Z.div_mod_to_equations; lia).
  set (mp := (5 * doy + 2) / 153).
  assert (Hera : -1 <= era <= 24) by (subst era z; Z.div_mod_to_equations; lia).
  assert (Hfirst : era = -1 -> yoe = 399 /\ 10 <= mp).
  { intros E. assert (146037 <= doe) by (subst doe z; lia).
    assert (yoe = 399) by (Z.div_mod_to_equations; lia).
    split; [assumption |]. subst mp doy. Z.div_mod_to_equations. lia. }
  assert (Hlast : era = 24 -> yoe = 399 -> mp < 10).
  { intros E Y. assert (doe <= 146036) by (subst doe z; lia).
    subst mp doy. Z.div_mod_to_equations. lia. }
  assert (Hmp : 0 <= mp <= 11) by (subst mp; Z.div_mod_to_equations; lia).
  cbn [fst]. clearbody mp doy yoe doe era z.
  destruct (Z.ltb_spec mp 10) as [L | L].
  - replace (mp + 3 <=? 2) with false by (symmetry; apply Z.leb_gt; lia).
    destruct (Z.eq_dec era (-1)) as [E | E]; [destruct (Hfirst E); lia | lia].
  - replace (mp - 9 <=? 2) with true by (symmetry; apply Z.leb_le; lia).
    destruct (Z.eq_dec era 24) as [E | E]; [| lia].
    destruct (Z.eq_dec yoe 399) as [Y | Y]; [specialize (Hlast E Y); lia | lia].
Qed.

Lemma two_digits_all : all_range 7 0 100 two_digits = true.
Proof. vm_compute. reflexivity. Qed.

Lemma four_digits_all : all_range 14 0 10000 four_digits = true.
Proof. vm_compute. reflexivity. Qed.

Lemma appendInt_two (n : Z) :
  0 <= n < 100 ->
  exists c0 c1, appendInt n 2 = String c0 (String c1 "")
                /\ isDigitC c0 = true /\ isDigitC c1 = true
                /\ digit c0 * 10 + digit c1 = n.
Proof.
  intros H. pose proof (all_range_spec two_digits _ _ _ two_digits_all n H) as T.
  unfold two_digits in T.
  destruct (appendInt n 2) as [|c0 [|c1 [|? ?]]]; try discriminate T.
  apply andb_prop in T. destruct T as [T T3]. apply andb_prop in T. destruct T as [T1 T2].
  apply Z.eqb_eq in T3. now exists c0, c1.
Qed.

Lemma appendInt_four (n : Z) :
  0 <= n < 10000 ->
  exists c0 c1 c2 c3,
    appendInt n 4 = String c0 (String c1 (String c2 (String c3 "")))
    /\ isDigitC c0 = true /\ isDigitC c1 = true /\ isDigitC c2 = true
    /\ isDigitC c3 = true
    /\ ((digit c0 * 10 + digit c1) * 10 + digit c2) * 10 + digit c3 = n.
Proof.
  intros H. pose proof (all_range_spec four_digits _ _ _ four_digits_all n H) as T.
  unfold four_digits in T.
  destruct (appendInt n 4) as [|c0 [|c1 [|c2 [|c3 [|? ?]]]]]; try discriminate T.
  apply andb_prop in T. destruct T as [T T5]. apply andb_prop in T. destruct T as [T T4].
  apply andb_prop in T. destruct T as [T T3]. apply andb_prop in T. destruct T as [T1 T2].
  apply Z.eqb_eq in T5. exists c0, c1, c2, c3. repeat split; assumption.
Qed.

(** ** Reading back a formatted time *)

Arguments GoTime.digit : simpl never.

Lemma atoi_four_value (y1 y2 y3 y4 : ascii) :
  isDigitC y1 = true -> isDigitC y2 = true -> isDigitC y3 = true ->
  isDigitC y4 = true ->
  atoi (String y1 (String y2 (String y3 (String y4 ""))))
  = Some (((digit y1 * 10 + digit y2) * 10 + digit y3) * 10 + digit y4).
Proof.
  intros H1 H2 H3 H4. unfold atoi.
  destruct (digit_not_sign y1 H1) as [E1 E2]. rewrite E1, E2.
  cbn [leadingInt]. rewrite H1, H2, H3, H4. cbn [Z.mul Z.add]. reflexivity.
Qed.

Lemma number_ok (av std : string) (fixed : bool) (rng : Z -> bool) (what : string)
  (c0 c1 : ascii) (rest : string) :
  isDigitC c0 = true -> isDigitC c1 = true ->
  rng (digit c0 * 10 + digit c1) = true ->
  number av std fixed rng what (String c0 (String c1 rest))
  = inl (digit c0 * 10 + digit c1, rest).
Proof.
  intros H0 H1 Hr. unfold number, getnum. rewrite H0, H1, Hr. reflexivity.
Qed.

Lemma skip_ok (av : string) (c : ascii) (rest : string) :
  skip av c (String c rest) = inl rest.
Proof. unfold skip. now rewrite Ascii.eqb_refl. Qed.

(** A timestamp in the form that [Format] writes for UTC is read as the
    time of its fields. *)
Lemma Parse_canonical (y1 y2 y3 y4 m1 m2 d1 d2 h1 h2 i1 i2 s1 s2 : ascii) :
  let year := ((digit y1 * 10 + digit y2) * 10 + digit y3) * 10 + digit y4 in
  let month := digit m1 * 10 + digit m2 in
  let day := digit d1 * 10 + digit d2 in
  let hour := digit h1 * 10 + digit h2 in
  let min := digit i1 * 10 + digit i2 in
  let sec := digit s1 * 10 + digit s2 in
  isDigitC y1 = true -> isDigitC y2 = true -> isDigitC y3 = true ->
  isDigitC y4 = true -> isDigitC m1 = true -> isDigitC m2 = true ->
  isDigitC d1 = true -> isDigitC d2 = true -> isDigitC h1 = true ->
  isDigitC h2 = true -> isDigitC i1 = true -> isDigitC i2 = true ->
  isDigitC s1 = true -> isDigitC s2 = true ->
  1 <= month <= 12 -> 1 <= day <= daysIn month year ->
  hour < 24 -> min < 60 -> sec < 60 ->
  Parse (String y1 (String y2 (String y3 (String y4 (String "-"
          (String m1 (String m2 (String "-" (String d1 (String d2 (String "T"
          (String h1 (String h2 (String ":" (String i1 (String i2 (String ":"
          (String s1 (String s2 "Z")))))))))))))))))))
  = inl (mkTime (unixSec (Date year month day hour min sec 0) - 0)
           (nsec (Date year month day hour min sec 0)) 0).
Proof.
  intros year month day hour min sec
    Hy1 Hy2 Hy3 Hy4 Hm1 Hm2 Hd1 Hd2 Hh1 Hh2 Hi1 Hi2 Hs1 Hs2 Rm Rd Rh Ri Rs.
  unfold Parse.
  match goal with |- context [Parse] => idtac | |- _ => idtac end.
  set (av := String y1 _).
  replace ((String.length av <? 4)%nat || negb (isDigit av 0)) with false
    by (unfold isDigit; cbn; now rewrite Hy1).
  replace (atoi (substring 0 4 av)) with (Some year)
    by (symmetry; subst av; cbn [substring]; now apply atoi_four_value).
  rewrite substring_drop by (subst av; cbn [String.length]; lia).
  unfold av at 2. cbn [drop]. fold av.
  rewrite skip_ok, number_ok; try assumption;
    [| fold month; apply andb_true_intro; split;
       [apply Z.ltb_lt | apply Z.leb_le]; lia].
  cbv beta iota. fold month.
  rewrite skip_ok, number_ok; try assumption; [| reflexivity].
  cbv beta iota. fold day.
  rewrite skip_ok, number_ok; try assumption; [| fold hour; apply Z.ltb_lt; lia].
  cbv beta iota. fold hour.
  rewrite skip_ok, number_ok; try assumption; [| fold min; apply Z.ltb_lt; lia].
  cbv beta iota. fold min.
  rewrite skip_ok, number_ok; try assumption; [| fold sec; apply Z.ltb_lt; lia].
  cbv beta iota. fold sec.
  change (fraction av "Z") with (@inl (Z * string) ParseError (0, "Z")).
  cbv beta iota.
  change (zone av "Z") with (@inl (Z * string) ParseError (0, "")).
  cbv beta iota. cbn [String.eqb negb].
  replace ((day <? 1) || (day >? daysIn month year)) with false; [reflexivity |].
  symmetry. apply orb_false_intro; [apply Z.ltb_ge; lia |].
  rewrite Z.gtb_ltb. apply Z.ltb_ge. lia.
Qed.

Lemma days_from_civil_day (y m d : Z) :
  days_from_civil y m 1 + (d - 1) = days_from_civil y m d.
Proof. unfold days_from_civil. lia. Qed.

Lemma Date_unix (y m d hh mi ss : Z) :
  1 <= m <= 12 ->
  Date y m d hh mi ss 0
  = mkTime ((days_from_civil y m d * 24 + hh) * 3600 + mi * 60 + ss) 0 0.
Proof.
  intros Hm. unfold Date.
  replace ((m - 1) / 12) with 0 by (Z.div_mod_to_equations; lia).
  replace ((m - 1) mod 12 + 1) with m by (Z.div_mod_to_equations; lia).
  rewrite Z.add_0_r, days_from_civil_day.
  replace (0 / Second) with 0 by reflexivity.
  replace (0 mod Second) with 0 by reflexivity.
  now rewrite Z.add_0_r.
Qed.

(** A UTC time of the years 0000 to 9999 is read back from its formatted
    text, to the second. *)
Lemma Parse_Format (t : Time) :
  offset t = 0 -> minUnix <= unixSec t <= maxUnix ->
  Parse (Format t) = inl (mkTime (unixSec t) 0 0)
  /\ String.length (Format t) = 20%nat
  /\ rfc3339_form (Format t) = true.
Proof.
  intros Ho Hr. unfold minUnix, maxUnix in Hr. unfold Format. rewrite Ho, Z.add_0_r.
  cbn [Z.eqb].
  set (u := unixSec t) in *.
  pose proof (civil_from_days_spec (u / 86400)) as Hc.
  assert (Hy : 0 <= fst (fst (civil_from_days (u / 86400))) <= 9999).
  { apply civil_year_range. Z.div_mod_to_equations. lia. }
  destruct (civil_from_days (u / 86400)) as [[y m] d]. cbn [fst] in Hy.
  destruct Hc as (Hd & Hm & Hday).
  assert (Hd31 : daysIn m y <= 31).
  { unfold daysIn. destruct (m =? 2); [destruct (isLeap y); lia |].
    destruct ((m =? 4) || (m =? 6) || (m =? 9) || (m =? 11)); lia. }
  set (secs := u mod 86400).
  assert (Hs : 0 <= secs < 86400) by (subst secs; Z.div_mod_to_equations; lia).
  destruct (appendInt_four y) as (y1 & y2 & y3 & y4 & -> & Y1 & Y2 & Y3 & Y4 & Ey);
    [lia |].
  destruct (appendInt_two m) as (m1 & m2 & -> & M1 & M2 & Em); [lia |].
  destruct (appendInt_two d) as (d1 & d2 & -> & D1 & D2 & Ed); [lia |].
  destruct (appendInt_two (secs / 3600)) as (h1 & h2 & -> & H1 & H2 & Eh);
    [Z.div_mod_to_equations; lia |].
  destruct (appendInt_two (secs mod 3600 / 60)) as (i1 & i2 & -> & I1 & I2 & Ei);
    [Z.div_mod_to_equations; lia |].
  destruct (appendInt_two (secs mod 60)) as (s1 & s2 & -> & S1 & S2 & Es);
    [Z.div_mod_to_equations; lia |].
  cbn [append].
  split; [| split; [reflexivity |]].
  - rewrite Parse_canonical; try assumption;
      rewrite ?Ey, ?Em, ?Ed, ?Eh, ?Ei, ?Es;
      try (Z.div_mod_to_equations; lia).
    rewrite Date_unix by assumption. cbn [unixSec nsec]. rewrite Hd.
    f_equal. f_equal. subst secs. Z.div_mod_to_equations. lia.
  - unfold rfc3339_form, date_form, minutes_form, offset_form, is_char.
    rewrite Y1, Y2, Y3, Y4, M1, M2, D1, D2. cbn.
    rewrite H1, H2, I1, I2, S1, S2. reflexivity.
Qed.

Lemma Parse_nsec (s : string) (t : Time) :
  Parse s = inl t -> 0 <= nsec t < Second.
Proof.
  unfold Parse.
  destruct ((String.length s <? 4)%nat || negb (isDigit s 0)); [discriminate |].
  destruct (atoi (substring 0 4 s)) as [year|]; [| discriminate].
  destruct (skip s "-" _) as [v1|]; [| discriminate].
  destruct (number _ _ _ _ _ v1) as [[month v2]|]; [| discriminate].
  destruct (skip s "-" v2) as [v3|]; [| discriminate].
  destruct (number _ _ _ _ _ v3) as [[day v4]|]; [| discriminate].
  destruct (skip s "T" v4) as [v5|]; [| discriminate].
  destruct (number _ _ _ _ _ v5) as [[hour v6]|]; [| discriminate].
  destruct (skip s ":" v6) as [v7|]; [| discriminate].
  destruct (number _ _ _ _ _ v7) as [[min v8]|]; [| discriminate].
  destruct (skip s ":" v8) as [v9|]; [| discriminate].
  destruct (number _ _ _ _ _ v9) as [[sec v10]|]; [| discriminate].
  destruct (fraction s v10) as [[ns v11]|]; [| discriminate].
  destruct (zone s v11) as [[z v12]|]; [| discriminate].
  destruct (negb (String.eqb v12 "")); [discriminate |].
  destruct ((day <? 1) || (day >? daysIn month year)); [discriminate |].
  intros H. injection H as <-. cbn [nsec Date].
  apply Z.mod_pos_bound. reflexivity.
Qed.

Lemma Add_unix (t : Time) (d : Z) :
  0 <= nsec t < Second ->
  unixSec (Add t d) = unixSec t + (nsec t + d) / Second
  /\ offset (Add t d) = offset t.
Proof.
  unfold Second, Add. intros Hn.
  destruct (Z.geb_spec (nsec t + Z.rem d 1000000000) 1000000000);
    [| destruct (Z.ltb_spec (nsec t + Z.rem d 1000000000) 0)];
    cbn [unixSec offset]; (split; [| reflexivity]);
    Z.to_euclidean_division_equations; lia.
Qed.

Lemma Format_seconds (u n : Z) : Format (mkTime u n 0) = Format (mkTime u 0 0).
Proof. reflexivity. Qed.

Lemma convertTimestamp_Format (timeStamp : string) (d u : Z) :
  instant timeStamp = Some u ->
  exists n, 0 <= n < Second
    /\ convertTimestamp timeStamp d = Ok (Format (mkTime (u + (n + d) / Second) 0 0)).
Proof.
  unfold instant, convertTimestamp. destruct (Parse timeStamp) as [t|e] eqn:P;
    [| discriminate].
  intros H. injection H as <-. exists (nsec t).
  pose proof (Parse_nsec _ _ P) as Hn. split; [exact Hn |].
  destruct (Add_unix (UTC t) d Hn) as [A B]. cbn [UTC unixSec nsec offset] in A, B.
  destruct (Add (UTC t) d) as [a n o]. cbn [unixSec offset] in A, B. subst a o.
  now rewrite Format_seconds.
Qed.

Lemma whole_seconds (n k : Z) : 0 <= n < Second -> (n + k * Second) / Second = k.
Proof. unfold Second. intros H. Z.div_mod_to_equations. lia. Qed.

Lemma instant_Format (u : Z) :
  minUnix <= u <= maxUnix -> instant (Format (mkTime u 0 0)) = Some u.
Proof.
  intros H. unfold instant.
  destruct (Parse_Format (mkTime u 0 0) eq_refl H) as [-> _]. reflexivity.
Qed.
